(** * Stealth market intelligence: extraction, orchestration and enrichment

    A shallow embedding of the scraping pipeline's deterministic core:

    - [DataExtractor]           src/stealth_scraper.py, class DataExtractor
    - [StealthScraper]          src/stealth_scraper.py, class StealthScraper
    - [HumanBehaviorSimulator]  src/human_behavior.py,  scroll_to_bottom
    - [AIEnrichmentEngine]      src/ai_enrichment.py,   class AIEnrichmentEngine
    - [EnrichedOutput]          src/ai_enrichment.py,   save_enriched_data
    - [Targets]                 config/scraping_config.py, and the
                                constructor of StealthScraper
    - [BrowserManager]          src/browser_manager.py, class BrowserManager
    - [Scrape]                  src/stealth_scraper.py, StealthScraper.scrape
    - [Main]                    main.py, _run_scraping
    - [ShowOutput]              show_output.py, the sample of the raw data
    - [HumanActions]            src/human_behavior.py,  human_scroll and
                                random_mouse_movement

    Python values are embedded as the inductive type [Py.value]; a Python
    [dict] with string keys is an association list in insertion order; a
    Python [float] is a binary64 primitive float; a Python [str] that the
    program takes apart is a sequence of Unicode code points
    ([Unicode.text]), classified by the character database of the
    interpreter; a [str] held in a value is a byte string, in UTF-8.
    Code that may raise returns a [Py.result]; code that reads the clock or
    calls the language-model provider runs in the state monad [Py.M].  The
    calls into the browser are a trace, and whether a call raises is left
    to the environment.  What the program prints is left out: [print] is
    taken to return. *)

From Stdlib Require Import ZArith NArith List String Ascii Bool Lia Floats.
From Stdlib Require Import PeanoNat.
From Stdlib Require Import DecimalString DecimalNat.
Import ListNotations.

Set Warnings "-inexact-float,-register-all".

Local Open Scope list_scope.
Local Open Scope string_scope.

(* ================================================================== *)
(** ** Python values, exceptions, dictionaries *)

Module Py.

Inductive exn : Type :=
| KeyError
| TypeError
| ValueError
| OverflowError
| JSONDecodeError
| ProviderError.

Inductive result (A : Type) : Type :=
| Ok (a : A)
| Raise (e : exn).

Arguments Ok {A} a.
Arguments Raise {A} e.

(** The values JSON can carry.  [VDict] keeps insertion order, as a Python
    dict does. *)
Inductive value : Type :=
| VNone
| VBool (b : bool)
| VInt (z : Z)
| VFloat (f : float)
| VStr (s : string)
| VList (l : list value)
| VDict (d : list (string * value)).

Definition dict : Type := list (string * value).

(** [d.get(k)]: [None] stands for the absent key. *)
Fixpoint dict_get (k : string) (d : dict) : option value :=
  match d with
  | [] => None
  | (k', v) :: r => if String.eqb k k' then Some v else dict_get k r
  end.

(** [d[k]], raising KeyError on an absent key. *)
Definition getitem (k : string) (d : dict) : result value :=
  match dict_get k d with
  | Some v => Ok v
  | None => Raise KeyError
  end.

(** [d[k] = v]: an existing key keeps its place, a new key goes last. *)
Fixpoint setitem (k : string) (v : value) (d : dict) : dict :=
  match d with
  | [] => [(k, v)]
  | (k', v') :: r =>
      if String.eqb k k' then (k, v) :: r else (k', v') :: setitem k v r
  end.

(** *** The world: wall clock and provider calls *)

Record world : Type := mkWorld {
  ticks : nat;               (* how often datetime.now() has been read *)
  llm_calls : list string    (* prompts sent to the provider, oldest first *)
}.

Definition M (A : Type) : Type := world -> result A * world.

Definition ret {A} (a : A) : M A := fun w => (Ok a, w).

Definition raise {A} (e : exn) : M A := fun w => (Raise e, w).

Definition bind {A B} (m : M A) (k : A -> M B) : M B :=
  fun w =>
    match m w with
    | (Ok a, w') => k a w'
    | (Raise e, w') => (Raise e, w')
    end.

Definition lift {A} (r : result A) : M A := fun w => (r, w).

(** [try: body  except Exception: handler]; what the body did to the world
    before raising stays done. *)
Definition try_except {A} (body : M A) (handler : exn -> M A) : M A :=
  fun w =>
    match body w with
    | (Ok a, w') => (Ok a, w')
    | (Raise e, w') => handler e w'
    end.

Fixpoint mapM {A B} (f : A -> M B) (l : list A) : M (list B) :=
  match l with
  | [] => ret []
  | x :: r =>
      bind (f x) (fun y =>
      bind (mapM f r) (fun ys =>
      ret (y :: ys)))
  end.

End Py.

Import Py.

Declare Scope py_scope.
Delimit Scope py_scope with py.
Notation "x <- m ;; k" := (Py.bind m (fun x => k))
  (at level 61, m at next level, right associativity) : py_scope.
Local Open Scope py_scope.

(* ================================================================== *)
(** ** Unicode: Python's [str], and the character database of the
       interpreter *)

Module Unicode.

(** A code point. *)
Definition code : Type := N.

Bind Scope N_scope with code.

(** A Python [str]: a sequence of code points. *)
Inductive text : Type :=
| Empty
| Char (c : code) (rest : text).

Fixpoint append (a b : text) : text :=
  match a with
  | Empty => b
  | Char c r => Char c (append r b)
  end.

Fixpoint length (s : text) : nat :=
  match s with
  | Empty => O
  | Char _ r => S (length r)
  end.

(** [a == b] *)
Fixpoint eqb (a b : text) : bool :=
  match a, b with
  | Empty, Empty => true
  | Char c a', Char d b' => N.eqb c d && eqb a' b'
  | _, _ => false
  end.

Definition is_ascii (c : code) : bool := (c <? 128)%N.

(** What the character database of the interpreter says of the code points
    from 128 on (the ASCII characters are classified in [Text], the same
    for every database):
    - [decimal]: the digit a character of category Nd stands for, which is
      what [\d] matches in a pattern on [str] and what [float] reads;
    - [whitespace]: whether [str.strip] removes the character;
    - [lowercase]: what [str.lower] writes for the character, which is one
      to three characters and, for the capital sigma, depends on the text
      before and after it. *)
Record database : Type := mkDatabase {
  decimal : code -> option N;
  whitespace : code -> bool;
  lowercase : text -> code -> text -> text
}.

Definition digit_from (zero c : code) : option N :=
  if ((zero <=? c) && (c <=? zero + 9))%N then Some (c - zero)%N else None.

(** A database for the examples: the Arabic-Indic digits (from U+0660) and
    the fullwidth digits (from U+FF10); the white space of Unicode outside
    ASCII; the Kelvin sign (U+212A), lowered to the letter k, and the
    capitals of Latin-1. *)
Definition sample : database :=
  mkDatabase
    (fun c =>
       match digit_from 1632%N c with
       | Some d => Some d
       | None => digit_from 65296%N c
       end)
    (fun c =>
       existsb (N.eqb c) [133; 160; 5760; 8232; 8233; 8239; 8287; 12288]%N
       || ((8192 <=? c) && (c <=? 8202))%N)
    (fun _ c _ =>
       if (c =? 8490)%N then Char 107%N Empty
       else if ((192 <=? c) && (c <=? 222) && negb (c =? 215))%N
            then Char (c + 32)%N Empty
       else Char c Empty).

(** *** UTF-8

    The texts read from a page are held in a [Py.value] in UTF-8, as the
    output files hold them; so are the keys of the dicts, the selectors and
    whatever else the program never takes apart. *)

Definition utf8 (c : code) : string :=
  if (c <? 128)%N then String (ascii_of_N c) EmptyString
  else if (c <? 2048)%N then
    String (ascii_of_N (192 + c / 64))
      (String (ascii_of_N (128 + c mod 64)) EmptyString)
  else if (c <? 65536)%N then
    String (ascii_of_N (224 + c / 4096))
      (String (ascii_of_N (128 + (c / 64) mod 64))
         (String (ascii_of_N (128 + c mod 64)) EmptyString))
  else
    String (ascii_of_N (240 + (c / 262144) mod 8))
      (String (ascii_of_N (128 + (c / 4096) mod 64))
         (String (ascii_of_N (128 + (c / 64) mod 64))
            (String (ascii_of_N (128 + c mod 64)) EmptyString))).

Fixpoint encode (t : text) : string :=
  match t with
  | Empty => EmptyString
  | Char c r => String.append (utf8 c) (encode r)
  end.

(** A byte that continues a character begun before it. *)
Definition continues (b : ascii) : bool :=
  ((128 <=? N_of_ascii b) && (N_of_ascii b <? 192))%N.

(** The characters of a text held in UTF-8, one by one. *)
Fixpoint characters (s : string) : list string :=
  match s with
  | EmptyString => []
  | String b r =>
      let rest := characters r in
      match r, rest with
      | String b' _, w :: ws =>
          if continues b' then String b w :: ws
          else String b EmptyString :: rest
      | _, _ => String b EmptyString :: rest
      end
  end.

(** *** Literals: an ASCII string literal read as a text *)

Fixpoint of_literal (l : list Byte.byte) : option text :=
  match l with
  | [] => Some Empty
  | b :: r =>
      let c := N_of_ascii (ascii_of_byte b) in
      if is_ascii c then option_map (Char c) (of_literal r) else None
  end.

Fixpoint to_literal (t : text) : option (list Byte.byte) :=
  match t with
  | Empty => Some []
  | Char c r =>
      if is_ascii c
      then option_map (cons (byte_of_ascii (ascii_of_N c))) (to_literal r)
      else None
  end.

End Unicode.

Declare Scope text_scope.
Delimit Scope text_scope with text.
Bind Scope text_scope with Unicode.text.
String Notation Unicode.text Unicode.of_literal Unicode.to_literal
  : text_scope.
Infix "++" := Unicode.append : text_scope.

(* ================================================================== *)
(** ** Text: the string methods and regular expressions the code uses *)

Module Text.

Import Unicode.

Definition dot : code := 46%N.     (* '.' *)

Definition comma : code := 44%N.   (* ',' *)

Definition ascii_digit (c : code) : option N :=
  if ((48 <=? c) && (c <=? 57))%N then Some (c - 48)%N else None.

(** The decimal digit a character stands for, if it is one. *)
Definition digit_value (U : database) (c : code) : option N :=
  if is_ascii c then ascii_digit c else decimal U c.

(** [\d] in a pattern on [str]: a decimal digit of any script. *)
Definition is_digit (U : database) (c : code) : bool :=
  match digit_value U c with
  | Some _ => true
  | None => false
  end.

Definition is_upper (c : code) : bool := ((65 <=? c) && (c <=? 90))%N.

(** What [str.strip()] removes: in ASCII, TAB, LF, VT, FF, CR, FS, GS, RS,
    US and SPACE; beyond, what the database names. *)
Definition is_space (U : database) (c : code) : bool :=
  if is_ascii c then
    ((9 <=? c) && (c <=? 13))%N || ((28 <=? c) && (c <=? 32))%N
  else whitespace U c.

Definition lower_char (c : code) : code :=
  if is_upper c then (c + 32)%N else c.

(** [s.lower()], for the part [s] of a text that follows [before]. *)
Fixpoint lower_from (U : database) (before s : text) : text :=
  match s with
  | Empty => Empty
  | Char c r =>
      ((if is_ascii c then Char (lower_char c) Empty
        else lowercase U before c r)
       ++ lower_from U (before ++ Char c Empty) r)%text
  end.

(** [s.lower()] *)
Definition lower (U : database) (s : text) : text := lower_from U Empty s.

(** [s.replace(c, '')] for a one-character [c] *)
Fixpoint remove_char (x : code) (s : text) : text :=
  match s with
  | Empty => Empty
  | Char c r =>
      if N.eqb c x then remove_char x r else Char c (remove_char x r)
  end.

Fixpoint lstrip (U : database) (s : text) : text :=
  match s with
  | Empty => Empty
  | Char c r => if is_space U c then lstrip U r else s
  end.

Fixpoint all_space (U : database) (s : text) : bool :=
  match s with
  | Empty => true
  | Char c r => is_space U c && all_space U r
  end.

Fixpoint rstrip (U : database) (s : text) : text :=
  match s with
  | Empty => Empty
  | Char c r => if all_space U s then Empty else Char c (rstrip U r)
  end.

(** [s.strip()] *)
Definition strip (U : database) (s : text) : text := rstrip U (lstrip U s).

(** [s.startswith(p)] *)
Fixpoint starts_with (p s : text) : bool :=
  match p, s with
  | Empty, _ => true
  | Char a p', Char b s' => N.eqb a b && starts_with p' s'
  | Char _ _, Empty => false
  end.

(** [w in s] *)
Fixpoint contains (w s : text) : bool :=
  starts_with w s ||
  match s with
  | Empty => false
  | Char _ r => contains w r
  end.

(** The longest prefix of [s] whose characters satisfy [p], and the rest. *)
Fixpoint span (p : code -> bool) (s : text) : text * text :=
  match s with
  | Empty => (Empty, Empty)
  | Char c r =>
      if p c then let '(a, b) := span p r in (Char c a, b)
      else (Empty, s)
  end.

(** Whether every character of [s] satisfies [p]. *)
Fixpoint all_chars (p : code -> bool) (s : text) : bool :=
  match s with
  | Empty => true
  | Char c r => p c && all_chars p r
  end.

(** [s[n:]] *)
Fixpoint drop (n : nat) (s : text) : text :=
  match n, s with
  | O, _ => s
  | S n', Char _ r => drop n' r
  | S _, Empty => Empty
  end.

(** A match of [C+\.?\d*] anchored at the start of [s], for a character
    class [C]: every quantifier is greedy, and none ever has to give a
    character back, because what follows it cannot start with a character
    it accepts or is optional. *)
Definition match_number_at (U : database) (cls : code -> bool) (s : text)
  : option text :=
  match span cls s with
  | (Empty, _) => None
  | (ip, rest) =>
      match rest with
      | Char c rest' =>
          if N.eqb c dot then
            Some (ip ++ Char dot (fst (span (is_digit U) rest')))%text
          else Some ip
      | Empty => Some ip
      end
  end.

(** [re.search(r'C+\.?\d*', s)]: the leftmost match, [group(0)]. *)
Fixpoint search_number (U : database) (cls : code -> bool) (s : text)
  : option text :=
  match match_number_at U cls s with
  | Some m => Some m
  | None =>
      match s with
      | Empty => None
      | Char _ r => search_number U cls r
      end
  end.

(** A match of [only (\d+) left] anchored at the start of [s]. *)
Definition match_scarcity_at (U : database) (s : text) : option text :=
  if starts_with "only " s then
    match span (is_digit U) (drop 5 s) with
    | (Empty, _) => None
    | (ds, rest) =>
        if starts_with " left" rest then Some ("only " ++ ds ++ " left")%text
        else None
    end
  else None.

(** [re.search(r'only (\d+) left', s)]: the leftmost match, [group(0)]. *)
Fixpoint search_scarcity (U : database) (s : text) : option text :=
  match match_scarcity_at U s with
  | Some m => Some m
  | None =>
      match s with
      | Empty => None
      | Char _ r => search_scarcity U r
      end
  end.

(** [str(n)] for a natural number *)
Definition of_nat (n : nat) : string := NilEmpty.string_of_uint (Nat.to_uint n).

End Text.

(* ================================================================== *)
(** ** Numbers: Python's float and the int/float arithmetic prices meet *)

Module Num.

(** The binary64 value nearest to [n / d] (ties to even), for [0 <= n] and
    [0 < d].  The quotient is taken with more than 60 significant bits and
    a sticky last bit, so that the rounding to 53 bits sees on which side
    of a tie the exact quotient lies. *)
Definition float_of_ratio (n d : Z) : float :=
  if (n <=? 0)%Z then zero
  else
    let s := Z.max 0 (64 + Z.log2 d - Z.log2 n) in
    let q := (n * 2 ^ s / d)%Z in
    let r := (n * 2 ^ s mod d)%Z in
    let m := (2 * q + (if (r =? 0)%Z then 0 else 1))%Z in
    SF2Prim (binary_normalize prec emax m (- s - 1) false).

(** The number a text of decimal digits denotes, continuing from [acc]. *)
Fixpoint digits_value (U : Unicode.database) (acc : Z) (s : Unicode.text) : Z :=
  match s with
  | Unicode.Empty => acc
  | Unicode.Char c r =>
      digits_value U
        (10 * acc + match Text.digit_value U c with
                    | Some d => Z.of_N d
                    | None => 0
                    end) r
  end.

Definition all_digits (U : Unicode.database) (s : Unicode.text) : bool :=
  Text.all_chars (Text.is_digit U) s.

(** [float(s)] on text made of digits, dots and commas, which is all the two
    number patterns of the extractor can hand it: a decimal digit of any
    script counts as the digit it stands for; [ddd], [ddd.], [.ddd] and
    [ddd.ddd] are read as the nearest binary64 value (very long numbers
    overflow to infinity); anything else raises ValueError. *)
Definition py_float (U : Unicode.database) (s : Unicode.text) : result float :=
  let '(ip, rest) := Text.span (Text.is_digit U) s in
  match rest with
  | Unicode.Empty =>
      match ip with
      | Unicode.Empty => Raise ValueError
      | _ => Ok (float_of_ratio (digits_value U 0 ip) 1)
      end
  | Unicode.Char c fp =>
      if N.eqb c Text.dot && all_digits U fp then
        match ip, fp with
        | Unicode.Empty, Unicode.Empty => Raise ValueError
        | _, _ =>
            Ok (float_of_ratio (digits_value U (digits_value U 0 ip) fp)
                               (10 ^ Z.of_nat (Unicode.length fp)))
        end
      else Raise ValueError
  end.

(** [min(a, b)] on floats: the builtin answers [a] unless [b < a]. *)
Definition py_min2 (a b : float) : float := if (b <? a)%float then b else a.

(** A Python number: [bool] counts as an [int]. *)
Inductive num : Type :=
| NInt (z : Z)
| NFloat (f : float).

Definition as_num (v : value) : result num :=
  match v with
  | VInt z => Ok (NInt z)
  | VBool b => Ok (NInt (if b then 1 else 0))
  | VFloat f => Ok (NFloat f)
  | _ => Raise TypeError
  end.

(** [float(z)]: the nearest binary64 value, OverflowError beyond the range. *)
Definition int_to_float (z : Z) : result float :=
  let f := if (z <? 0)%Z then (- float_of_ratio (- z) 1)%float
           else float_of_ratio z 1 in
  if is_infinity f then Raise OverflowError else Ok f.

(** [a / b] on two ints, [0 < b]: the nearest binary64 value to the
    quotient, OverflowError beyond the range. *)
Definition int_true_div (a b : Z) : result float :=
  let f := if (a <? 0)%Z then (- float_of_ratio (- a) b)%float
           else float_of_ratio a b in
  if is_infinity f then Raise OverflowError else Ok f.

(** An int against a float, compared exactly as Python does. *)
Definition Zcompare_SF (z : Z) (x : spec_float) : option comparison :=
  match x with
  | S754_nan => None
  | S754_infinity s => Some (if s then Gt else Lt)
  | S754_zero _ => Some (z ?= 0)%Z
  | S754_finite s m e =>
      let v := if s then Zneg m else Zpos m in
      Some (if (0 <=? e)%Z then (z ?= v * 2 ^ e)%Z
            else (z * 2 ^ (- e) ?= v)%Z)
  end.

Definition num_compare (a b : num) : option comparison :=
  match a, b with
  | NInt x, NInt y => Some (x ?= y)%Z
  | NInt x, NFloat g => Zcompare_SF x (Prim2SF g)
  | NFloat f, NInt y => option_map CompOpp (Zcompare_SF y (Prim2SF f))
  | NFloat f, NFloat g => SFcompare (Prim2SF f) (Prim2SF g)
  end.

(** [a < b] *)
Definition num_ltb (a b : num) : bool :=
  match num_compare a b with
  | Some Lt => true
  | _ => false
  end.

(** [a <= b] *)
Definition num_leb (a b : num) : bool :=
  match num_compare a b with
  | Some Lt | Some Eq => true
  | _ => false
  end.

(** [a == b] *)
Definition num_eqb (a b : num) : bool :=
  match num_compare a b with
  | Some Eq => true
  | _ => false
  end.

(** [a + b] *)
Definition num_add (a b : num) : result num :=
  match a, b with
  | NInt x, NInt y => Ok (NInt (x + y))
  | NInt x, NFloat g =>
      match int_to_float x with
      | Ok f => Ok (NFloat (f + g))
      | Raise e => Raise e
      end
  | NFloat f, NInt y =>
      match int_to_float y with
      | Ok g => Ok (NFloat (f + g))
      | Raise e => Raise e
      end
  | NFloat f, NFloat g => Ok (NFloat (f + g))
  end.

(** [sum(l)], started at the int 0 and added up from the left.  (From
    CPython 3.12 on the floats are added with a compensated sum; the two
    agree whenever no addition has to round.) *)
Fixpoint sum_from (acc : num) (l : list num) : result num :=
  match l with
  | [] => Ok acc
  | x :: r =>
      match num_add acc x with
      | Ok acc' => sum_from acc' r
      | Raise e => Raise e
      end
  end.

Definition py_sum (l : list num) : result num := sum_from (NInt 0) l.

(** [total / n] for a positive int [n] (a list length). *)
Definition div_by_len (total : num) (n : Z) : result float :=
  match total with
  | NInt z => int_true_div z n
  | NFloat f =>
      match int_to_float n with
      | Ok g => Ok (f / g)%float
      | Raise e => Raise e
      end
  end.

(** [min(l)] and [max(l)] of a non-empty list: the builtin keeps the first
    extremal item. *)
Definition py_min (x : num) (l : list num) : num :=
  fold_left (fun cur item => if num_ltb item cur then item else cur) l x.

Definition py_max (x : num) (l : list num) : num :=
  fold_left (fun cur item => if num_ltb cur item then item else cur) l x.

End Num.


(* ================================================================== *)
(** ** What the program leaves to its environment *)

(** The wall clock, the language-model provider, the JSON reader applied to
    the provider's answer, the rendering of the prompt text (which goes
    through [json.dumps] and the [.2f] number format) and the character
    database of the interpreter are outside the program.  The [n]-th
    reading of the clock and the [n]-th provider call may each answer
    differently. *)
Record externals : Type := mkExternals {
  now_iso : nat -> string;
  complete : nat -> string -> result string;
  json_loads : string -> result value;
  render_prompt : list dict -> Num.num -> Num.num -> float -> string;
  unicode : Unicode.database
}.

(** [datetime.now().isoformat()] *)
Definition datetime_now (E : externals) : M string :=
  fun w => (Ok (now_iso E (ticks w)),
            mkWorld (S (ticks w)) (llm_calls w)).

(* ================================================================== *)
(** ** src/stealth_scraper.py: class DataExtractor *)

Module DataExtractor.

Import Unicode.

(** What [extract_text] can observe of a DOM element: the outcome of
    [query_selector(selector)] and, on a match, of [inner_text()]. *)
Inductive inner : Type :=
| InnerText (t : text)
| InnerRaises.

Inductive query_result : Type :=
| QueryRaises
| NoMatch
| Match (t : inner).

Definition element : Type := string -> query_result.

Definition NA : text := "N/A"%text.

Definition is_empty (s : text) : bool :=
  match s with
  | Empty => true
  | _ => false
  end.

(** [not text or text == "N/A"] *)
Definition absent (s : text) : bool := is_empty s || Unicode.eqb s NA.

Definition extract_text (U : database) (e : element) (selector : value)
    (default : text) : text :=
  match selector with
  | VStr sel =>
      match e sel with
      | Match (InnerText t) =>
          let text := Text.strip U t in
          if is_empty text then default else text
      | Match InnerRaises => default
      | NoMatch => default
      | QueryRaises => default
      end
  | _ => default   (* query_selector rejects a selector that is no string *)
  end.

(** The class [[\d,]] *)
Definition digit_or_comma (U : database) (c : code) : bool :=
  Text.is_digit U c || N.eqb c Text.comma.

Definition extract_price (U : database) (price_text : text) : option float :=
  if absent price_text then None
  else
    match Text.search_number U (digit_or_comma U)
                             (Text.remove_char Text.comma price_text) with
    | Some tok =>
        match Num.py_float U tok with
        | Ok f => Some f
        | Raise _ => None
        end
    | None => None
    end.

Definition word_ratings : list (text * float) :=
  [("one"%text, 1.0%float); ("two"%text, 2.0%float);
   ("three"%text, 3.0%float); ("four"%text, 4.0%float);
   ("five"%text, 5.0%float)].

(** The loop over [word_ratings.items()], in the order the dict is written. *)
Fixpoint first_word (words : list (text * float)) (lowered : text)
  : option float :=
  match words with
  | [] => None
  | (word, v) :: r =>
      if Text.contains word lowered then Some v else first_word r lowered
  end.

Definition extract_rating (U : database) (rating_text : text)
  : option float :=
  if absent rating_text then None
  else
    let by_word := first_word word_ratings (Text.lower U rating_text) in
    match Text.search_number U (Text.is_digit U) rating_text with
    | Some tok =>
        match Num.py_float U tok with
        | Ok rating => Some (Num.py_min2 rating 5.0%float)
        | Raise _ => by_word
        end
    | None => by_word
    end.

Definition stock_phrases : list text :=
  ["in stock"%text; "available"%text; "ready to ship"%text].

(** A text as a value. *)
Definition str (s : text) : value := VStr (encode s).

Definition opt_str (o : option text) : value :=
  match o with
  | Some s => str s
  | None => VNone
  end.

Definition extract_stock_info (U : database) (availability_text : text)
  : dict :=
  if absent availability_text then
    [("in_stock", VNone); ("scarcity_signal", VNone)]
  else
    let availability_lower := Text.lower U availability_text in
    let in_stock :=
      existsb (fun phrase => Text.contains phrase availability_lower)
              stock_phrases in
    let scarcity_signal := Text.search_scarcity U availability_lower in
    [("in_stock", VBool in_stock);
     ("scarcity_signal", opt_str scarcity_signal);
     ("raw_text", str availability_text)].

End DataExtractor.

(* ================================================================== *)
(** ** src/stealth_scraper.py: class StealthScraper *)

Module StealthScraper.

Import DataExtractor.

Record scraper : Type := mkScraper {
  target_name : string;
  target_config : dict
}.

(** [d[k]] on any value: only a dict can be indexed by a string. *)
Definition subscript (v : value) (k : string) : result value :=
  match v with
  | VDict d => getitem k d
  | _ => Raise TypeError
  end.

(** [l[:m]]: a negative [m] counts from the end. *)
Definition slice_to {A} (l : list A) (m : Z) : list A :=
  if (0 <=? m)%Z then firstn (Z.to_nat m) l
  else firstn (List.length l - Z.to_nat (- m)) l.

Definition opt_float (o : option float) : value :=
  match o with
  | Some f => VFloat f
  | None => VNone
  end.

(** The body of the [try] in [_extract_products], for the element at
    position [idx] of the enumeration. *)
Definition extract_product (E : externals) (self : scraper) (selectors : value)
    (idx : nat) (el : element) : M dict :=
  name_sel <- lift (subscript selectors "name") ;;
  let name := extract_text (unicode E) el name_sel NA in
  price_sel <- lift (subscript selectors "price") ;;
  let price_text := extract_text (unicode E) el price_sel NA in
  rating_sel <- lift (subscript selectors "rating") ;;
  let rating_text := extract_text (unicode E) el rating_sel NA in
  availability_sel <- lift (subscript selectors "availability") ;;
  let availability_text := extract_text (unicode E) el availability_sel NA in
  let price := extract_price (unicode E) price_text in
  let rating := extract_rating (unicode E) rating_text in
  let stock_info := extract_stock_info (unicode E) availability_text in
  url <- lift (getitem "url" (target_config self)) ;;
  scraped_at <- datetime_now E ;;
  ret [("id", VStr (target_name self ++ "_" ++ Text.of_nat (idx + 1)));
       ("name", str name);
       ("price", opt_float price);
       ("price_raw", str price_text);
       ("rating", opt_float rating);
       ("rating_raw", str rating_text);
       ("stock_info", VDict stock_info);
       ("source", VStr (target_name self));
       ("source_url", url);
       ("scraped_at", VStr scraped_at)].

(** [for idx, element in enumerate(...): try: ... products.append(product)
    except Exception: continue], counting from [idx]. *)
Fixpoint extract_loop (body : nat -> element -> M dict) (idx : nat)
    (els : list element) (products : list dict) : M (list dict) :=
  match els with
  | [] => ret products
  | el :: rest =>
      products' <- try_except
                     (product <- body idx el ;; ret (products ++ [product])%list)
                     (fun _ => ret products) ;;
      extract_loop body (S idx) rest products'
  end.

(** The page, as far as [_extract_products] looks at it:
    [page.query_selector_all(selector)]. *)
Definition page : Type := value -> result (list element).

Definition _extract_products (E : externals) (self : scraper) (pg : page)
    (max_products : Z) : M (list dict) :=
  selectors <- lift (getitem "selectors" (target_config self)) ;;
  container <- lift (subscript selectors "product_container") ;;
  product_elements <- lift (pg container) ;;
  extract_loop (extract_product E self selectors) 0
               (slice_to product_elements max_products) [].

(** The object [save_to_json] hands to [json.dump]. *)
Definition raw_output (E : externals) (self : scraper) (products : list dict)
  : M value :=
  scraped_at <- datetime_now E ;;
  ret (VDict
         [("metadata",
           VDict [("target", VStr (target_name self));
                  ("total_products", VInt (Z.of_nat (List.length products)));
                  ("scraped_at", VStr scraped_at)]);
          ("products", VList (map VDict products))]).

End StealthScraper.

(* ================================================================== *)
(** ** src/human_behavior.py: HumanBehaviorSimulator.scroll_to_bottom *)

Module HumanBehaviorSimulator.

(** The browser page as a transition system: reading
    [document.body.scrollHeight], running [window.scrollBy(0, n)], and
    whatever the page does while the driver sleeps. *)
Record driver (page : Type) : Type := mkDriver {
  scroll_height : page -> Z;
  scroll_by : Z -> page -> page;
  sleep : page -> page
}.

Arguments scroll_height {page} d p.
Arguments scroll_by {page} d n p.
Arguments sleep {page} d p.

(** [random.randint(lo, hi)], the [k]-th draw of the run. *)
Definition random_source : Type := Z -> Z -> nat -> Z.

Section ScrollToBottom.

Context {page : Type}.
Variable D : driver page.
Variable randint : random_source.

(** One pass through the body of [while True], up to the new reading. *)
Definition scroll_once (k : nat) (pg : page) : page :=
  let scroll_increment := randint 300%Z 800%Z k in
  sleep D (scroll_by D scroll_increment pg).

(** The loop, run for at most [fuel] passes: [Some] holds the page the loop
    leaves and the number of passes made, [None] says the loop is still
    running after [fuel] passes. *)
Fixpoint scroll_loop (fuel : nat) (k : nat) (last_height : Z) (pg : page)
  : option (page * nat) :=
  match fuel with
  | O => None
  | S fuel' =>
      let pg' := scroll_once k pg in
      let new_height := scroll_height D pg' in
      if (new_height =? last_height)%Z then Some (pg', S k)
      else scroll_loop fuel' (S k) new_height pg'
  end.

Definition scroll_to_bottom (fuel : nat) (pg : page) : option (page * nat) :=
  scroll_loop fuel 0 (scroll_height D pg) pg.

(** The page after [n] passes, and the height read at the [n]-th poll
    (poll 0 is the reading before the loop). *)
Fixpoint page_after (n : nat) (pg : page) : page :=
  match n with
  | O => pg
  | S n' => scroll_once n' (page_after n' pg)
  end.

Definition poll (pg : page) (n : nat) : Z := scroll_height D (page_after n pg).

(** Poll [n + 1] reports the height poll [n] reported. *)
Definition settled (pg : page) (n : nat) : Prop := poll pg (S n) = poll pg n.

(** The amounts scrolled by in the first [n] passes. *)
Definition increments (n : nat) : list Z := map (randint 300%Z 800%Z) (seq 0 n).

End ScrollToBottom.

End HumanBehaviorSimulator.

(* ================================================================== *)
(** ** src/ai_enrichment.py: class AIEnrichmentEngine *)

Module AIEnrichmentEngine.

Import StealthScraper.

Record price_stats : Type := mkStats {
  stat_min : Num.num;
  stat_max : Num.num;
  stat_avg : float
}.

(** [self._call_llm(prompt)] *)
Definition _call_llm (E : externals) (prompt : string) : M string :=
  fun w => (complete E (List.length (llm_calls w)) prompt,
            mkWorld (ticks w) (llm_calls w ++ [prompt])%list).

(** [p.get('price') is not None] *)
Definition is_priced (p : dict) : bool :=
  match dict_get "price" p with
  | Some VNone => false
  | Some _ => true
  | None => false
  end.

Fixpoint mapR {A B} (f : A -> result B) (l : list A) : result (list B) :=
  match l with
  | [] => Ok []
  | x :: r =>
      match f x with
      | Ok y =>
          match mapR f r with
          | Ok ys => Ok (y :: ys)
          | Raise e => Raise e
          end
      | Raise e => Raise e
      end
  end.

(** [min(prices)], [max(prices)] and [sum(prices) / len(prices)].  A price
    that is no number makes one of the three raise TypeError, whichever
    meets it first. *)
Definition compute_stats (valid_products : list dict) : M price_stats :=
  prices <- lift (mapR (getitem "price") valid_products) ;;
  nums <- lift (mapR Num.as_num prices) ;;
  match nums with
  | [] => raise ValueError
  | x :: r =>
      total <- lift (Num.py_sum nums) ;;
      avg <- lift (Num.div_by_len total (Z.of_nat (List.length nums))) ;;
      ret (mkStats (Num.py_min x r) (Num.py_max x r) avg)
  end.

Definition _fallback_categorization (product : dict) (stats : price_stats)
  : result string :=
  let price := match dict_get "price" product with
               | Some v => v
               | None => VInt 0
               end in
  let avg_price := stat_avg stats in
  match Num.as_num price with
  | Raise e => Raise e
  | Ok price =>
      if Num.num_ltb price (Num.NFloat (avg_price * 0.7)) then Ok "Budget"
      else if Num.num_ltb price (Num.NFloat (avg_price * 1.3)) then Ok "Mid Range"
      else Ok "High End"
  end.

Definition _apply_fallback (E : externals) (stats : price_stats)
    (product : dict) : M dict :=
  let product_copy := product in
  category <- lift (_fallback_categorization product stats) ;;
  let product_copy := setitem "ai_category" (VStr category) product_copy in
  let product_copy :=
    setitem "ai_reasoning" (VStr "Rule-based categorization (AI unavailable)")
            product_copy in
  enriched_at <- datetime_now E ;;
  ret (setitem "enriched_at" (VStr enriched_at) product_copy).

(** [for c in v]: a list gives its items, a dict its keys, a string its
    characters; nothing else can be iterated. *)
Definition py_iter (v : value) : result (list value) :=
  match v with
  | VList l => Ok l
  | VDict d => Ok (map (fun kv => VStr (fst kv)) d)
  | VStr s => Ok (map VStr (Unicode.characters s))
  | _ => Raise TypeError
  end.

(** Whether a value can be a dictionary key. *)
Definition hashable (v : value) : bool :=
  match v with
  | VList _ | VDict _ => false
  | _ => true
  end.

(** Equality of two dictionary keys: numbers by value ([True == 1 == 1.0]),
    strings by content, [None] only with itself. *)
Definition key_eqb (a b : value) : bool :=
  match a, b with
  | VNone, VNone => true
  | VStr x, VStr y => String.eqb x y
  | _, _ =>
      match Num.as_num a, Num.as_num b with
      | Ok x, Ok y => Num.num_eqb x y
      | _, _ => false
      end
  end.

(** [{c['id']: c for c in items}], kept as the list of pairs in the order
    they were written: a later pair with an equal key replaces an earlier. *)
Definition categorization_map (items : list value)
  : result (list (value * value)) :=
  mapR (fun c =>
          match subscript c "id" with
          | Ok k => if hashable k then Ok (k, c) else Raise TypeError
          | Raise e => Raise e
          end) items.

Fixpoint lookup_last (k : value) (m : list (value * value)) : option value :=
  match m with
  | [] => None
  | (k', c) :: r =>
      match lookup_last k r with
      | Some c' => Some c'
      | None => if key_eqb k k' then Some c else None
      end
  end.

(** [k in m], then [m[k]] *)
Definition categorization_get (k : value) (m : list (value * value))
  : result (option value) :=
  if hashable k then Ok (lookup_last k m) else Raise TypeError.

(** One pass of the loop [for product in products] inside the [try]. *)
Definition enrich_one (E : externals) (stats : price_stats)
    (categorizations : list (value * value)) (product : dict) : M dict :=
  let product_copy := product in
  id <- lift (getitem "id" product) ;;
  found <- lift (categorization_get id categorizations) ;;
  product_copy <-
    match found with
    | Some cat_data =>
        category <- lift (subscript cat_data "category") ;;
        let product_copy := setitem "ai_category" category product_copy in
        reasoning <- lift (subscript cat_data "reasoning") ;;
        ret (setitem "ai_reasoning" reasoning product_copy)
    | None =>
        category <- lift (_fallback_categorization product stats) ;;
        let product_copy := setitem "ai_category" (VStr category) product_copy in
        ret (setitem "ai_reasoning"
                     (VStr "Fallback categorization based on price")
                     product_copy)
    end ;;
  enriched_at <- datetime_now E ;;
  ret (setitem "enriched_at" (VStr enriched_at) product_copy).

(** The four fields of a product shown to the provider. *)
Definition summary_of (p : dict) : result dict :=
  match getitem "id" p, getitem "name" p, getitem "price" p, getitem "rating" p with
  | Ok id, Ok name, Ok price, Ok rating =>
      Ok [("id", id); ("name", name); ("price", price); ("rating", rating)]
  | _, _, _, _ => Raise KeyError
  end.

Definition _enrich_batch (E : externals) (products : list dict)
    (stats : price_stats) : M (list dict) :=
  product_summary <- lift (mapR summary_of products) ;;
  let prompt := render_prompt E product_summary (stat_min stats)
                              (stat_max stats) (stat_avg stats) in
  try_except
    (response_text <- _call_llm E prompt ;;
     response_json <- lift (json_loads E response_text) ;;
     listed <- lift (subscript response_json "categorizations") ;;
     items <- lift (py_iter listed) ;;
     categorizations <- lift (categorization_map items) ;;
     mapM (enrich_one E stats categorizations) products)
    (fun _ => mapM (_apply_fallback E stats) products).

Definition batch_size : nat := 20.

(** [l[i:j]] for [0 <= i <= j] *)
Definition slice {A} (l : list A) (i j : nat) : list A :=
  firstn (j - i) (skipn i l).

(** [range(0, stop, step)] for [0 < step] *)
Definition range_step (stop step : nat) : list nat :=
  map (fun k => k * step)%nat (seq 0 ((stop + step - 1) / step)).

(** The batches the loop of [categorize_products] cuts, in the order it
    meets them. *)
Definition batches {A} (l : list A) : list (list A) :=
  map (fun i => slice l i (i + batch_size))
      (range_step (List.length l) batch_size).

(** [for batch in ...: enriched_products.extend(self._enrich_batch(batch))] *)
Fixpoint enrich_batches (E : externals) (stats : price_stats)
    (bs : list (list dict)) (enriched_products : list dict) : M (list dict) :=
  match bs with
  | [] => ret enriched_products
  | batch :: rest =>
      enriched_batch <- _enrich_batch E batch stats ;;
      enrich_batches E stats rest (enriched_products ++ enriched_batch)%list
  end.

Definition categorize_products (E : externals) (products : list dict)
  : M (list dict) :=
  let valid_products := filter is_priced products in
  match valid_products with
  | [] => ret products
  | _ =>
      stats <- compute_stats valid_products ;;
      enriched_products <- enrich_batches E stats (batches valid_products) [] ;;
      ret (enriched_products
             ++ filter (fun p => negb (is_priced p)) products)%list
  end.

(** [data.get('products', [])] in [enrich_from_file], read as the list of
    product dicts [categorize_products] is then given. *)
Definition loaded_products (data : value) : result (list dict) :=
  match data with
  | VDict d =>
      match dict_get "products" d with
      | Some (VList l) =>
          mapR (fun v => match v with
                         | VDict p => Ok p
                         | _ => Raise TypeError
                         end) l
      | Some _ => Raise TypeError
      | None => Ok []
      end
  | _ => Raise TypeError
  end.

End AIEnrichmentEngine.

(* ================================================================== *)
(** ** config/scraping_config.py and the raw output file *)

Module ScrapingConfig.

(** [TARGET_URLS['books_toscrape']] *)
Definition books_toscrape : dict :=
  [("url", VStr "https://books.toscrape.com/catalogue/category/books_1/index.html");
   ("type", VStr "static");
   ("selectors",
    VDict [("product_container", VStr "article.product_pod");
           ("name", VStr "h3 a");
           ("price", VStr "p.price_color");
           ("rating", VStr "p.star-rating");
           ("availability", VStr "p.availability")])].

End ScrapingConfig.

Module RawFile.

Import StealthScraper AIEnrichmentEngine.

(** The JSON library, as far as the two ends of the raw file use it:
    [json.dump] turns a value into the text of the file and [json.load]
    reads a text back. *)
Record json_codec (text : Type) : Type := mkCodec {
  json_dump : value -> text;
  json_load : text -> result value
}.

Arguments json_dump {text} j v.
Arguments json_load {text} j t.

(** [save_to_json]: the text written to the raw output file. *)
Definition save_to_json {text} (C : json_codec text) (E : externals)
    (self : scraper) (products : list dict) : M text :=
  data <- raw_output E self products ;;
  ret (json_dump C data).

(** The first half of [enrich_from_file]: the products read back from the
    text of the raw output file. *)
Definition load_products {text} (C : json_codec text) (content : text)
  : result (list dict) :=
  match json_load C content with
  | Ok data => loaded_products data
  | Raise e => Raise e
  end.

End RawFile.

(* ================================================================== *)
(** ** A JSON library at the level of tokens *)

(** The structure of a JSON text: brackets, braces, commas, colons and
    atoms.  How a string is escaped and how a number is spelled lie below
    this level; an atom stands for its spelling. *)
Module Json.

Import RawFile.

Inductive token : Type :=
| TNull
| TTrue
| TFalse
| TInt (z : Z)
| TFloat (f : float)
| TString (s : string)
| TOpenList
| TCloseList
| TOpenDict
| TCloseDict
| TComma
| TColon.

(** The comma before every item but the first. *)
Definition separator (first : bool) : list token :=
  if first then [] else [TComma].

Fixpoint write (v : value) : list token :=
  match v with
  | VNone => [TNull]
  | VBool true => [TTrue]
  | VBool false => [TFalse]
  | VInt z => [TInt z]
  | VFloat f => [TFloat f]
  | VStr s => [TString s]
  | VList l =>
      TOpenList ::
      (fix items (first : bool) (l : list value) : list token :=
         match l with
         | [] => [TCloseList]
         | x :: r => (separator first ++ write x ++ items false r)%list
         end) true l
  | VDict d =>
      TOpenDict ::
      (fix members (first : bool) (d : list (string * value)) : list token :=
         match d with
         | [] => [TCloseDict]
         | (k, x) :: r =>
             (separator first ++ TString k :: TColon :: write x
                ++ members false r)%list
         end) true d
  end.

Fixpoint write_items (first : bool) (l : list value) : list token :=
  match l with
  | [] => [TCloseList]
  | x :: r => (separator first ++ write x ++ write_items false r)%list
  end.

Fixpoint write_members (first : bool) (d : list (string * value))
  : list token :=
  match d with
  | [] => [TCloseDict]
  | (k, x) :: r =>
      (separator first ++ TString k :: TColon :: write x
         ++ write_members false r)%list
  end.

(** What stands after the separator, if the separator is there. *)
Definition after_separator (first : bool) (ts : list token)
  : option (list token) :=
  if first then Some ts
  else match ts with
       | TComma :: r => Some r
       | _ => None
       end.

(** The reader: a value, the items of a list up to its closing bracket, the
    members of a dict up to its closing brace; each with the tokens left
    over.  [fuel] bounds the depth of the calls. *)
Fixpoint read (fuel : nat) (ts : list token) : option (value * list token) :=
  match fuel with
  | O => None
  | S n =>
      match ts with
      | TNull :: r => Some (VNone, r)
      | TTrue :: r => Some (VBool true, r)
      | TFalse :: r => Some (VBool false, r)
      | TInt z :: r => Some (VInt z, r)
      | TFloat f :: r => Some (VFloat f, r)
      | TString s :: r => Some (VStr s, r)
      | TOpenList :: r =>
          match read_items n true r with
          | Some (l, r') => Some (VList l, r')
          | None => None
          end
      | TOpenDict :: r =>
          match read_members n true r with
          | Some (d, r') => Some (VDict d, r')
          | None => None
          end
      | _ => None
      end
  end
with read_items (fuel : nat) (first : bool) (ts : list token)
  : option (list value * list token) :=
  match fuel with
  | O => None
  | S n =>
      match ts with
      | TCloseList :: r => Some ([], r)
      | _ =>
          match after_separator first ts with
          | None => None
          | Some ts' =>
              match read n ts' with
              | Some (x, r) =>
                  match read_items n false r with
                  | Some (l, r') => Some (x :: l, r')
                  | None => None
                  end
              | None => None
              end
          end
      end
  end
with read_members (fuel : nat) (first : bool) (ts : list token)
  : option (list (string * value) * list token) :=
  match fuel with
  | O => None
  | S n =>
      match ts with
      | TCloseDict :: r => Some ([], r)
      | _ =>
          match after_separator first ts with
          | Some (TString k :: TColon :: ts') =>
              match read n ts' with
              | Some (x, r) =>
                  match read_members n false r with
                  | Some (d, r') => Some ((k, x) :: d, r')
                  | None => None
                  end
              | None => None
              end
          | _ => None
          end
      end
  end.

(** [json.load] of a whole token text: one value and nothing after it. *)
Definition load (ts : list token) : result value :=
  match read (List.length ts) ts with
  | Some (v, []) => Ok v
  | _ => Raise JSONDecodeError
  end.

Definition token_codec : json_codec (list token) := mkCodec _ write load.

End Json.

(* ================================================================== *)
(** ** The specification's own vocabulary *)

Module Spec.

Import AIEnrichmentEngine.

(** The three pricing tiers and the strings the engine writes for them. *)
Inductive category : Type := Budget | MidRange | HighEnd.

Definition category_label (c : category) : string :=
  match c with
  | Budget => "Budget"
  | MidRange => "Mid Range"
  | HighEnd => "High End"
  end.

(** The rule as the specification words it: Budget when
    [price < 0.7 * avg], MidRange when [0.7 * avg <= price < 1.3 * avg],
    HighEnd otherwise. *)
Definition tier (price : Num.num) (avg : float) : category :=
  if Num.num_ltb price (Num.NFloat (0.7 * avg)) then Budget
  else if Num.num_leb (Num.NFloat (0.7 * avg)) price
          && Num.num_ltb price (Num.NFloat (1.3 * avg)) then MidRange
  else HighEnd.

(** A product as the provider sees it, with the four fields it needs. *)
Definition priced_product (id name : string) (price : float) (rating : value)
  : dict :=
  [("id", VStr id); ("name", VStr name); ("price", VFloat price);
   ("rating", rating)].

(** An environment whose provider fails at every call. *)
Definition failing_provider (clock : nat -> string) (e : exn)
    (loads : string -> result value)
    (render : list dict -> Num.num -> Num.num -> float -> string)
    (U : Unicode.database) : externals :=
  mkExternals clock (fun _ _ => Raise e) loads render U.

(** [w] occurs in [s] as a substring. *)
Definition occurs (w s : Unicode.text) : Prop :=
  exists pre post, s = (pre ++ w ++ post)%text.

(** [s] holds no decimal digit. *)
Definition no_digit (U : Unicode.database) (s : Unicode.text) : Prop :=
  Text.all_chars (fun c => negb (Text.is_digit U c)) s = true.

(** [s] does not begin with a character satisfying [p]. *)
Definition stops (p : Unicode.code -> bool) (s : Unicode.text) : Prop :=
  match s with
  | Unicode.Empty => True
  | Unicode.Char c _ => p c = false
  end.

(** A number token [ip ++ frac] followed by [post]: digits, then possibly
    a dot and further digits, as long as they go. *)
Definition token_shape (U : Unicode.database) (ip frac post : Unicode.text)
  : Prop :=
  ip <> Unicode.Empty /\ Text.all_chars (Text.is_digit U) ip = true /\
  ((frac = Unicode.Empty /\ stops (Text.is_digit U) post
    /\ stops (fun c => N.eqb c Text.dot) post)
   \/ (exists fp, frac = Unicode.Char Text.dot fp /\
                  Text.all_chars (Text.is_digit U) fp = true /\
                  stops (Text.is_digit U) post)).

(** [tok] is the first decimal-number token of [text]: the number token
    after a prefix without any digit. *)
Definition first_number (U : Unicode.database) (text tok : Unicode.text)
  : Prop :=
  exists pre ip frac post,
    text = (pre ++ tok ++ post)%text /\ tok = (ip ++ frac)%text /\
    no_digit U pre /\ token_shape U ip frac post.

(** [m] is a scarcity phrase, [only <digits> left]. *)
Definition scarcity_phrase (U : Unicode.database) (m : Unicode.text) : Prop :=
  exists ds, m = ("only " ++ ds ++ " left")%text /\ ds <> Unicode.Empty /\
             Text.all_chars (Text.is_digit U) ds = true.

(** Texts outside ASCII: a rating in fullwidth digits (U+FF14, a dot,
    U+FF15, then [ stars]); the Arabic-Indic digit three (U+0663); a price
    in fullwidth digits before the yen character (U+FF11 to U+FF14, then
    U+5186); a no-break space (U+00A0) on its own, and around a word. *)
Definition fullwidth_rating : Unicode.text :=
  Unicode.Char 65300 (Unicode.Char 46 (Unicode.Char 65301 " stars")).

Definition arabic_three : Unicode.text := Unicode.Char 1635 Unicode.Empty.

Definition fullwidth_price : Unicode.text :=
  Unicode.Char 65297 (Unicode.Char 65298 (Unicode.Char 65299
    (Unicode.Char 65300 (Unicode.Char 20870 Unicode.Empty)))).

Definition no_break_space : Unicode.text := Unicode.Char 160 Unicode.Empty.

Definition padded_word : Unicode.text :=
  Unicode.Char 160 (Unicode.append "Book" (Unicode.Char 160 Unicode.Empty)).

(** [e] is [p] with the three enrichment fields written on it, and nothing
    else touched. *)
Definition enrichment_of (p e : dict) : Prop :=
  exists category reasoning enriched_at,
    e = setitem "enriched_at" (VStr enriched_at)
          (setitem "ai_reasoning" reasoning
             (setitem "ai_category" category p)).

(** The price of a product is a number. *)
Definition numeric_price (p : dict) : Prop :=
  exists v n, dict_get "price" p = Some v /\ Num.as_num v = Ok n.

(** A product has the four fields shown to the provider. *)
Definition has_summary (p : dict) : Prop :=
  exists s, summary_of p = Ok s.

(** [p.get('price') is None] *)
Definition unpriced (p : dict) : bool := negb (is_priced p).

(** The identifier of the product with a given ordinal, as [d.get('id')]
    shows it. *)
Definition product_id (self : StealthScraper.scraper) (ordinal : nat)
  : option value :=
  Some (VStr (StealthScraper.target_name self ++ "_" ++ Text.of_nat ordinal)).

(** The categories written on a list of products. *)
Definition categories_of (ps : list dict) : list (option value) :=
  map (dict_get "ai_category") ps.

End Spec.

(* ================================================================== *)
(** ** src/ai_enrichment.py: the category distribution of
       save_enriched_data *)

Module EnrichedOutput.

Import AIEnrichmentEngine.

(** [categories.get(cat, 0)] on the counting dict, kept as the list of its
    pairs in insertion order. *)
Fixpoint count_get (cat : value) (categories : list (value * Z)) : Z :=
  match categories with
  | [] => 0
  | (k, n) :: r => if key_eqb cat k then n else count_get cat r
  end.

(** [categories[cat] = n]: an equal key keeps its place, a new key goes
    last. *)
Fixpoint count_set (cat : value) (n : Z) (categories : list (value * Z))
  : list (value * Z) :=
  match categories with
  | [] => [(cat, n)]
  | (k, m) :: r =>
      if key_eqb cat k then (k, n) :: r else (k, m) :: count_set cat n r
  end.

(** [p.get('ai_category', 'Unknown')] *)
Definition category_of (p : dict) : value :=
  match dict_get "ai_category" p with
  | Some v => v
  | None => VStr "Unknown"
  end.

(** The loop [for p in products] of [save_enriched_data], started with the
    counts [categories].  A category that cannot be hashed (a list or a
    dict) raises TypeError.  (Python finds a NaN key again only through the
    very same object; values carry no identity here, so a NaN category
    opens an entry of its own.) *)
Fixpoint count_categories (categories : list (value * Z))
    (products : list dict) : result (list (value * Z)) :=
  match products with
  | [] => Ok categories
  | p :: rest =>
      let cat := category_of p in
      if hashable cat then
        count_categories
          (count_set cat (count_get cat categories + 1) categories) rest
      else Raise TypeError
  end.

Definition category_distribution (products : list dict)
  : result (list (value * Z)) :=
  count_categories [] products.

End EnrichedOutput.

(* ================================================================== *)
(** ** Words for what the code is observed to do *)

Module Observed.

Import AIEnrichmentEngine Spec.

(** The three keys enrichment writes. *)
Definition enrichment_key (k : string) : bool :=
  String.eqb k "ai_category" || String.eqb k "ai_reasoning"
  || String.eqb k "enriched_at".

(** [e] agrees with [p] on every key but the three enrichment keys, and
    carries these three. *)
Definition enriched_copy (p e : dict) : Prop :=
  (forall k, enrichment_key k = false -> dict_get k e = dict_get k p)
  /\ exists category reasoning enriched_at,
       dict_get "ai_category" e = Some category
       /\ dict_get "ai_reasoning" e = Some reasoning
       /\ dict_get "enriched_at" e = Some (VStr enriched_at).

(** The provider call number [n] fails, or answers a text that is no JSON,
    whatever the prompt. *)
Definition attempt_fails (E : externals) (n : nat) : Prop :=
  forall prompt,
    match complete E n prompt with
    | Raise _ => True
    | Ok text => exists e, json_loads E text = Raise e
    end.

(** The price [_fallback_categorization] looks at. *)
Definition price_value (p : dict) : value :=
  match dict_get "price" p with
  | Some v => v
  | None => VInt 0
  end.

(** [e] carries the rule-based category for the price [price], with the
    reasoning text [reasoning]. *)
Definition rule_based (avg : float) (reasoning : string) (p e : dict) : Prop :=
  exists price,
    Num.as_num (price_value p) = Ok price
    /\ dict_get "ai_category" e = Some (VStr (category_label (tier price avg)))
    /\ dict_get "ai_reasoning" e = Some (VStr reasoning).

(** What the provider's answer says about one product: its last entry with
    the product's id, if there is one. *)
Definition entry_for (cats : list (value * value)) (p : dict) : option value :=
  match dict_get "id" p with
  | Some id => lookup_last id cats
  | None => None
  end.

(** [e] carries the category and reasoning the answer [cats] gives for
    [p], or the rule-based ones where the answer has no entry for [p]. *)
Definition reconciled (avg : float) (cats : list (value * value))
    (p e : dict) : Prop :=
  match entry_for cats p with
  | Some c =>
      exists category reasoning,
        StealthScraper.subscript c "category" = Ok category
        /\ StealthScraper.subscript c "reasoning" = Ok reasoning
        /\ dict_get "ai_category" e = Some category
        /\ dict_get "ai_reasoning" e = Some reasoning
  | None => rule_based avg "Fallback categorization based on price" p e
  end.

(** The answer [cats] can be applied to [p]: the id can be hashed, and the
    entry for it is complete or, where there is none, the price is a
    number. *)
Definition reconcilable (cats : list (value * value)) (p : dict) : Prop :=
  exists id,
    dict_get "id" p = Some id /\ hashable id = true
    /\ match lookup_last id cats with
       | Some c =>
           exists category reasoning,
             StealthScraper.subscript c "category" = Ok category
             /\ StealthScraper.subscript c "reasoning" = Ok reasoning
       | None => numeric_price p
       end.

(** A computation that leaves the log of provider calls as it is, whether
    it returns or raises. *)
Definition quiet {A} (m : M A) : Prop :=
  forall w r w', m w = (r, w') -> llm_calls w' = llm_calls w.

(** The text the fallback of a whole batch writes as reasoning. *)
Definition rule_based_reasoning : string :=
  "Rule-based categorization (AI unavailable)".

(** The answer [cats] has an entry for [p] that lacks its category or its
    reasoning. *)
Definition broken_entry (cats : list (value * value)) (p : dict) : Prop :=
  exists id c e,
    dict_get "id" p = Some id /\ hashable id = true
    /\ lookup_last id cats = Some c
    /\ (StealthScraper.subscript c "category" = Raise e
        \/ StealthScraper.subscript c "reasoning" = Raise e).

(** The provider's answer to call [n] parses to the entries [cats]. *)
Definition answered (E : externals) (n : nat) (cats : list (value * value))
  : Prop :=
  exists text response listed items,
    (forall prompt, complete E n prompt = Ok text)
    /\ json_loads E text = Ok response
    /\ StealthScraper.subscript response "categorizations" = Ok listed
    /\ py_iter listed = Ok items
    /\ categorization_map items = Ok cats.

(** The order of the tiers. *)
Definition tier_rank (c : category) : nat :=
  match c with
  | Budget => 0
  | MidRange => 1
  | HighEnd => 2
  end.

(** The sum of the counts of a distribution. *)
Definition total_count (categories : list (value * Z)) : Z :=
  fold_right (fun kn acc => (snd kn + acc)%Z) 0%Z categories.

End Observed.

(* ================================================================== *)
(** ** config/scraping_config.py: the table of targets, and the
       constructor of the scraper *)

Module Targets.

Import StealthScraper.

Definition double_quote : string := String (ascii_of_nat 34) EmptyString.

(** [TARGET_URLS['amazon_headphones']] *)
Definition amazon_headphones : dict :=
  [("url", VStr "https://www.amazon.com/s?k=wireless+headphones");
   ("type", VStr "dynamic");
   ("selectors",
    VDict [("product_container",
            VStr ("div[data-component-type=" ++ double_quote
                  ++ "s-search-result" ++ double_quote ++ "]"));
           ("name", VStr "h2 a span");
           ("price", VStr "span.a-price span.a-offscreen");
           ("rating",
            VStr ("span[aria-label*=" ++ double_quote ++ "stars"
                  ++ double_quote ++ "]"));
           ("availability",
            VStr ("span[aria-label*=" ++ double_quote ++ "stock"
                  ++ double_quote ++ "]"))])].

(** [TARGET_URLS['ebay_laptops']] *)
Definition ebay_laptops : dict :=
  [("url", VStr "https://www.ebay.com/b/Laptops-Netbooks/175672/bn_1648276");
   ("type", VStr "dynamic");
   ("selectors",
    VDict [("product_container", VStr "div.s-item");
           ("name", VStr "h3.s-item__title");
           ("price", VStr "span.s-item__price");
           ("rating", VStr "span.clipped");
           ("availability", VStr "span.s-item__quantity")])].

(** [TARGET_URLS], in the order it is written. *)
Definition TARGET_URLS : list (string * dict) :=
  [("books_toscrape", ScrapingConfig.books_toscrape);
   ("amazon_headphones", amazon_headphones);
   ("ebay_laptops", ebay_laptops)].

(** [cls.TARGET_URLS.get(target_name, {})] *)
Definition get_target_config (target_name : string) : dict :=
  match find (fun kv => String.eqb target_name (fst kv)) TARGET_URLS with
  | Some (_, config) => config
  | None => []
  end.

(** [list(cls.TARGET_URLS.keys())] *)
Definition get_all_targets : list string := map fst TARGET_URLS.

(** [StealthScraper.__init__]: an empty configuration is refused. *)
Definition __init__ (target_name : string) : result scraper :=
  let target_config := get_target_config target_name in
  match target_config with
  | [] => Raise ValueError
  | _ => Ok (mkScraper target_name target_config)
  end.

End Targets.

(* ================================================================== *)
(** ** Words for what the scraper is observed to do *)

Module Scraped.

Import DataExtractor StealthScraper AIEnrichmentEngine Spec.

(** [s] neither begins nor ends with a character [strip] removes. *)
Definition trimmed (U : Unicode.database) (s : Unicode.text) : Prop :=
  stops (Text.is_space U) s
  /\ forall pre c, s = (pre ++ Unicode.Char c Unicode.Empty)%text ->
                   Text.is_space U c = false.

(** [r] is [t] without the white space around it. *)
Definition core_of (U : Unicode.database) (t r : Unicode.text) : Prop :=
  exists a b, t = (a ++ r ++ b)%text
              /\ Text.all_space U a = true /\ Text.all_space U b = true.

(** The field [k] of [p] is a text, and not the empty one. *)
Definition filled (k : string) (p : dict) : Prop :=
  exists s, dict_get k p = Some (VStr s) /\ s <> "".

(** The price of [p] is missing exactly when its raw price text holds no
    decimal digit, and is a float otherwise. *)
Definition price_follows_raw (U : Unicode.database) (p : dict) : Prop :=
  exists raw,
    dict_get "price_raw" p = Some (str raw)
    /\ ((no_digit U raw /\ dict_get "price" p = Some VNone)
        \/ (~ no_digit U raw
            /\ exists f, dict_get "price" p = Some (VFloat f))).

(** The rating of [p] is missing or a float that is not above five. *)
Definition rating_capped (p : dict) : Prop :=
  dict_get "rating" p = Some VNone
  \/ exists r, dict_get "rating" p = Some (VFloat r)
               /\ (5 <? r)%float = false.

(** The product dict [_extract_products] builds for the element at
    position [idx] from the four texts it extracted. *)
Definition record (U : Unicode.database) (self : scraper) (idx : nat)
    (name price_text rating_text availability_text : Unicode.text)
    (url : value) (scraped_at : string) : dict :=
  [("id", VStr (target_name self ++ "_" ++ Text.of_nat (idx + 1)));
   ("name", str name);
   ("price", opt_float (extract_price U price_text));
   ("price_raw", str price_text);
   ("rating", opt_float (extract_rating U rating_text));
   ("rating_raw", str rating_text);
   ("stock_info", VDict (extract_stock_info U availability_text));
   ("source", VStr (target_name self));
   ("source_url", url);
   ("scraped_at", VStr scraped_at)].

(** [p] is a record for position [idx], built from texts none of which is
    empty. *)
Definition recorded (U : Unicode.database) (self : scraper) (idx : nat)
    (p : dict) : Prop :=
  exists name price_text rating_text availability_text url scraped_at,
    p = record U self idx name price_text rating_text availability_text
               url scraped_at
    /\ name <> Unicode.Empty /\ price_text <> Unicode.Empty
    /\ rating_text <> Unicode.Empty
    /\ availability_text <> Unicode.Empty.

(** The stock information of [p] carries the availability text it was read
    from; or it is the one written when no availability text could be
    read, which carries none. *)
Definition stock_read (p : dict) : Prop :=
  exists d text,
    dict_get "stock_info" p = Some (VDict d)
    /\ dict_get "raw_text" d = Some (VStr text).

Definition stock_unread (p : dict) : Prop :=
  dict_get "stock_info" p
  = Some (VDict [("in_stock", VNone); ("scarcity_signal", VNone)]).

(** An element of the books catalogue: a title with white space around
    it, a price, no star rating to be found, and an availability text. *)
Definition book_element : element :=
  fun selector =>
    if String.eqb selector "h3 a" then Match (InnerText "  A Light in the Attic ")
    else if String.eqb selector "p.price_color" then Match (InnerText "$51.77")
    else if String.eqb selector "p.star-rating" then NoMatch
    else if String.eqb selector "p.availability" then
      Match (InnerText "In stock (only 3 left)")
    else QueryRaises.

(** A clock that answers the number of the reading, a provider that is
    down, the sample character database. *)
Definition offline : externals :=
  mkExternals Text.of_nat (fun _ _ => Raise ProviderError)
              (fun _ => Raise JSONDecodeError) (fun _ _ _ _ => "prompt")
              Unicode.sample.

End Scraped.

(* ================================================================== *)
(** ** src/browser_manager.py: class BrowserManager *)

Module BrowserManager.

(** The calls a scraping run makes into Playwright and the user-agent
    library, each of which may raise.  The two calls [scrape] makes to the
    behaviour simulator are one step each here: what they do inside the
    page is the matter of [HumanBehaviorSimulator]. *)
Inductive call : Type :=
| NewUserAgent                          (* UserAgent() *)
| Start                                 (* sync_playwright().start() *)
| Launch                                (* playwright.chromium.launch(...) *)
| RandomUserAgent                       (* user_agent_generator.random *)
| NewContext                            (* browser.new_context(...) *)
| NewPage                               (* context.new_page() *)
| AddInitScript                         (* page.add_init_script(stealth_js) *)
| Goto (url : value)                    (* page.goto(url, ...) *)
| SimulateBrowsing (num_interactions : Z)
| ScrollToBottom
| ClosePage                             (* page.close() *)
| CloseContext                          (* context.close() *)
| CloseBrowser                          (* browser.close() *)
| Stop.                                 (* playwright.stop() *)

Inductive error : Type :=
| CallFailed (c : call)     (* the exception a call into the browser raised *)
| Python (e : exn).

Inductive outcome (A : Type) : Type :=
| Returned (a : A)
| Raised (e : error).

Arguments Returned {A} a.
Arguments Raised {A} e.

(** The manager object and what surrounds it: whether each of the four
    attributes holds an object, the calls made so far (oldest first), and
    the world of the Python side. *)
Record session : Type := mkSession {
  playwright : bool;
  browser : bool;
  context : bool;
  page : bool;
  calls : list call;
  clock : world
}.

(** What the run does not decide: whether a call raises, given the calls
    made before it; what the page shows to [query_selector_all], given the
    calls made; and the externals of the Python side. *)
Record environment : Type := mkEnvironment {
  raises : list call -> call -> bool;
  dom : list call -> StealthScraper.page;
  ext : externals
}.

Definition B (A : Type) : Type := session -> outcome A * session.

Definition ret {A} (a : A) : B A := fun s => (Returned a, s).

Definition bind {A C} (m : B A) (k : A -> B C) : B C :=
  fun s =>
    match m s with
    | (Returned a, s') => k a s'
    | (Raised e, s') => (Raised e, s')
    end.

Definition andthen {A} (m : B unit) (k : B A) : B A := bind m (fun _ => k).

(** A call is made, and raises or returns. *)
Definition perform (N : environment) (c : call) : B unit :=
  fun s =>
    let s' := mkSession (playwright s) (browser s) (context s) (page s)
                        (calls s ++ [c])%list (clock s) in
    if raises N (calls s) c then (Raised (CallFailed c), s')
    else (Returned tt, s').

(** A computation of the Python side, run in the session's world. *)
Definition python {A} (m : M A) : B A :=
  fun s =>
    let '(r, w) := m (clock s) in
    let s' := mkSession (playwright s) (browser s) (context s) (page s)
                        (calls s) w in
    match r with
    | Ok a => (Returned a, s')
    | Raise e => (Raised (Python e), s')
    end.

Definition set_playwright : B unit :=
  fun s => (Returned tt, mkSession true (browser s) (context s) (page s)
                                   (calls s) (clock s)).

Definition set_browser : B unit :=
  fun s => (Returned tt, mkSession (playwright s) true (context s) (page s)
                                   (calls s) (clock s)).

Definition set_context : B unit :=
  fun s => (Returned tt, mkSession (playwright s) (browser s) true (page s)
                                   (calls s) (clock s)).

Definition set_page : B unit :=
  fun s => (Returned tt, mkSession (playwright s) (browser s) (context s) true
                                   (calls s) (clock s)).

(** [BROWSER_CONFIG['user_agent_rotation']] *)
Definition user_agent_rotation : bool := true.

(** [__init__]: the four attributes start as [None]. *)
Definition __init__ (N : environment) : B unit :=
  andthen (fun s => (Returned tt,
                     mkSession false false false false (calls s) (clock s)))
          (perform N NewUserAgent).

Definition _get_realistic_user_agent (N : environment) (rotation : bool)
  : B unit :=
  if rotation then perform N RandomUserAgent else ret tt.

Definition _inject_stealth_scripts (N : environment) : B unit :=
  perform N AddInitScript.

Definition _create_stealth_context (N : environment) (rotation : bool)
  : B unit :=
  andthen (_get_realistic_user_agent N rotation)
  (andthen (perform N NewContext)
  (andthen set_context
  (andthen (perform N NewPage)
  (andthen set_page
  (_inject_stealth_scripts N))))).

Definition initialize (N : environment) (rotation : bool) : B unit :=
  andthen (perform N Start)
  (andthen set_playwright
  (andthen (perform N Launch)
  (andthen set_browser
  (_create_stealth_context N rotation)))).

(** [navigate_to]: the two sleeps cannot fail; the [except] prints and
    raises again. *)
Definition navigate_to (N : environment) (url : value) : B unit :=
  perform N (Goto url).

Definition when (b : bool) (m : B unit) : B unit := if b then m else ret tt.

Definition close (N : environment) : B unit :=
  andthen (fun s => when (page s) (perform N ClosePage) s)
  (andthen (fun s => when (context s) (perform N CloseContext) s)
  (andthen (fun s => when (browser s) (perform N CloseBrowser) s)
  (fun s => when (playwright s) (perform N Stop) s))).

Definition __enter__ (N : environment) : B unit :=
  initialize N user_agent_rotation.

Definition __exit__ (N : environment) : B unit := close N.

(** [with BrowserManager() as browser_manager: body].  The manager is made
    and entered; if that raises, the block is not run and nothing is
    left.  Otherwise [__exit__] runs after the body, however the body
    ended; it answers [None], so an exception of the body goes on, unless
    [__exit__] raises one of its own. *)
Definition with_manager {A} (N : environment) (body : B A) : B A :=
  fun s =>
    match andthen (__init__ N) (__enter__ N) s with
    | (Raised e, s1) => (Raised e, s1)
    | (Returned _, s1) =>
        match body s1 with
        | (Returned a, s2) =>
            match __exit__ N s2 with
            | (Returned _, s3) => (Returned a, s3)
            | (Raised e, s3) => (Raised e, s3)
            end
        | (Raised e, s2) =>
            match __exit__ N s2 with
            | (Returned _, s3) => (Raised e, s3)
            | (Raised e', s3) => (Raised e', s3)
            end
        end
    end.

End BrowserManager.

(* ================================================================== *)
(** ** src/stealth_scraper.py: StealthScraper.scrape *)

Module Scrape.

Import BrowserManager.

(** [v == 'dynamic'] *)
Definition is_dynamic (v : value) : bool :=
  match v with
  | VStr s => String.eqb s "dynamic"
  | _ => false
  end.

(** The block under [with BrowserManager() as browser_manager]. *)
Definition scrape_body (N : environment) (self : StealthScraper.scraper)
    (max_products : Z) : B (list dict) :=
  bind (python (lift (getitem "url" (StealthScraper.target_config self))))
       (fun url =>
  andthen (navigate_to N url)
  (andthen (perform N (SimulateBrowsing 2))
  (bind (python (lift (getitem "type" (StealthScraper.target_config self))))
        (fun type =>
  andthen (when (is_dynamic type) (perform N ScrollToBottom))
  (fun s =>
     python (StealthScraper._extract_products (ext N) self (dom N (calls s))
                                              max_products) s))))).

(** [scrape]: the url is printed before the browser is started. *)
Definition scrape (N : environment) (self : StealthScraper.scraper)
    (max_products : Z) : B (list dict) :=
  andthen
    (bind (python (lift (getitem "url" (StealthScraper.target_config self))))
          (fun _ => ret tt))
    (with_manager N (scrape_body N self max_products)).

End Scrape.

(* ================================================================== *)
(** ** main.py: MarketIntelligenceEngine._run_scraping *)

Module Main.

Import BrowserManager.

(** How a phase ends: it runs to its end, or the process exits. *)
Inductive status : Type :=
| Finished
| Exited (code : Z).

(** [if not products] *)
Definition is_empty_list {A} (l : list A) : bool :=
  match l with
  | [] => true
  | _ => false
  end.

(** The disk under [save_to_json]: [open(output_path, 'w')] raises; or it
    returns, and [json.dump] raises after it has written so many tokens; or
    both return. *)
Inductive disk : Type :=
| OpenRaises
| DumpRaises (written : nat)
| Holds.

(** What has become of the raw output file: nothing; or it has been opened
    for writing, which empties it, and holds the part of the text that was
    written before [json.dump] raised; or it holds the whole text. *)
Inductive raw_file : Type :=
| Untouched
| Truncated (part : list Json.token)
| Saved (content : list Json.token).

(** [_run_scraping], for the target and cap of the engine, with what has
    become of the raw output file.  [save_to_json] opens the file before it
    builds the data and reads the clock.  [sys.exit(1)] raises SystemExit,
    which [except Exception] does not catch. *)
Definition _run_scraping (N : environment) (D : disk)
    (target : string) (max_products : Z) (s : session)
  : status * session * raw_file :=
  match Targets.__init__ target with
  | Raise _ => (Exited 1, s, Untouched)
  | Ok scraper =>
      match Scrape.scrape N scraper max_products s with
      | (Raised _, s1) => (Exited 1, s1, Untouched)
      | (Returned products, s1) =>
          if is_empty_list products then (Exited 1, s1, Untouched)
          else
            match D with
            | OpenRaises => (Exited 1, s1, Untouched)
            | _ =>
                match python (RawFile.save_to_json Json.token_codec (ext N)
                                                   scraper products) s1 with
                | (Returned content, s2) =>
                    match D with
                    | DumpRaises written =>
                        (Exited 1, s2, Truncated (firstn written content))
                    | _ => (Finished, s2, Saved content)
                    end
                | (Raised _, s2) => (Exited 1, s2, Truncated [])
                end
            end
      end
  end.

End Main.

(* ================================================================== *)
(** ** show_output.py: the sample of the raw data *)

Module ShowOutput.

Import StealthScraper.

(** What is printed of one product: name, price, stock text, source. *)
Definition sample_line (product : value) : result (list value) :=
  match subscript product "name" with
  | Raise e => Raise e
  | Ok name =>
      match subscript product "price" with
      | Raise e => Raise e
      | Ok price =>
          match subscript product "stock_info" with
          | Raise e => Raise e
          | Ok stock_info =>
              match subscript stock_info "raw_text" with
              | Raise e => Raise e
              | Ok raw_text =>
                  match subscript product "source" with
                  | Raise e => Raise e
                  | Ok source => Ok [name; price; raw_text; source]
                  end
              end
          end
      end
  end.

(** [v[:3]]: the first three items of a list or characters of a string;
    nothing else can be sliced (a dict raises TypeError up to Python 3.11
    and KeyError from 3.12 on; the raw file holds a list there). *)
Definition first_three (v : value) : result (list value) :=
  match v with
  | VList l => Ok (firstn 3 l)
  | VStr s => Ok (firstn 3 (map VStr (Unicode.characters s)))
  | _ => Raise TypeError
  end.

(** The [try] block over the raw data file, from the text of the file: the
    two lines of metadata and the sample lines.  Only FileNotFoundError is
    caught there, so whatever is raised here ends the script. *)
Definition show_raw_data {text} (C : RawFile.json_codec text) (content : text)
  : result (list (list value)) :=
  match RawFile.json_load C content with
  | Raise e => Raise e
  | Ok raw_data =>
      match subscript raw_data "metadata" with
      | Raise e => Raise e
      | Ok metadata =>
          match subscript metadata "total_products" with
          | Raise e => Raise e
          | Ok total_products =>
              match subscript metadata "scraped_at" with
              | Raise e => Raise e
              | Ok scraped_at =>
                  match subscript raw_data "products" with
                  | Raise e => Raise e
                  | Ok products =>
                      match first_three products with
                      | Raise e => Raise e
                      | Ok sample =>
                          match AIEnrichmentEngine.mapR sample_line sample with
                          | Raise e => Raise e
                          | Ok lines =>
                              Ok ([total_products; scraped_at] :: lines)
                          end
                      end
                  end
              end
          end
      end
  end.

End ShowOutput.

(* ================================================================== *)
(** ** Words for the calls of a scraping run *)

Module Protocol.

Import BrowserManager.

(** The calls that make and enter the manager, and the calls that release
    what it holds, in the order they are made. *)
Definition entering : list call :=
  [NewUserAgent; Start; Launch; RandomUserAgent; NewContext; NewPage;
   AddInitScript].

Definition closing : list call :=
  [ClosePage; CloseContext; CloseBrowser; Stop].

(** The calls made inside the block of [scrape], for a target with the
    given url and type. *)
Definition browsing (url type : value) : list call :=
  ([Goto url; SimulateBrowsing 2]
   ++ if Scrape.is_dynamic type then [ScrollToBottom] else [])%list.

(** Of the calls [cs], made one after the other after the calls [made],
    those that are made at all: the calls up to the first that raises,
    that one included. *)
Fixpoint attempted (N : environment) (made : list call) (cs : list call)
  : list call :=
  match cs with
  | [] => []
  | c :: r =>
      if raises N made c then [c]
      else c :: attempted N (made ++ [c])%list r
  end.

(** The first of the calls [cs] that raises, if one does. *)
Fixpoint first_raise (N : environment) (made : list call) (cs : list call)
  : option call :=
  match cs with
  | [] => None
  | c :: r =>
      if raises N made c then Some c
      else first_raise N (made ++ [c])%list r
  end.

(** The manager holds its four objects. *)
Definition holding (s : session) : Prop :=
  playwright s = true /\ browser s = true /\ context s = true
  /\ page s = true.

(** What a sequence of calls answers: nothing, or the exception of the
    first call that raised. *)
Definition answer {A} (r : outcome A) (failed : option call) : outcome A :=
  match failed with
  | None => r
  | Some c => Raised (CallFailed c)
  end.

(** An environment in which only the call [c] raises, whenever it is
    made; the page shows two elements of the books catalogue. *)
Definition failing_at (c : call -> bool) : environment :=
  mkEnvironment (fun _ c' => c c')
                (fun _ _ => Ok [Scraped.book_element; Scraped.book_element])
                Scraped.offline.

Definition start : session :=
  mkSession false false false false [] (mkWorld 0 []).

End Protocol.

(* ================================================================== *)
(** ** src/human_behavior.py: human_scroll and random_mouse_movement *)

Module HumanActions.

(** What the simulator does to the page and to the clock.  The calls into
    the page are taken to return, as in [HumanBehaviorSimulator]. *)
Inductive action : Type :=
| ScrollBy (amount : Z)       (* page.evaluate('window.scrollBy(0, amount)') *)
| MouseMove (x y : Z)         (* page.mouse.move(x, y) *)
| Sleep (seconds : float).    (* time.sleep(seconds) *)

(** The library the simulator calls: [random.randint] and
    [random.uniform], each at the [k]-th draw of the run, and
    [time.sleep].  Each may raise. *)
Record library : Type := mkLibrary {
  randint : value -> value -> nat -> result Z;
  uniform : value -> value -> nat -> result float;
  sleep : float -> result unit
}.

Record state : Type := mkState {
  draws : nat;
  actions : list action
}.

Definition H (A : Type) : Type := state -> result A * state.

Definition ret {A} (a : A) : H A := fun s => (Ok a, s).

Definition bind {A C} (m : H A) (k : A -> H C) : H C :=
  fun s =>
    match m s with
    | (Ok a, s') => k a s'
    | (Raise e, s') => (Raise e, s')
    end.

Definition lift {A} (r : result A) : H A := fun s => (r, s).

Definition act (a : action) : H unit :=
  fun s => (Ok tt, mkState (draws s) (actions s ++ [a])%list).

Definition py_randint (L : library) (a b : value) : H Z :=
  fun s => (randint L a b (draws s), mkState (S (draws s)) (actions s)).

Definition py_uniform (L : library) (a b : value) : H float :=
  fun s => (uniform L a b (draws s), mkState (S (draws s)) (actions s)).

Definition py_sleep (L : library) (seconds : float) : H unit :=
  bind (lift (sleep L seconds)) (fun _ => act (Sleep seconds)).

(** One pass of the loop of [human_scroll]. *)
Definition scroll_step (L : library) (config : dict) : H unit :=
  bind (lift (getitem "scroll_amount_min" config)) (fun amount_min =>
  bind (lift (getitem "scroll_amount_max" config)) (fun amount_max =>
  bind (py_randint L amount_min amount_max) (fun scroll_amount =>
  bind (act (ScrollBy scroll_amount)) (fun _ =>
  bind (lift (getitem "scroll_delay_min" config)) (fun delay_min =>
  bind (lift (getitem "scroll_delay_max" config)) (fun delay_max =>
  bind (py_uniform L delay_min delay_max) (fun delay =>
  py_sleep L delay))))))).

(** [for i in range(n): body] *)
Fixpoint times_do (n : nat) (body : H unit) : H unit :=
  match n with
  | O => ret tt
  | S n' => bind body (fun _ => times_do n' body)
  end.

Definition human_scroll (L : library) (config : dict) (times : Z) : H unit :=
  times_do (Z.to_nat times) (scroll_step L config).

(** The truth value of a Python value. *)
Definition truthy (v : value) : bool :=
  match v with
  | VNone => false
  | VBool b => b
  | VInt z => negb (z =? 0)%Z
  | VFloat f => negb (f =? 0)%float
  | VStr s => match s with EmptyString => false | _ => true end
  | VList l => match l with [] => false | _ => true end
  | VDict d => match d with [] => false | _ => true end
  end.

(** [v - 100] *)
Definition minus_hundred (v : value) : result value :=
  match v with
  | VInt z => Ok (VInt (z - 100))
  | VBool b => Ok (VInt ((if b then 1 else 0) - 100))
  | VFloat f => Ok (VFloat (f - 100))
  | _ => Raise TypeError
  end.

(** [random_mouse_movement], for the [viewport_size] the page reports
    ([None] for a page without a viewport). *)
Definition random_mouse_movement (L : library) (config : dict)
    (viewport : value) : H unit :=
  let enabled := match dict_get "mouse_movement_enabled" config with
                 | Some v => v
                 | None => VBool true
                 end in
  if negb (truthy enabled) then ret tt
  else
    bind (lift (StealthScraper.subscript viewport "width")) (fun width =>
    bind (lift (minus_hundred width)) (fun x_max =>
    bind (py_randint L (VInt 100) x_max) (fun x =>
    bind (lift (StealthScraper.subscript viewport "height")) (fun height =>
    bind (lift (minus_hundred height)) (fun y_max =>
    bind (py_randint L (VInt 100) y_max) (fun y =>
    bind (act (MouseMove x y)) (fun _ =>
    bind (py_uniform L (VFloat 0.1) (VFloat 0.3)) (fun pause =>
    py_sleep L pause)))))))).

(** [BEHAVIOR_CONFIG], as far as the two functions read it. *)
Definition BEHAVIOR_CONFIG : dict :=
  [("scroll_delay_min", VFloat 0.8);
   ("scroll_delay_max", VFloat 2.5);
   ("scroll_amount_min", VInt 200);
   ("scroll_amount_max", VInt 600);
   ("mouse_movement_enabled", VBool true);
   ("random_mouse_moves", VBool true)].

(** [BROWSER_CONFIG['viewport']] *)
Definition viewport : value := VDict [("width", VInt 1920); ("height", VInt 1080)].

(** The amounts the page was scrolled by, in order, and their sum. *)
Fixpoint scroll_amounts (l : list action) : list Z :=
  match l with
  | [] => []
  | ScrollBy a :: r => a :: scroll_amounts r
  | _ :: r => scroll_amounts r
  end.

Definition total (l : list Z) : Z := fold_right Z.add 0%Z l.

(** What the library promises, as far as the simulator relies on it:
    [randint] answers an integer between its bounds and raises ValueError
    on an empty range. *)
Definition randint_in_range (L : library) : Prop :=
  forall lo hi k,
    (lo <= hi)%Z ->
    exists z, randint L (VInt lo) (VInt hi) k = Ok z /\ (lo <= z <= hi)%Z.

Definition randint_empty_range (L : library) : Prop :=
  forall lo hi k, (hi < lo)%Z -> randint L (VInt lo) (VInt hi) k = Raise ValueError.

(** The pause drawn between the bounds [a] and [b] can be slept. *)
Definition pause_sleeps (L : library) (a b : value) : Prop :=
  forall k, exists d, uniform L a b k = Ok d /\ sleep L d = Ok tt.

(** A library that always draws the lower bound. *)
Definition lowest : library :=
  mkLibrary
    (fun a b _ =>
       match a, b with
       | VInt lo, VInt hi => if (hi <? lo)%Z then Raise ValueError else Ok lo
       | _, _ => Raise TypeError
       end)
    (fun a _ _ =>
       match a with
       | VFloat f => Ok f
       | _ => Raise TypeError
       end)
    (fun d => if (d <? 0)%float then Raise ValueError else Ok tt).

End HumanActions.

(* ================================================================== *)
(** ** Words for the tally of categories *)

Module Tally.

Import AIEnrichmentEngine Spec Observed.

Definition category_eqb (a b : category) : bool :=
  match a, b with
  | Budget, Budget | MidRange, MidRange | HighEnd, HighEnd => true
  | _, _ => false
  end.

(** Whether the price rule puts [p] into the tier [c], for the average
    [avg]. *)
Definition in_tier (avg : float) (c : category) (p : dict) : bool :=
  match Num.as_num (price_value p) with
  | Ok price => category_eqb (tier price avg) c
  | Raise _ => false
  end.

(** How many items of [l] satisfy [f]. *)
Definition count {A} (f : A -> bool) (l : list A) : Z :=
  Z.of_nat (List.length (filter f l)).

(** An environment whose provider answers every call with a text that is
    no JSON. *)
Definition babbling : externals :=
  mkExternals Text.of_nat (fun _ _ => Ok "I cannot help with that")
              (fun _ => Raise JSONDecodeError) (fun _ _ _ _ => "prompt")
              Unicode.sample.

End Tally.

(* ================================================================== *)
(** * Properties *)

(** ** Comparison of floats and numbers *)

Section FloatOrder.

Lemma SFcompare_antisym (x y : spec_float) :
  SFcompare y x = option_map CompOpp (SFcompare x y).
Proof.
  destruct x as [sx|sx| |sx mx ex], y as [sy|sy| |sy my ey]; simpl;
    try reflexivity;
    try (destruct sx; reflexivity);
    try (destruct sy; reflexivity);
    try (destruct sx, sy; reflexivity).
  destruct sx, sy; simpl; try reflexivity;
    rewrite (Z.compare_antisym ex ey);
    destruct (ex ?= ey)%Z eqn:He; simpl; try reflexivity;
    rewrite (Pos.compare_cont_antisym mx my Eq); simpl;
    destruct (Pos.compare_cont Eq my mx); reflexivity.
Qed.

Lemma num_compare_antisym (a b : Num.num) :
  Num.num_compare b a = option_map CompOpp (Num.num_compare a b).
Proof.
  destruct a as [x|f], b as [y|g]; simpl.
  - now rewrite (Z.compare_antisym x y).
  - reflexivity.
  - destruct (Num.Zcompare_SF y (Prim2SF f)) as [c|]; simpl; trivial.
    now destruct c.
  - apply SFcompare_antisym.
Qed.

Lemma num_leb_ltb_false (a b : Num.num) :
  Num.num_leb a b = true -> Num.num_ltb b a = false.
Proof.
  unfold Num.num_leb, Num.num_ltb.
  rewrite (num_compare_antisym a b).
  destruct (Num.num_compare a b) as [[ | | ]|]; simpl; congruence.
Qed.

Lemma num_not_ltb_leb (a b : Num.num) :
  Num.num_compare a b <> None ->
  Num.num_ltb a b = false -> Num.num_leb b a = true.
Proof.
  unfold Num.num_leb, Num.num_ltb.
  rewrite (num_compare_antisym a b).
  destruct (Num.num_compare a b) as [[ | | ]|]; simpl; congruence.
Qed.

(** A comparison against a float fails only on a NaN. *)
Lemma num_compare_float_some (p : Num.num) (g h : float) (c : comparison) :
  Num.num_compare p (Num.NFloat g) = Some c ->
  Prim2SF h <> S754_nan ->
  Num.num_compare p (Num.NFloat h) <> None.
Proof.
  destruct p as [z|f]; simpl; intros Hc Hh.
  - destruct (Prim2SF h); simpl; congruence.
  - destruct (Prim2SF f), (Prim2SF h); simpl in *; congruence.
Qed.

Lemma num_compare_float_not_nan (p : Num.num) (g : float) (c : comparison) :
  Num.num_compare p (Num.NFloat g) = Some c -> Prim2SF g <> S754_nan.
Proof.
  destruct p as [z|f]; simpl; intros Hc Hg; rewrite Hg in Hc.
  - discriminate.
  - destruct (Prim2SF f); discriminate.
Qed.

End FloatOrder.

(** ** Characters *)

Section Characters.

(** The letter a, the e with an acute accent (U+00E9) and the euro sign
    (U+20AC) take one, two and three bytes, and the characters of the text
    are found again in its bytes. *)
Example characters_of_encoded :
  Unicode.characters
    (Unicode.encode
       (Unicode.Char 97 (Unicode.Char 233 (Unicode.Char 8364 Unicode.Empty))))
  = [Unicode.utf8 97; Unicode.utf8 233; Unicode.utf8 8364].
Proof. reflexivity. Qed.

Example lower_ascii :
  forall U, Text.lower U "TWO Stars" = "two stars"%text.
Proof. reflexivity. Qed.

(** The Kelvin sign (U+212A) is lowered to the letter k. *)
Example lower_kelvin_sign :
  Text.lower Unicode.sample (Unicode.Char 8490 "ELVIN") = "kelvin"%text.
Proof. reflexivity. Qed.

Example strip_no_break_space :
  Text.strip Unicode.sample Spec.padded_word = "Book"%text
  /\ forall U,
       Text.strip U "  A Light in the Attic " = "A Light in the Attic"%text.
Proof. split; reflexivity. Qed.

End Characters.

(** ** Reading decimal numbers *)

Section Decimal.

Example float_of_ratio_tenth : Num.float_of_ratio 1 10 = 0.1%float.
Proof. vm_compute. reflexivity. Qed.

Example float_of_ratio_third : Num.float_of_ratio 1 3 = (1 / 3)%float.
Proof. vm_compute. reflexivity. Qed.

(** A tie between two neighbours goes to the even one, and a digit far
    behind the point breaks the tie. *)
Example py_float_tie :
  forall U,
    Num.py_float U "9007199254740993" = Ok 9007199254740992%float
    /\ Num.py_float U "9007199254740993.0000000000000000000000000001"
       = Ok 9007199254740994%float.
Proof. intros U. split; vm_compute; reflexivity. Qed.

(** Four hundred nines are beyond the range. *)
Example py_float_overflow :
  forall U,
    Num.py_float U (fold_right Unicode.append Unicode.Empty
                               (repeat "9999999999"%text 40))
    = Ok infinity.
Proof. intros U. vm_compute. reflexivity. Qed.

Example py_float_rejects_comma :
  forall U, Num.py_float U "1,5" = Raise ValueError.
Proof. reflexivity. Qed.

(** The fullwidth digits four and five around a dot (U+FF14, U+FF15) are
    read as 4.5, the Arabic-Indic digit three (U+0663) as 3. *)
Example py_float_other_scripts :
  Num.py_float Unicode.sample
    (Unicode.Char 65300 (Unicode.Char 46 (Unicode.Char 65301 Unicode.Empty)))
  = Ok 4.5%float
  /\ Num.py_float Unicode.sample (Unicode.Char 1635 Unicode.Empty)
     = Ok 3%float.
Proof. split; vm_compute; reflexivity. Qed.

End Decimal.

(** ** Rounding never invents a NaN *)

Section Rounding.

Lemma shr_1_nonneg (mrs : shr_record) :
  (0 <= shr_m mrs)%Z -> (0 <= shr_m (shr_1 mrs))%Z.
Proof.
  destruct mrs as [m r s]; simpl.
  destruct m as [|p|p]; simpl; intros H; try lia.
  - destruct p; simpl; lia.
Qed.

Lemma iter_pos_invariant {A} (P : A -> Prop) (f : A -> A) :
  (forall a, P a -> P (f a)) ->
  forall (n : positive) (a : A), P a -> P (iter_pos f n a).
Proof.
  intros Hf; induction n as [n IH|n IH|]; simpl; intros a Ha; auto.
Qed.

Lemma shr_nonneg (mrs : shr_record) (e n : Z) :
  (0 <= shr_m mrs)%Z -> (0 <= shr_m (fst (shr mrs e n)))%Z.
Proof.
  intros H; unfold shr; destruct n; simpl; trivial.
  apply (iter_pos_invariant (fun r => (0 <= shr_m r)%Z)); trivial.
  apply shr_1_nonneg.
Qed.

Lemma shr_record_of_loc_m (m : Z) (l : location) :
  shr_m (shr_record_of_loc m l) = m.
Proof. destruct l as [|[ | | ]]; reflexivity. Qed.

Lemma round_nearest_even_nonneg (m : Z) (l : location) :
  (0 <= m)%Z -> (0 <= round_nearest_even m l)%Z.
Proof.
  intros H; destruct l as [|[ | | ]]; simpl; try lia.
  destruct (Z.even m); lia.
Qed.

Lemma binary_round_aux_not_nan (sx : bool) (mx ex : Z) (lx : location) :
  (0 <= mx)%Z -> binary_round_aux prec emax sx mx ex lx <> S754_nan.
Proof.
  intros Hm; unfold binary_round_aux, shr_fexp.
  pose proof (shr_nonneg (shr_record_of_loc mx lx) ex
    (fexp prec emax (Zdigits2 mx + ex) - ex)) as H1.
  rewrite shr_record_of_loc_m in H1; specialize (H1 Hm).
  destruct (shr (shr_record_of_loc mx lx) ex _) as [mrs' e']; simpl in H1.
  set (m1 := round_nearest_even (shr_m mrs') (loc_of_shr_record mrs')).
  assert (Hm1 : (0 <= m1)%Z) by (apply round_nearest_even_nonneg; exact H1).
  pose proof (shr_nonneg (shr_record_of_loc m1 loc_Exact) e'
    (fexp prec emax (Zdigits2 m1 + e') - e')) as H2.
  rewrite shr_record_of_loc_m in H2; specialize (H2 Hm1).
  destruct (shr (shr_record_of_loc m1 loc_Exact) e' _) as [mrs'' e'']; simpl in H2.
  destruct (shr_m mrs'') as [|p|p]; try discriminate; try lia.
  destruct (e'' <=? emax - prec)%Z; discriminate.
Qed.

Lemma SFmul_comm (x y : spec_float) :
  SFmul prec emax x y = SFmul prec emax y x.
Proof.
  destruct x as [sx|sx| |sx mx ex], y as [sy|sy| |sy my ey]; simpl;
    try reflexivity; try (now rewrite xorb_comm).
  now rewrite xorb_comm, Pos.mul_comm, Z.add_comm.
Qed.

Lemma float_mul_comm (x y : float) : (x * y = y * x)%float.
Proof.
  apply Prim2SF_inj; rewrite !mul_spec; apply SFmul_comm.
Qed.

(** A product with a finite, non-zero constant is a NaN only if the other
    factor is. *)
Lemma mul_finite_not_nan (x c : float) (s : bool) (m : positive) (e : Z) :
  Prim2SF c = S754_finite s m e ->
  Prim2SF x <> S754_nan -> Prim2SF (x * c) <> S754_nan.
Proof.
  intros Hc Hx; rewrite mul_spec, Hc; unfold SF64mul.
  destruct (Prim2SF x) as [sx|sx| |sx mx ex]; simpl; try discriminate.
  - congruence.
  - apply binary_round_aux_not_nan; lia.
Qed.

Lemma mul_not_nan_left (x c : float) :
  Prim2SF (x * c) <> S754_nan -> Prim2SF x <> S754_nan.
Proof.
  rewrite mul_spec; unfold SF64mul; intros H Hx; apply H.
  now rewrite Hx.
Qed.

End Rounding.

(* ================================================================== *)
(** ** Fallback categorization *)

Section Fallback.

Import AIEnrichmentEngine Spec.

Lemma seven_tenths_finite :
  Prim2SF 0.7 = S754_finite false 6305039478318694 (-53).
Proof. vm_compute. reflexivity. Qed.

(** The two comparisons of the code decide the three cases of the rule. *)
Lemma fallback_rule_tier (price : Num.num) (avg : float) :
  (if Num.num_ltb price (Num.NFloat (avg * 0.7)) then "Budget"
   else if Num.num_ltb price (Num.NFloat (avg * 1.3)) then "Mid Range"
   else "High End")
  = category_label (tier price avg).
Proof.
  unfold tier.
  rewrite (float_mul_comm 0.7 avg), (float_mul_comm 1.3 avg).
  destruct (Num.num_ltb price (Num.NFloat (avg * 0.7))) eqn:H7; [reflexivity|].
  destruct (Num.num_ltb price (Num.NFloat (avg * 1.3))) eqn:H13.
  - assert (Hc : Num.num_compare price (Num.NFloat (avg * 1.3)) = Some Lt).
    { unfold Num.num_ltb in H13.
      destruct (Num.num_compare price (Num.NFloat (avg * 1.3))) as [[ | | ]|];
        congruence. }
    assert (Hn : Prim2SF (avg * 0.7) <> S754_nan).
    { apply (mul_finite_not_nan _ _ _ _ _ seven_tenths_finite).
      apply (mul_not_nan_left avg 1.3).
      exact (num_compare_float_not_nan _ _ _ Hc). }
    rewrite (num_not_ltb_leb _ _ (num_compare_float_some _ _ _ _ Hc Hn) H7).
    reflexivity.
  - rewrite andb_false_r. reflexivity.
Qed.

(** C1.  For a product whose price is a number, the fallback rule answers
    Budget when [price < 0.7 * avg], MidRange when
    [0.7 * avg <= price < 1.3 * avg] and HighEnd otherwise, [avg] being the
    average of the price statistics.  And when the provider fails, three
    products priced 10, 20 and 30 (average 20, thresholds 14 and 26) are
    categorized Budget, MidRange, HighEnd, in this order. *)
Theorem fallback_categorization_tiers :
  (forall (product : dict) (stats : price_stats) (v : value) (price : Num.num),
      dict_get "price" product = Some v ->
      Num.as_num v = Ok price ->
      _fallback_categorization product stats
      = Ok (category_label (tier price (stat_avg stats))))
  /\
  (forall clock e loads render U id1 id2 id3 n1 n2 n3 r1 r2 r3 w,
      let products := [priced_product id1 n1 10 r1; priced_product id2 n2 20 r2;
                       priced_product id3 n3 30 r3] in
      (exists stats,
          compute_stats products w = (Ok stats, w)
          /\ stat_avg stats = 20%float
          /\ (stat_avg stats * 0.7 = 14)%float
          /\ (stat_avg stats * 1.3 = 26)%float)
      /\ exists enriched w',
          categorize_products (failing_provider clock e loads render U)
            products w
          = (Ok enriched, w')
          /\ categories_of enriched
             = map (fun c => Some (VStr (category_label c)))
                   [Budget; MidRange; HighEnd]).
Proof.
  split.
  - intros product stats v price Hget Hnum.
    unfold _fallback_categorization. rewrite Hget, Hnum.
    rewrite <- fallback_rule_tier.
    destruct (Num.num_ltb price (Num.NFloat (stat_avg stats * 0.7)));
      [reflexivity|].
    destruct (Num.num_ltb price (Num.NFloat (stat_avg stats * 1.3)));
      reflexivity.
  - intros. split.
    + eexists. split; [vm_compute; reflexivity|].
      repeat split; vm_compute; reflexivity.
    + eexists. eexists. split; vm_compute; reflexivity.
Qed.

Lemma fallback_categorization_tiers_witness :
  AIEnrichmentEngine._fallback_categorization
    (Spec.priced_product "books_1" "A Light in the Attic" 51.77 (VFloat 3))
    (AIEnrichmentEngine.mkStats (Num.NFloat 10) (Num.NFloat 60) 35)
  = Ok "High End".
Proof.
  exact (proj1 fallback_categorization_tiers
           (Spec.priced_product "books_1" "A Light in the Attic" 51.77 (VFloat 3))
           (AIEnrichmentEngine.mkStats (Num.NFloat 10) (Num.NFloat 60) 35)
           (VFloat 51.77) (Num.NFloat 51.77) eq_refl eq_refl).
Defined.

End Fallback.

(* ================================================================== *)
(** ** Strings *)

Section Strings.

Import Unicode Spec.

Local Open Scope text_scope.

Variable U : database.

Lemma append_nil_r (s : text) : s ++ Empty = s.
Proof. induction s as [|c s IH]; simpl; congruence. Qed.

Lemma append_assoc (a b c : text) : (a ++ b) ++ c = a ++ (b ++ c).
Proof. induction a as [|x a IH]; simpl; congruence. Qed.

Lemma starts_with_spec (w s : text) :
  Text.starts_with w s = true <-> exists post, s = w ++ post.
Proof.
  revert s; induction w as [|a w IH]; intros s; simpl.
  - split; [intros _; now exists s | reflexivity].
  - destruct s as [|b s].
    + split; [discriminate | intros [post H]; discriminate].
    + rewrite andb_true_iff, N.eqb_eq, IH. split.
      * intros [-> [post ->]]. now exists post.
      * intros [post H]. injection H as -> ->. split; trivial. now exists post.
Qed.

Lemma contains_spec (w s : text) :
  Text.contains w s = true <-> occurs w s.
Proof.
  unfold occurs; induction s as [|c s IH].
  - simpl. rewrite orb_false_r, starts_with_spec. split.
    + intros [post H]. now exists Empty, post.
    + intros [pre [post H]]. destruct pre; simpl in H.
      * now exists post.
      * discriminate.
  - cbn [Text.contains]. rewrite orb_true_iff, starts_with_spec, IH. split.
    + intros [[post H]|[pre [post H]]].
      * now exists Empty, post.
      * exists (Char c pre), post. simpl. now rewrite H.
    + intros [pre [post H]]. destruct pre as [|x pre]; simpl in H.
      * left. now exists post.
      * right. injection H as _ H. now exists pre, post.
Qed.

Lemma span_append (p : code -> bool) (s a b : text) :
  Text.span p s = (a, b) -> s = a ++ b.
Proof.
  revert a b; induction s as [|c s IH]; simpl; intros a b H.
  - now injection H as <- <-.
  - destruct (p c).
    + destruct (Text.span p s) as [a' b']. injection H as <- <-.
      simpl. now rewrite (IH a' b' eq_refl).
    + now injection H as <- <-.
Qed.

Lemma span_all (p : code -> bool) (s a b : text) :
  Text.span p s = (a, b) -> Text.all_chars p a = true.
Proof.
  revert a b; induction s as [|c s IH]; simpl; intros a b H.
  - now injection H as <- <-.
  - destruct (p c) eqn:Hc.
    + destruct (Text.span p s) as [a' b']. injection H as <- <-.
      simpl. now rewrite Hc, (IH a' b' eq_refl).
    + now injection H as <- <-.
Qed.

Lemma span_stops (p : code -> bool) (s a b : text) :
  Text.span p s = (a, b) -> stops p b.
Proof.
  revert a b; induction s as [|c s IH]; simpl; intros a b H.
  - injection H as <- <-. exact I.
  - destruct (p c) eqn:Hc.
    + destruct (Text.span p s) as [a' b']. injection H as <- <-.
      now apply (IH a' b').
    + injection H as <- <-. exact Hc.
Qed.

Lemma span_unique (p : code -> bool) (a b : text) :
  Text.all_chars p a = true -> stops p b -> Text.span p (a ++ b) = (a, b).
Proof.
  induction a as [|c a IH]; simpl; intros Ha Hb.
  - destruct b as [|x b]; simpl; trivial. simpl in Hb. now rewrite Hb.
  - apply andb_true_iff in Ha as [Hc Ha]. now rewrite Hc, IH.
Qed.

Lemma span_ext (p q : code -> bool) (s : text) :
  Text.all_chars (fun c => Bool.eqb (p c) (q c)) s = true ->
  Text.span p s = Text.span q s.
Proof.
  induction s as [|c s IH]; simpl; trivial.
  intros H. apply andb_true_iff in H as [Hc H].
  apply eqb_prop in Hc. rewrite Hc, (IH H). reflexivity.
Qed.

Lemma stops_span_empty (p : code -> bool) (s : text) :
  stops p s -> Text.span p s = (Empty, s).
Proof. destruct s as [|c s]; simpl; trivial. now intros ->. Qed.

Lemma dot_not_digit : Text.is_digit U Text.dot = false.
Proof. reflexivity. Qed.

Lemma match_number_at_shape (s tok : text) :
  Text.match_number_at U (Text.is_digit U) s = Some tok ->
  exists ip frac post,
    s = tok ++ post /\ tok = ip ++ frac /\ token_shape U ip frac post.
Proof.
  unfold Text.match_number_at.
  destruct (Text.span (Text.is_digit U) s) as [ip rest] eqn:Hs.
  pose proof (span_append _ _ _ _ Hs) as Happ.
  pose proof (span_all _ _ _ _ Hs) as Hall.
  pose proof (span_stops _ _ _ _ Hs) as Hstop.
  destruct ip as [|c0 ip0]; [discriminate|].
  set (ip := Char c0 ip0) in *.
  assert (Hne : ip <> Empty) by discriminate.
  destruct rest as [|c rest'].
  - intros H; injection H as <-. exists ip, Empty, Empty.
    rewrite append_nil_r in *.
    split; [exact Happ|]. split; [reflexivity|].
    split; [exact Hne|]. split; [exact Hall|].
    left. split; [reflexivity|]. split; exact I.
  - destruct (N.eqb c Text.dot) eqn:Hc.
    + apply N.eqb_eq in Hc; subst c.
      destruct (Text.span (Text.is_digit U) rest') as [fp post] eqn:Hr.
      simpl fst. intros H; injection H as <-.
      exists ip, (Char Text.dot fp), post.
      split.
      { rewrite Happ, (span_append _ _ _ _ Hr).
        unfold ip. simpl. f_equal. now rewrite append_assoc. }
      split; [reflexivity|].
      split; [exact Hne|]. split; [exact Hall|].
      right. exists fp. split; [reflexivity|].
      split; [exact (span_all _ _ _ _ Hr) | exact (span_stops _ _ _ _ Hr)].
    + intros H; injection H as <-. exists ip, Empty, (Char c rest').
      rewrite append_nil_r.
      split; [exact Happ|]. split; [reflexivity|].
      split; [exact Hne|]. split; [exact Hall|].
      left. split; [reflexivity|]. split; [exact Hstop | exact Hc].
Qed.

Lemma shape_match_number_at (ip frac post : text) :
  token_shape U ip frac post ->
  Text.match_number_at U (Text.is_digit U) ((ip ++ frac) ++ post)
  = Some (ip ++ frac).
Proof.
  intros (Hne & Hall & Hfrac). unfold Text.match_number_at.
  rewrite append_assoc.
  destruct Hfrac as [(-> & Hd & Hdot)|(fp & -> & Hfp & Hd)].
  - simpl. rewrite (span_unique _ _ _ Hall Hd), append_nil_r.
    destruct ip as [|i0 ip0]; [congruence|].
    destruct post as [|c post]; trivial.
    simpl in Hdot. now rewrite Hdot.
  - rewrite (span_unique _ ip (Char Text.dot fp ++ post) Hall dot_not_digit).
    destruct ip as [|i0 ip0]; [congruence|].
    simpl. now rewrite (span_unique _ _ _ Hfp Hd).
Qed.

Lemma match_number_at_none (s : text) :
  Text.match_number_at U (Text.is_digit U) s = None <-> stops (Text.is_digit U) s.
Proof.
  unfold Text.match_number_at. split.
  - destruct s as [|c s]; simpl; trivial.
    destruct (Text.is_digit U c); trivial.
    destruct (Text.span (Text.is_digit U) s) as [a b].
    destruct b as [|x b]; [discriminate|].
    destruct (N.eqb x Text.dot); discriminate.
  - intros H. now rewrite (stops_span_empty _ _ H).
Qed.

Lemma search_number_eq (cls : code -> bool) (s : text) :
  Text.search_number U cls s
  = match Text.match_number_at U cls s with
    | Some m => Some m
    | None => match s with
              | Empty => None
              | Char _ r => Text.search_number U cls r
              end
    end.
Proof. destruct s; reflexivity. Qed.

Lemma search_number_first (s tok : text) :
  Text.search_number U (Text.is_digit U) s = Some tok <-> first_number U s tok.
Proof.
  unfold first_number. split.
  - revert tok; induction s as [|c s IH]; intros tok; rewrite search_number_eq.
    + destruct (Text.match_number_at U (Text.is_digit U) Empty) eqn:Hm; [|discriminate].
      intros H; injection H as ->.
      destruct (match_number_at_shape _ _ Hm) as (ip & frac & post & H1 & H2 & H3).
      exists Empty, ip, frac, post.
      split; [exact H1|]. split; [exact H2|]. split; [reflexivity | exact H3].
    + destruct (Text.match_number_at U (Text.is_digit U) (Char c s)) eqn:Hm.
      * intros H; injection H as ->.
        destruct (match_number_at_shape _ _ Hm) as (ip & frac & post & H1 & H2 & H3).
        exists Empty, ip, frac, post.
        split; [exact H1|]. split; [exact H2|]. split; [reflexivity | exact H3].
      * intros H.
        destruct (IH _ H) as (pre & ip & frac & post & H1 & H2 & H3 & H4).
        apply match_number_at_none in Hm. simpl in Hm.
        exists (Char c pre), ip, frac, post.
        split; [simpl; now rewrite H1|]. split; [exact H2|].
        split; [|exact H4].
        unfold no_digit in *. simpl. now rewrite Hm, H3.
  - intros (pre & ip & frac & post & -> & -> & Hpre & Hshape).
    induction pre as [|c pre IH].
    + simpl. rewrite search_number_eq.
      now rewrite (shape_match_number_at ip frac post Hshape).
    + unfold no_digit in Hpre. simpl in Hpre.
      apply andb_true_iff in Hpre as [Hc Hpre].
      apply negb_true_iff in Hc.
      rewrite search_number_eq.
      assert (Hm : Text.match_number_at U (Text.is_digit U)
                     (Char c pre ++ (ip ++ frac) ++ post) = None)
        by (apply match_number_at_none; exact Hc).
      rewrite Hm. simpl. apply IH, Hpre.
Qed.

Lemma search_number_none (s : text) :
  Text.search_number U (Text.is_digit U) s = None <-> no_digit U s.
Proof.
  unfold no_digit. induction s as [|c s IH]; rewrite search_number_eq.
  - simpl. split; trivial.
  - destruct (Text.match_number_at U (Text.is_digit U) (Char c s)) eqn:Hm.
    + split; [discriminate|]. simpl. intros H.
      apply andb_true_iff in H as [Hc _]. apply negb_true_iff in Hc.
      assert (Hn : Text.match_number_at U (Text.is_digit U) (Char c s) = None)
        by (apply match_number_at_none; exact Hc).
      congruence.
    + apply match_number_at_none in Hm. simpl in Hm.
      rewrite IH. simpl. rewrite Hm. simpl. reflexivity.
Qed.

(** [float] accepts every number token. *)
Lemma py_float_token (ip frac post : text) :
  token_shape U ip frac post ->
  exists f, Num.py_float U (ip ++ frac) = Ok f.
Proof.
  intros (Hne & Hall & Hfrac). unfold Num.py_float.
  destruct Hfrac as [(-> & _ & _)|(fp & -> & Hfp & _)].
  - rewrite append_nil_r.
    pose proof (span_unique _ ip Empty Hall I) as Hsp.
    rewrite append_nil_r in Hsp. rewrite Hsp.
    destruct ip as [|i0 ip0]; [congruence|]. eexists; reflexivity.
  - rewrite (span_unique _ ip (Char Text.dot fp) Hall dot_not_digit).
    unfold Num.all_digits. rewrite Hfp. simpl.
    destruct ip as [|i0 ip0]; [congruence|]. eexists; reflexivity.
Qed.

End Strings.

(* ================================================================== *)
(** ** The field extractors *)

Section Extractors.

Import Unicode DataExtractor Spec.

Local Open Scope text_scope.

Lemma text_eqb_eq (a b : text) : Unicode.eqb a b = true <-> a = b.
Proof.
  revert b; induction a as [|c a IH]; intros [|d b]; simpl;
    try (split; [discriminate | congruence]); [split; reflexivity|].
  rewrite andb_true_iff, N.eqb_eq, IH. split.
  - intros [-> ->]. reflexivity.
  - intros H. injection H as -> ->. split; reflexivity.
Qed.

Lemma absent_cases (s : text) :
  absent s = true <-> s = Empty \/ s = NA.
Proof.
  unfold absent. rewrite orb_true_iff, text_eqb_eq.
  destruct s; simpl; intuition congruence.
Qed.

Lemma comma_free_remove (s : text) :
  Text.all_chars (fun c => negb (N.eqb c Text.comma)) (Text.remove_char Text.comma s)
  = true.
Proof.
  induction s as [|c s IH]; simpl; trivial.
  destruct (N.eqb c Text.comma) eqn:Hc; simpl; trivial.
  now rewrite Hc, IH.
Qed.

Lemma comma_free_classes (U : database) (s : text) :
  Text.all_chars (fun c => negb (N.eqb c Text.comma)) s = true ->
  Text.all_chars (fun c => Bool.eqb (digit_or_comma U c) (Text.is_digit U c)) s
  = true.
Proof.
  induction s as [|c s IH]; simpl; trivial.
  intros H. apply andb_true_iff in H as [Hc H]. rewrite (IH H), andb_true_r.
  unfold digit_or_comma. apply negb_true_iff in Hc. rewrite Hc, orb_false_r.
  apply eqb_reflx.
Qed.

(** Once the commas are gone, [[\d,]+] matches what [\d+] matches. *)
Lemma search_number_comma_free (U : database) (s : text) :
  Text.all_chars (fun c => negb (N.eqb c Text.comma)) s = true ->
  Text.search_number U (digit_or_comma U) s = Text.search_number U (Text.is_digit U) s.
Proof.
  induction s as [|c s IH]; intros H.
  - reflexivity.
  - rewrite !(search_number_eq _ _ (Char c s)).
    unfold Text.match_number_at.
    rewrite (span_ext _ _ _ (comma_free_classes U _ H)).
    simpl in H. apply andb_true_iff in H as [_ H]. now rewrite (IH H).
Qed.

Lemma first_word_some (ws : list (text * float)) (s : text) (v : float) :
  first_word ws s = Some v ->
  exists w, In (w, v) ws /\ occurs w s.
Proof.
  induction ws as [|[w x] ws IH]; simpl; [discriminate|].
  destruct (Text.contains w s) eqn:Hc.
  - intros H; injection H as ->. exists w. split; [now left|].
    now apply contains_spec.
  - intros H. destruct (IH H) as (w' & Hin & Hocc).
    exists w'. split; [now right | exact Hocc].
Qed.

Lemma first_word_none (ws : list (text * float)) (s : text) :
  first_word ws s = None <-> forall w v, In (w, v) ws -> ~ occurs w s.
Proof.
  induction ws as [|[w x] ws IH]; simpl.
  - split; [intros _ w v [] | reflexivity].
  - destruct (Text.contains w s) eqn:Hc.
    + split; [discriminate|]. intros H. exfalso.
      apply (H w x); [now left | now apply contains_spec].
    + rewrite IH. split.
      * intros H w' v [Heq|Hin]; [|now apply (H w' v)].
        injection Heq as <- <-. rewrite <- contains_spec. congruence.
      * intros H w' v Hin. apply (H w' v). now right.
Qed.

(** The guard on the empty text and on the sentinel changes nothing: the
    search finds no number and no word in either. *)
Lemma extract_rating_unguarded (U : database) (text : text) :
  extract_rating U text
  = match Text.search_number U (Text.is_digit U) text with
    | Some tok =>
        match Num.py_float U tok with
        | Ok rating => Some (Num.py_min2 rating 5.0)
        | Raise _ => first_word word_ratings (Text.lower U text)
        end
    | None => first_word word_ratings (Text.lower U text)
    end.
Proof.
  unfold extract_rating. destruct (absent text) eqn:Ha; trivial.
  apply absent_cases in Ha as [-> | ->]; reflexivity.
Qed.

Lemma five_not_below_word (w : text) (v : float) :
  In (w, v) word_ratings -> (5.0 <? v)%float = false.
Proof.
  unfold word_ratings; simpl.
  intros [H|[H|[H|[H|[H|[]]]]]]; injection H as _ <-; reflexivity.
Qed.

(** C3.  For every text, whatever the character database: the rating is
    read off the first decimal-number token of the text, cut down to 5.0;
    a text without any decimal digit is searched, in lower case, for the
    words one to five; no rating ever exceeds 5.0, and a text with neither
    a number nor a word has no rating.  The digits are those of any script:
    a rating written in fullwidth digits is read like its ASCII form. *)
Theorem extract_rating_spec :
  (forall U text tok,
      first_number U text tok ->
      exists f, Num.py_float U tok = Ok f
                /\ extract_rating U text = Some (Num.py_min2 f 5.0))
  /\ (forall U text,
        no_digit U text ->
        (forall v, extract_rating U text = Some v ->
                   exists w, In (w, v) word_ratings
                             /\ occurs w (Text.lower U text))
        /\ (extract_rating U text = None <->
            forall w v, In (w, v) word_ratings ->
                        ~ occurs w (Text.lower U text)))
  /\ (forall U text r,
        extract_rating U text = Some r -> (5.0 <? r)%float = false)
  /\ (forall U text,
        extract_rating U text = None <->
        no_digit U text
        /\ forall w v, In (w, v) word_ratings ->
                       ~ occurs w (Text.lower U text))
  /\ (forall U,
        extract_rating U "4.5 out of 5" = Some 4.5%float
        /\ extract_rating U "Three" = Some 3.0%float
        /\ extract_rating U "TWO stars" = Some 2.0%float
        /\ extract_rating U "" = None
        /\ extract_rating U "9" = Some 5.0%float)
  /\ extract_rating Unicode.sample fullwidth_rating = Some 4.5%float.
Proof.
  assert (Hnum : forall U text tok,
    first_number U text tok ->
    exists f, Num.py_float U tok = Ok f
              /\ extract_rating U text = Some (Num.py_min2 f 5.0)).
  { intros U text tok Hfirst.
    pose proof Hfirst as (pre & ip & frac & post & _ & Htok & _ & Hshape).
    destruct (py_float_token _ _ _ _ Hshape) as [f Hf]. rewrite <- Htok in Hf.
    exists f. split; [exact Hf|].
    rewrite extract_rating_unguarded.
    apply search_number_first in Hfirst. now rewrite Hfirst, Hf. }
  assert (Hword : forall U text,
    no_digit U text ->
    extract_rating U text = first_word word_ratings (Text.lower U text)).
  { intros U text Hnd. rewrite extract_rating_unguarded.
    apply search_number_none in Hnd. now rewrite Hnd. }
  split; [exact Hnum|]. split; [|split; [|split; [|split]]].
  - intros U text Hnd. rewrite (Hword U text Hnd). split.
    + intros v. apply first_word_some.
    + apply first_word_none.
  - intros U text r. rewrite extract_rating_unguarded.
    assert (Hw : first_word word_ratings (Text.lower U text) = Some r ->
                 (5.0 <? r)%float = false).
    { intros H. apply first_word_some in H as (w & Hin & _).
      exact (five_not_below_word _ _ Hin). }
    destruct (Text.search_number U (Text.is_digit U) text) as [tok|];
      [|exact Hw].
    destruct (Num.py_float U tok) as [f|e]; [|exact Hw].
    intros H; injection H as <-. unfold Num.py_min2.
    destruct (5.0 <? f)%float eqn:Hf; [reflexivity | exact Hf].
  - intros U text. split.
    + intros Hnone.
      assert (Hnd : no_digit U text).
      { apply search_number_none.
        destruct (Text.search_number U (Text.is_digit U) text) as [tok|] eqn:Hs;
          trivial.
        apply search_number_first in Hs.
        destruct (Hnum U text tok Hs) as (f & _ & Hr). congruence. }
      split; [exact Hnd|].
      apply first_word_none. now rewrite <- (Hword U text Hnd).
    + intros [Hnd Hno]. rewrite (Hword U text Hnd).
      now apply first_word_none.
  - intros U. repeat split; vm_compute; reflexivity.
  - vm_compute. reflexivity.
Qed.

Lemma extract_rating_spec_witness :
  exists f, Num.py_float Unicode.sample "4.5" = Ok f
            /\ DataExtractor.extract_rating Unicode.sample "4.5 out of 5"
               = Some (Num.py_min2 f 5.0).
Proof.
  apply (proj1 extract_rating_spec Unicode.sample "4.5 out of 5" "4.5").
  exists "", "4", ".5", " out of 5".
  split; [reflexivity|]. split; [reflexivity|]. split; [reflexivity|].
  split; [discriminate|]. split; [reflexivity|].
  right. exists "5". split; [reflexivity|]. split; reflexivity.
Defined.

(** C4.  For every text, whatever the character database: the price is the
    float read from the first decimal-number token of the text without its
    commas; there is no price exactly when that text holds no such token,
    or the text is the sentinel or empty.  The digits are those of any
    script: the Arabic-Indic digit three is the price 3.0, and a price in
    fullwidth digits before a yen sign is read like its ASCII form. *)
Theorem extract_price_spec :
  (forall U text tok,
      first_number U (Text.remove_char Text.comma text) tok ->
      exists f, Num.py_float U tok = Ok f /\ extract_price U text = Some f)
  /\ (forall U text,
        extract_price U text = None <->
        ((forall tok, ~ first_number U (Text.remove_char Text.comma text) tok)
         \/ text = NA \/ text = Empty))
  /\ (forall U,
        extract_price U "$1,234.56" = Some 1234.56%float
        /\ extract_price U "N/A" = None
        /\ extract_price U "" = None)
  /\ extract_price Unicode.sample arabic_three = Some 3.0%float
  /\ extract_price Unicode.sample fullwidth_price = Some 1234.0%float.
Proof.
  assert (Hsearch : forall U text,
    Text.search_number U (digit_or_comma U) (Text.remove_char Text.comma text)
    = Text.search_number U (Text.is_digit U)
                         (Text.remove_char Text.comma text)).
  { intros U text. apply search_number_comma_free, comma_free_remove. }
  assert (Htoken : forall U text tok,
    first_number U (Text.remove_char Text.comma text) tok ->
    exists f, Num.py_float U tok = Ok f
              /\ (absent text = false -> extract_price U text = Some f)).
  { intros U text tok Hfirst.
    pose proof Hfirst as (pre & ip & frac & post & _ & Htok & _ & Hshape).
    destruct (py_float_token _ _ _ _ Hshape) as [f Hf]. rewrite <- Htok in Hf.
    exists f. split; [exact Hf|]. intros Ha.
    unfold extract_price. rewrite Ha, Hsearch.
    apply search_number_first in Hfirst. now rewrite Hfirst, Hf. }
  split; [|split; [|split; [|split]]].
  - intros U text tok Hfirst.
    destruct (Htoken U text tok Hfirst) as (f & Hf & Hp).
    exists f. split; [exact Hf|]. apply Hp.
    destruct (absent text) eqn:Ha; trivial.
    apply absent_cases in Ha as [-> | ->];
      apply search_number_first in Hfirst; discriminate.
  - intros U text. split.
    + intros Hnone. destruct (absent text) eqn:Ha.
      * apply absent_cases in Ha as [-> | ->]; [right; right|right; left];
          reflexivity.
      * left. intros tok Hfirst.
        destruct (Htoken U text tok Hfirst) as (f & _ & Hp).
        rewrite (Hp Ha) in Hnone. discriminate.
    + intros [Hno|[-> | ->]]; try reflexivity.
      unfold extract_price. destruct (absent text); trivial.
      rewrite Hsearch.
      destruct (Text.search_number U (Text.is_digit U)
                                   (Text.remove_char Text.comma text))
        as [tok|] eqn:Hs; trivial.
      apply search_number_first in Hs. now destruct (Hno tok).
  - intros U. repeat split; vm_compute; reflexivity.
  - vm_compute. reflexivity.
  - vm_compute. reflexivity.
Qed.

Lemma extract_price_spec_witness :
  exists f, Num.py_float Unicode.sample "1234.56" = Ok f
            /\ DataExtractor.extract_price Unicode.sample "$1,234.56"
               = Some f.
Proof.
  apply (proj1 extract_price_spec Unicode.sample "$1,234.56" "1234.56").
  exists "$", "1234", ".56", "".
  split; [reflexivity|]. split; [reflexivity|]. split; [reflexivity|].
  split; [discriminate|]. split; [reflexivity|].
  right. exists "56". split; [reflexivity|]. split; [reflexivity | exact I].
Defined.

End Extractors.

(* ================================================================== *)
(** ** Stock information *)

Section StockInfo.

Import Unicode DataExtractor Spec.

Variable U : database.

Lemma search_scarcity_eq (s : text) :
  Text.search_scarcity U s
  = match Text.match_scarcity_at U s with
    | Some m => Some m
    | None => match s with
              | Empty => None
              | Char _ r => Text.search_scarcity U r
              end
    end.
Proof. destruct s; reflexivity. Qed.

Lemma drop_only (x : text) : Text.drop 5 ("only " ++ x)%text = x.
Proof. reflexivity. Qed.

Lemma match_scarcity_at_sound (s m : text) :
  Text.match_scarcity_at U s = Some m ->
  scarcity_phrase U m /\ exists post, s = (m ++ post)%text.
Proof.
  unfold Text.match_scarcity_at.
  destruct (Text.starts_with "only " s) eqn:Hs; [|discriminate].
  apply starts_with_spec in Hs as [x ->]. rewrite drop_only.
  destruct (Text.span (Text.is_digit U) x) as [ds rest] eqn:Hx.
  destruct ds as [|d ds]; [discriminate|].
  destruct (Text.starts_with " left" rest) eqn:Hl; [|discriminate].
  apply starts_with_spec in Hl as [post ->].
  intros H; injection H as <-. split.
  - exists (Char d ds). split; [reflexivity|].
    split; [discriminate | exact (span_all _ _ _ _ Hx)].
  - exists post. rewrite (span_append _ _ _ _ Hx).
    simpl. do 6 f_equal. now rewrite append_assoc.
Qed.

Lemma match_scarcity_at_complete (m post : text) :
  scarcity_phrase U m -> Text.match_scarcity_at U (m ++ post)%text = Some m.
Proof.
  intros (ds & -> & Hne & Hds). unfold Text.match_scarcity_at.
  rewrite !append_assoc.
  assert (Hs : Text.starts_with "only " ("only " ++ ds ++ " left" ++ post)%text
               = true)
    by (apply starts_with_spec; eexists; reflexivity).
  rewrite Hs, drop_only.
  rewrite (span_unique _ ds (" left" ++ post)%text Hds eq_refl).
  destruct ds as [|d ds]; [congruence|].
  assert (Hl : Text.starts_with " left" (" left" ++ post)%text = true)
    by (apply starts_with_spec; eexists; reflexivity).
  now rewrite Hl.
Qed.

Lemma search_scarcity_some (s m : text) :
  Text.search_scarcity U s = Some m -> scarcity_phrase U m /\ occurs m s.
Proof.
  revert m; induction s as [|c s IH]; intros m; rewrite search_scarcity_eq.
  - destruct (Text.match_scarcity_at U Empty) eqn:Hm; [|discriminate].
    intros H; injection H as ->.
    destruct (match_scarcity_at_sound _ _ Hm) as [Hp [post Hpost]].
    split; [exact Hp|]. now exists Empty, post.
  - destruct (Text.match_scarcity_at U (Char c s)) eqn:Hm.
    + intros H; injection H as ->.
      destruct (match_scarcity_at_sound _ _ Hm) as [Hp [post Hpost]].
      split; [exact Hp|]. now exists Empty, post.
    + intros H. destruct (IH _ H) as [Hp (pre & post & ->)].
      split; [exact Hp|]. now exists (Char c pre), post.
Qed.

Lemma search_scarcity_none (s : text) :
  Text.search_scarcity U s = None ->
  forall m, scarcity_phrase U m -> ~ occurs m s.
Proof.
  intros Hnone m Hp (pre & post & ->). revert Hnone.
  induction pre as [|c pre IH]; rewrite search_scarcity_eq.
  - simpl. now rewrite (match_scarcity_at_complete m post Hp).
  - destruct (Text.match_scarcity_at U (Char c pre ++ m ++ post)%text);
      [discriminate|exact IH].
Qed.

(** On a text that is neither empty nor the sentinel, the three fields of
    the stock information are as the specification says. *)
Lemma extract_stock_info_present (text : text) :
  absent text = false ->
  exists (in_stock : bool) (scarcity : option Unicode.text),
    extract_stock_info U text
    = [("in_stock", VBool in_stock);
       ("scarcity_signal", opt_str scarcity);
       ("raw_text", str text)]
    /\ (in_stock = true <->
        exists phrase, In phrase stock_phrases
                       /\ occurs phrase (Text.lower U text))
    /\ (forall m, scarcity = Some m ->
                  scarcity_phrase U m /\ occurs m (Text.lower U text))
    /\ (scarcity = None ->
        forall m, scarcity_phrase U m -> ~ occurs m (Text.lower U text)).
Proof.
  intros Ha. unfold extract_stock_info. rewrite Ha.
  eexists. eexists. split; [reflexivity|]. split; [|split].
  - rewrite existsb_exists. split.
    + intros (p & Hin & Hc). exists p. split; [exact Hin|].
      now apply contains_spec.
    + intros (p & Hin & Hc). exists p. split; [exact Hin|].
      now apply contains_spec.
  - intros m. apply search_scarcity_some.
  - apply search_scarcity_none.
Qed.

End StockInfo.

Section StockInfoClaim.

Import Unicode DataExtractor Spec.

(** C2, at the inputs where the code departs from it.  The sentinel, which
    is what [extract_text] answers for an element without an availability
    node, and the empty text give a stock information without the
    [raw_text] field; any other text keeps it. *)
Theorem extract_stock_info_sentinel_drops_raw_text :
  (forall U (el : element) (sel : string),
      el sel = NoMatch -> extract_text U el (VStr sel) NA = "N/A"%text)
  /\ (forall U,
        extract_stock_info U "N/A"
        = [("in_stock", VNone); ("scarcity_signal", VNone)]
        /\ dict_get "raw_text" (extract_stock_info U "N/A") = None
        /\ dict_get "raw_text" (extract_stock_info U "") = None
        /\ dict_get "raw_text" (extract_stock_info U "Only 3 left in stock")
           = Some (VStr "Only 3 left in stock")
        /\ dict_get "in_stock" (extract_stock_info U "Only 3 left in stock")
           = Some (VBool true)
        /\ dict_get "scarcity_signal"
                    (extract_stock_info U "Only 3 left in stock")
           = Some (VStr "only 3 left")).
Proof.
  split.
  - intros U el sel H. unfold extract_text. now rewrite H.
  - intros U. repeat split; vm_compute; reflexivity.
Qed.

Lemma extract_stock_info_sentinel_drops_raw_text_witness :
  DataExtractor.extract_text Unicode.sample (fun _ => DataExtractor.NoMatch)
                             (VStr "p.availability") DataExtractor.NA
  = "N/A"%text.
Proof.
  exact (proj1 extract_stock_info_sentinel_drops_raw_text Unicode.sample
           (fun _ => DataExtractor.NoMatch) "p.availability" eq_refl).
Defined.

End StockInfoClaim.

(* ================================================================== *)
(** ** Batching *)

Section Batching.

Import AIEnrichmentEngine.

Context {A : Type}.

Lemma range_step_count (n : nat) :
  (0 < n)%nat ->
  ((n + batch_size - 1) / batch_size
   = S ((n - batch_size + batch_size - 1) / batch_size))%nat.
Proof.
  unfold batch_size. intros Hn.
  destruct (Nat.le_gt_cases n 20) as [Hle|Hgt].
  - replace (n - 20)%nat with 0%nat by lia. simpl Nat.div at 2.
    symmetry. apply Nat.div_unique with (r := (n - 1)%nat); lia.
  - replace (n + 20 - 1)%nat with (1 * 20 + (n - 20 + 20 - 1))%nat by lia.
    rewrite Nat.div_add_l by lia. reflexivity.
Qed.

(** The loop cuts the first twenty items and goes on with the rest. *)
Lemma batches_unfold (l : list A) :
  l <> [] ->
  batches l = firstn batch_size l :: batches (skipn batch_size l).
Proof.
  intros Hl. unfold batches, range_step.
  assert (Hn : (0 < List.length l)%nat)
    by (destruct l; [congruence | simpl; lia]).
  rewrite (range_step_count _ Hn), length_skipn.
  cbn [seq map].
  change (slice l (0 * batch_size) (0 * batch_size + batch_size))
    with (firstn batch_size l).
  f_equal.
  rewrite <- seq_shift, !map_map. apply map_ext. intros k.
  unfold slice. rewrite skipn_skipn.
  replace (S k * batch_size + batch_size - S k * batch_size)%nat
    with (k * batch_size + batch_size - k * batch_size)%nat by lia.
  replace (S k * batch_size)%nat with (k * batch_size + batch_size)%nat by lia.
  reflexivity.
Qed.

Lemma batches_nil : batches (@nil A) = [].
Proof. reflexivity. Qed.

(** Induction over a list, twenty items at a time. *)
Lemma batch_induction (P : list A -> Prop) :
  P [] ->
  (forall l, l <> [] -> P (skipn batch_size l) -> P l) ->
  forall l, P l.
Proof.
  intros Hnil Hstep l.
  remember (List.length l) as n eqn:Hn. revert l Hn.
  induction n as [n IH] using lt_wf_ind. intros l Hn.
  destruct l as [|x l]; [exact Hnil|].
  apply Hstep; [discriminate|].
  apply (IH (List.length (skipn batch_size (x :: l)))); trivial.
  rewrite length_skipn. subst n. unfold batch_size. simpl. lia.
Qed.

Lemma concat_batches (l : list A) : List.concat (batches l) = l.
Proof.
  pattern l. apply batch_induction; clear l; [reflexivity|]. intros l Hl IH.
  rewrite (batches_unfold l Hl), concat_cons, IH.
  apply firstn_skipn.
Qed.

Lemma batches_sizes (l : list A) :
  map (@List.length A) (batches l)
  = (repeat batch_size (List.length l / batch_size)
     ++ match (List.length l mod batch_size)%nat with
        | O => []
        | r => [r]
        end)%list.
Proof.
  pattern l. apply batch_induction; clear l; [reflexivity|]. intros l Hl IH.
  rewrite (batches_unfold l Hl). cbn [map]. rewrite IH.
  rewrite length_firstn, length_skipn. unfold batch_size.
  assert (Hn : (0 < List.length l)%nat)
    by (destruct l; [congruence | simpl; lia]).
  set (n := List.length l) in *.
  pose proof (Nat.div_mod_eq n 20) as E1.
  pose proof (Nat.div_mod_eq (n - 20) 20) as E2.
  pose proof (Nat.mod_upper_bound n 20) as B1.
  pose proof (Nat.mod_upper_bound (n - 20) 20) as B2.
  destruct (Nat.le_gt_cases 20 n) as [Hge|Hlt].
  - assert (Hq : (n / 20 = S ((n - 20) / 20))%nat) by lia.
    assert (Hr : (n mod 20 = (n - 20) mod 20)%nat) by lia.
    rewrite Hq, Hr, Nat.min_l by lia. reflexivity.
  - assert (Hq : (n / 20 = 0)%nat) by lia.
    assert (Hr : (n mod 20 = n)%nat) by lia.
    assert (Hq' : ((n - 20) / 20 = 0)%nat) by lia.
    assert (Hr' : ((n - 20) mod 20 = 0)%nat) by lia.
    rewrite Hq, Hr, Hq', Hr', Nat.min_r by lia.
    simpl. destruct n; [lia | reflexivity].
Qed.

End Batching.

Section BatchingClaim.

Import AIEnrichmentEngine.

(** C6.  The priced products are cut into consecutive batches in input
    order: concatenating the batches gives the list back; every batch but
    the last holds exactly 20 products and the last holds between 1 and 20;
    [categorize_products] enriches exactly these batches, one after the
    other; and 41 products make batches of 20, 20 and 1. *)
Theorem batches_contiguous_fixed_size :
  (forall (A : Type) (l : list A),
      List.concat (batches l) = l
      /\ map (@List.length A) (batches l)
         = (repeat 20%nat (List.length l / 20)
            ++ match (List.length l mod 20)%nat with
               | O => []
               | r => [r]
               end)%list)
  /\ (forall E products p valid,
        filter is_priced products = p :: valid ->
        categorize_products E products
        = (stats <- compute_stats (p :: valid) ;;
           enriched <- enrich_batches E stats (batches (p :: valid)) [] ;;
           ret (enriched ++ filter (fun q => negb (is_priced q)) products)%list))
  /\ (forall (A : Type) (l : list A),
        List.length l = 41%nat ->
        map (@List.length A) (batches l) = [20; 20; 1]%nat).
Proof.
  split; [|split].
  - intros A l. split; [apply concat_batches | apply batches_sizes].
  - intros E products p valid H. unfold categorize_products. now rewrite H.
  - intros A l H. rewrite batches_sizes, H. reflexivity.
Qed.

Lemma batches_contiguous_fixed_size_witness :
  map (@List.length nat) (AIEnrichmentEngine.batches (seq 0 41))
  = [20; 20; 1]%nat.
Proof.
  exact (proj2 (proj2 batches_contiguous_fixed_size) nat (seq 0 41) eq_refl).
Defined.

End BatchingClaim.

(* ================================================================== *)
(** ** Running code in the state monad *)

Section Monad.

Lemma bind_ok {A B} (m : M A) (k : A -> M B) (w w' : world) (b : B) :
  Py.bind m k w = (Ok b, w') ->
  exists a w1, m w = (Ok a, w1) /\ k a w1 = (Ok b, w').
Proof.
  unfold Py.bind. destruct (m w) as [[a|e] w1]; [|discriminate].
  intros H. now exists a, w1.
Qed.

Lemma lift_ok {A} (r : result A) (w w' : world) (a : A) :
  lift r w = (Ok a, w') -> r = Ok a /\ w' = w.
Proof. unfold lift. intros H. injection H as -> ->. now split. Qed.

Lemma ret_ok {A} (x a : A) (w w' : world) :
  ret x w = (Ok a, w') -> x = a /\ w' = w.
Proof. unfold ret. intros H. injection H as -> ->. now split. Qed.

Lemma try_except_ok {A} (body : M A) (handler : exn -> M A)
    (w w' : world) (a : A) :
  try_except body handler w = (Ok a, w') ->
  body w = (Ok a, w')
  \/ exists e w1, body w = (Raise e, w1) /\ handler e w1 = (Ok a, w').
Proof.
  unfold try_except. destruct (body w) as [[x|e] w1]; intros H.
  - now left.
  - right. now exists e, w1.
Qed.

Lemma mapM_Forall2 {A B} (R : A -> B -> Prop) (f : A -> M B) :
  (forall x y w w', f x w = (Ok y, w') -> R x y) ->
  forall l ys w w', mapM f l w = (Ok ys, w') -> Forall2 R l ys.
Proof.
  intros Hf. induction l as [|x l IH]; simpl; intros ys w w' H.
  - apply ret_ok in H as [<- _]. constructor.
  - apply bind_ok in H as (y & w1 & Hy & H).
    apply bind_ok in H as (ys' & w2 & Hys & H).
    apply ret_ok in H as [<- _].
    constructor; [exact (Hf _ _ _ _ Hy) | exact (IH _ _ _ Hys)].
Qed.

End Monad.

(* ================================================================== *)
(** ** Enrichment: what is written, and on which products *)

Section Enrichment.

Import AIEnrichmentEngine Spec.

Lemma apply_fallback_enrichment (E : externals) (stats : price_stats)
    (p e : dict) (w w' : world) :
  _apply_fallback E stats p w = (Ok e, w') -> enrichment_of p e.
Proof.
  unfold _apply_fallback. intros H.
  apply bind_ok in H as (c & w1 & _ & H).
  apply bind_ok in H as (t & w2 & _ & H).
  apply ret_ok in H as [<- _].
  now exists (VStr c), (VStr "Rule-based categorization (AI unavailable)"), t.
Qed.

Lemma enrich_one_enrichment (E : externals) (stats : price_stats)
    (cats : list (value * value)) (p e : dict) (w w' : world) :
  enrich_one E stats cats p w = (Ok e, w') -> enrichment_of p e.
Proof.
  unfold enrich_one. intros H.
  apply bind_ok in H as (id & w1 & _ & H).
  apply bind_ok in H as (found & w2 & _ & H).
  apply bind_ok in H as (copy & w3 & Hcopy & H).
  apply bind_ok in H as (t & w4 & _ & H).
  apply ret_ok in H as [<- _].
  destruct found as [cat_data|].
  - apply bind_ok in Hcopy as (c & w5 & _ & Hcopy).
    apply bind_ok in Hcopy as (r & w6 & _ & Hcopy).
    apply ret_ok in Hcopy as [<- _]. now exists c, r, t.
  - apply bind_ok in Hcopy as (c & w5 & _ & Hcopy).
    apply ret_ok in Hcopy as [<- _].
    now exists (VStr c), (VStr "Fallback categorization based on price"), t.
Qed.

Lemma enrich_batch_enrichment (E : externals) (stats : price_stats)
    (batch out : list dict) (w w' : world) :
  _enrich_batch E batch stats w = (Ok out, w') ->
  Forall2 enrichment_of batch out.
Proof.
  unfold _enrich_batch. intros H.
  apply bind_ok in H as (summary & w1 & _ & H).
  apply try_except_ok in H as [H | (e & w2 & _ & H)].
  - apply bind_ok in H as (text & w2 & _ & H).
    apply bind_ok in H as (json & w3 & _ & H).
    apply bind_ok in H as (listed & w4 & _ & H).
    apply bind_ok in H as (items & w5 & _ & H).
    apply bind_ok in H as (cats & w6 & _ & H).
    revert H. apply mapM_Forall2. intros x y u u'.
    apply enrich_one_enrichment.
  - revert H. apply mapM_Forall2. intros x y u u'.
    apply apply_fallback_enrichment.
Qed.

Lemma enrich_batches_enrichment (E : externals) (stats : price_stats)
    (bs : list (list dict)) :
  forall (acc out : list dict) (w w' : world),
    enrich_batches E stats bs acc w = (Ok out, w') ->
    exists enriched,
      out = (acc ++ enriched)%list
      /\ Forall2 enrichment_of (List.concat bs) enriched.
Proof.
  induction bs as [|b bs IH]; simpl; intros acc out w w' H.
  - apply ret_ok in H as [<- _]. exists []. rewrite app_nil_r.
    split; [reflexivity | constructor].
  - apply bind_ok in H as (eb & w1 & Hb & H).
    apply IH in H as (rest & -> & Hrest).
    exists (eb ++ rest)%list. rewrite app_assoc. split; [reflexivity|].
    apply Forall2_app; [|exact Hrest].
    exact (enrich_batch_enrichment _ _ _ _ _ _ Hb).
Qed.

Lemma filter_none_unpriced (products : list dict) :
  filter is_priced products = [] ->
  filter unpriced products = products.
Proof.
  unfold unpriced. induction products as [|p ps IH]; simpl; trivial.
  destruct (is_priced p); simpl; [discriminate|].
  intros H. now rewrite (IH H).
Qed.

(** *** When enrichment returns *)

Lemma mapR_ok_forall {A B} (f : A -> result B) (l : list A) (ys : list B) :
  mapR f l = Ok ys -> Forall2 (fun x y => f x = Ok y) l ys.
Proof.
  revert ys; induction l as [|x l IH]; simpl; intros ys H.
  - injection H as <-. constructor.
  - destruct (f x) as [y|e] eqn:Hx; [|discriminate].
    destruct (mapR f l) as [ys'|e]; [|discriminate].
    injection H as <-. constructor; [exact Hx | now apply IH].
Qed.

Lemma forall_mapR_ok {A B} (f : A -> result B) (l : list A) :
  Forall (fun x => exists y, f x = Ok y) l -> exists ys, mapR f l = Ok ys.
Proof.
  induction 1 as [|x l [y Hx] _ [ys IH]]; simpl.
  - now exists [].
  - rewrite Hx, IH. now exists (y :: ys).
Qed.

Lemma forall_mapM_ok {A B} (f : A -> M B) (l : list A) :
  Forall (fun x => forall w, exists y w', f x w = (Ok y, w')) l ->
  forall w, exists ys w', mapM f l w = (Ok ys, w').
Proof.
  induction 1 as [|x l Hx _ IH]; intros w; simpl.
  - now exists [], w.
  - destruct (Hx w) as (y & w1 & Hy). destruct (IH w1) as (ys & w2 & Hys).
    exists (y :: ys), w2. unfold Py.bind, ret. now rewrite Hy, Hys.
Qed.

(** Where the statistics can be computed, every price is a number. *)
Lemma compute_stats_numeric (valid : list dict) (w w' : world)
    (stats : price_stats) :
  compute_stats valid w = (Ok stats, w') -> Forall numeric_price valid.
Proof.
  unfold compute_stats. intros H.
  apply bind_ok in H as (prices & w1 & Hp & H).
  apply bind_ok in H as (nums & w2 & Hn & _).
  apply lift_ok in Hp as [Hp _]. apply lift_ok in Hn as [Hn _].
  apply mapR_ok_forall in Hp. apply mapR_ok_forall in Hn.
  clear - Hp Hn. revert nums Hn.
  induction Hp as [|p v valid prices Hv _ IH]; intros nums Hn;
    [constructor|].
  inversion Hn as [|v' n prices' nums' Hvn Hrest]; subst.
  constructor; [|exact (IH _ Hrest)].
  exists v, n. unfold getitem in Hv.
  destruct (dict_get "price" p) as [x|]; [|discriminate].
  injection Hv as ->. now split.
Qed.

Lemma fallback_categorization_numeric (p : dict) (stats : price_stats) :
  numeric_price p -> exists c, _fallback_categorization p stats = Ok c.
Proof.
  intros (v & n & Hv & Hn). unfold _fallback_categorization.
  rewrite Hv, Hn.
  destruct (Num.num_ltb n (Num.NFloat (stat_avg stats * 0.7)));
    [eexists; reflexivity|].
  destruct (Num.num_ltb n (Num.NFloat (stat_avg stats * 1.3)));
    eexists; reflexivity.
Qed.

Lemma apply_fallback_returns (E : externals) (stats : price_stats)
    (p : dict) (w : world) :
  numeric_price p -> exists e w', _apply_fallback E stats p w = (Ok e, w').
Proof.
  intros Hp. destruct (fallback_categorization_numeric p stats Hp) as [c Hc].
  unfold _apply_fallback, Py.bind, lift, datetime_now, ret. rewrite Hc.
  eexists. eexists. reflexivity.
Qed.

(** A batch of products with the four summary fields and numeric prices is
    enriched without an exception, whatever the provider does. *)
Lemma enrich_batch_returns (E : externals) (stats : price_stats)
    (batch : list dict) (w : world) :
  Forall has_summary batch ->
  Forall numeric_price batch ->
  exists out w', _enrich_batch E batch stats w = (Ok out, w').
Proof.
  intros Hsum Hnum. unfold _enrich_batch.
  destruct (forall_mapR_ok _ _ Hsum) as [summary Hs].
  unfold Py.bind at 1. unfold lift at 1. rewrite Hs.
  unfold try_except.
  match goal with
  | |- context [match ?body w with _ => _ end] =>
      destruct (body w) as [[out|e] w1]
  end.
  - now exists out, w1.
  - apply forall_mapM_ok. clear - Hnum.
    induction Hnum as [|p l Hp _ IH]; constructor; [|exact IH].
    intros w. now apply apply_fallback_returns.
Qed.

Lemma enrich_batches_returns (E : externals) (stats : price_stats)
    (bs : list (list dict)) :
  Forall (Forall has_summary) bs ->
  Forall (Forall numeric_price) bs ->
  forall (acc : list dict) (w : world),
    exists out w', enrich_batches E stats bs acc w = (Ok out, w').
Proof.
  intros Hsum Hnum. revert Hnum.
  induction Hsum as [|b bs Hb _ IH]; intros Hnum acc w; simpl.
  - now exists acc, w.
  - inversion Hnum as [|b' bs' Hnb Hnbs]; subst.
    destruct (enrich_batch_returns E stats b w Hb Hnb) as (eb & w1 & Heb).
    destruct (IH Hnbs (acc ++ eb)%list w1) as (out & w2 & Hout).
    exists out, w2. unfold Py.bind. now rewrite Heb.
Qed.

Lemma forall_batches {A} (P : A -> Prop) (l : list A) :
  Forall P l -> Forall (Forall P) (batches l).
Proof.
  intros H. rewrite <- (concat_batches l) in H.
  now apply Forall_concat in H.
Qed.

(** C7.  Whenever [categorize_products] returns, its output is the priced
    products, each with the three enrichment fields written on its copy,
    followed by the products without a price, which are the very
    dictionaries that came in: nothing is added to them and nothing in them
    is changed.  And it does return, whatever the provider does, when the
    priced products have the four fields shown to the provider and their
    price statistics can be computed. *)
Theorem unpriced_products_pass_through :
  (forall (E : externals) (products out : list dict) (w w' : world),
      categorize_products E products w = (Ok out, w') ->
      exists enriched,
        out = (enriched ++ filter unpriced products)%list
        /\ Forall2 enrichment_of (filter is_priced products) enriched)
  /\ (forall (E : externals) (products : list dict) (w w1 : world)
             (stats : price_stats),
        Forall has_summary (filter is_priced products) ->
        compute_stats (filter is_priced products) w = (Ok stats, w1) ->
        exists out w', categorize_products E products w = (Ok out, w')).
Proof.
  split.
  - intros E products out w w' H. unfold categorize_products in H.
    destruct (filter is_priced products) as [|p valid] eqn:Hvalid.
    + apply ret_ok in H as [<- _]. exists []. simpl.
      split; [|constructor].
      symmetry. now apply filter_none_unpriced.
    + apply bind_ok in H as (stats & w1 & _ & H).
      apply bind_ok in H as (enriched & w2 & He & H).
      apply ret_ok in H as [<- _].
      apply enrich_batches_enrichment in He as (enr & -> & Henr).
      rewrite concat_batches in Henr.
      exists enr. split; [reflexivity | exact Henr].
  - intros E products w w1 stats Hsum Hstats. unfold categorize_products.
    pose proof (compute_stats_numeric _ _ _ _ Hstats) as Hnum.
    destruct (filter is_priced products) as [|p valid] eqn:Hvalid.
    + now exists products, w.
    + destruct (enrich_batches_returns E stats (batches (p :: valid))
                  (forall_batches _ _ Hsum) (forall_batches _ _ Hnum) [] w1)
        as (enriched & w2 & He).
      unfold Py.bind, ret. rewrite Hstats, He.
      eexists. eexists. reflexivity.
Qed.

Lemma unpriced_products_pass_through_witness :
  exists enriched,
    [ [("id", VStr "a"); ("name", VStr "x"); ("price", VFloat 10);
       ("rating", VNone); ("ai_category", VStr "Mid Range");
       ("ai_reasoning", VStr "Rule-based categorization (AI unavailable)");
       ("enriched_at", VStr "0")];
      [("id", VStr "u"); ("price", VNone)] ]
    = (enriched
         ++ filter Spec.unpriced
              [ [("id", VStr "u"); ("price", VNone)];
                Spec.priced_product "a" "x" 10 VNone ])%list
    /\ Forall2 Spec.enrichment_of
         (filter AIEnrichmentEngine.is_priced
            [ [("id", VStr "u"); ("price", VNone)];
              Spec.priced_product "a" "x" 10 VNone ])
         enriched.
Proof.
  apply (proj1 unpriced_products_pass_through
           (Spec.failing_provider Text.of_nat ProviderError
              (fun _ => Raise JSONDecodeError) (fun _ _ _ _ => "prompt")
         Unicode.sample)
           [ [("id", VStr "u"); ("price", VNone)];
             Spec.priced_product "a" "x" 10 VNone ]
           _ (mkWorld 0 []) (mkWorld 1 ["prompt"])).
  vm_compute. reflexivity.
Defined.

(** C10.  When no product has a price, [categorize_products] answers the
    list it was given, and the world is as it was: the provider was not
    called and the clock was not read. *)
Theorem categorize_products_without_prices :
  forall (E : externals) (products : list dict) (w : world),
    Forall (fun p => is_priced p = false) products ->
    categorize_products E products w = (Ok products, w).
Proof.
  intros E products w Hall. unfold categorize_products.
  assert (Hnone : filter is_priced products = []).
  { induction Hall as [|p ps Hp _ IH]; simpl; trivial. now rewrite Hp. }
  now rewrite Hnone.
Qed.

Lemma categorize_products_without_prices_witness :
  AIEnrichmentEngine.categorize_products
    (Spec.failing_provider Text.of_nat ProviderError
       (fun _ => Raise JSONDecodeError) (fun _ _ _ _ => "prompt")
         Unicode.sample)
    [ [("id", VStr "books_1"); ("name", VStr "Untitled"); ("price", VNone)];
      [("id", VStr "books_2"); ("name", VStr "No price field")] ]
    (mkWorld 0 [])
  = (Ok [ [("id", VStr "books_1"); ("name", VStr "Untitled"); ("price", VNone)];
          [("id", VStr "books_2"); ("name", VStr "No price field")] ],
     mkWorld 0 []).
Proof.
  apply categorize_products_without_prices.
  repeat constructor.
Defined.

End Enrichment.

(* ================================================================== *)
(** ** The extraction loop *)

Section Orchestrator.

Import DataExtractor StealthScraper Spec.

(** An element whose extraction raises is left out, and the loop goes on
    with the next position. *)
Lemma extract_loop_skips (body : nat -> element -> M dict) (idx : nat)
    (el : element) (rest : list element) (acc : list dict)
    (w w1 : world) (e : exn) :
  body idx el w = (Raise e, w1) ->
  extract_loop body idx (el :: rest) acc w
  = extract_loop body (S idx) rest acc w1.
Proof.
  intros H. simpl. unfold Py.bind, try_except. now rewrite H.
Qed.

Lemma extract_loop_keeps (body : nat -> element -> M dict) (idx : nat)
    (el : element) (rest : list element) (acc : list dict)
    (w w1 : world) (p : dict) :
  body idx el w = (Ok p, w1) ->
  extract_loop body idx (el :: rest) acc w
  = extract_loop body (S idx) rest (acc ++ [p])%list w1.
Proof.
  intros H. simpl. unfold Py.bind, try_except, ret. now rewrite H.
Qed.

(** The loop itself never raises, and it keeps at most one product per
    element. *)
Lemma extract_loop_total (body : nat -> element -> M dict)
    (els : list element) :
  forall (idx : nat) (acc : list dict) (w : world),
    exists kept w',
      extract_loop body idx els acc w = (Ok (acc ++ kept)%list, w')
      /\ (List.length kept <= List.length els)%nat.
Proof.
  induction els as [|el rest IH]; intros idx acc w.
  - exists [], w. rewrite app_nil_r. split; [reflexivity | simpl; lia].
  - destruct (body idx el w) as [[p|e] w1] eqn:Hb.
    + rewrite (extract_loop_keeps _ _ _ _ _ _ _ _ Hb).
      destruct (IH (S idx) (acc ++ [p])%list w1) as (kept & w' & Hk & Hlen).
      exists (p :: kept), w'. rewrite Hk, <- app_assoc.
      split; [reflexivity | simpl; lia].
    + rewrite (extract_loop_skips _ _ _ _ _ _ _ _ Hb).
      destruct (IH (S idx) acc w1) as (kept & w' & Hk & Hlen).
      exists kept, w'. split; [exact Hk | simpl; lia].
Qed.

Lemma extract_loop_ordinals (E : externals) (self : scraper) (sels : dict)
    (nm pr rt av url : value) (els : list element) :
  getitem "name" sels = Ok nm ->
  getitem "price" sels = Ok pr ->
  getitem "rating" sels = Ok rt ->
  getitem "availability" sels = Ok av ->
  getitem "url" (target_config self) = Ok url ->
  forall (idx : nat) (acc : list dict) (w : world),
    exists kept w',
      extract_loop (extract_product E self (VDict sels)) idx els acc w
      = (Ok (acc ++ kept)%list, w')
      /\ map (dict_get "id") kept
         = map (product_id self) (seq (S idx) (List.length els)).
Proof.
  intros Hn Hp Hr Ha Hu.
  induction els as [|el rest IH]; intros idx acc w.
  - exists [], w. rewrite app_nil_r. split; reflexivity.
  - assert (Hb : exists p w1,
      extract_product E self (VDict sels) idx el w = (Ok p, w1)
      /\ dict_get "id" p = product_id self (idx + 1)).
    { unfold extract_product, Py.bind, lift, subscript, datetime_now, ret.
      rewrite Hn, Hp, Hr, Ha, Hu. eexists. eexists. split; reflexivity. }
    destruct Hb as (p & w1 & Hb & Hid).
    rewrite (extract_loop_keeps _ _ _ _ _ _ _ _ Hb).
    destruct (IH (S idx) (acc ++ [p])%list w1) as (kept & w' & Hk & Hids).
    exists (p :: kept), w'. rewrite Hk, <- app_assoc.
    split; [reflexivity|].
    cbn [map List.length seq]. rewrite Hid, Hids.
    now replace (idx + 1)%nat with (S idx) by lia.
Qed.

(** With a configuration that names its selectors, the orchestrator keeps
    every element of the slice and numbers them 1, 2, 3, ... *)
Lemma extract_products_sliced (E : externals) (self : scraper) (sels : dict)
    (cn nm pr rt av url : value) (pg : page) (els : list element)
    (max_products : Z) (w : world) :
  getitem "selectors" (target_config self) = Ok (VDict sels) ->
  getitem "product_container" sels = Ok cn ->
  getitem "name" sels = Ok nm ->
  getitem "price" sels = Ok pr ->
  getitem "rating" sels = Ok rt ->
  getitem "availability" sels = Ok av ->
  getitem "url" (target_config self) = Ok url ->
  pg cn = Ok els ->
  exists products w',
    _extract_products E self pg max_products w = (Ok products, w')
    /\ map (dict_get "id") products
       = map (product_id self)
             (seq 1 (List.length (slice_to els max_products))).
Proof.
  intros Hs Hc Hn Hp Hr Ha Hu Hpg.
  unfold _extract_products, Py.bind, lift, subscript.
  rewrite Hs, Hc, Hpg.
  destruct (extract_loop_ordinals E self sels nm pr rt av url
              (slice_to els max_products) Hn Hp Hr Ha Hu 0%nat [] w)
    as (kept & w' & Hk & Hids).
  exists kept, w'. split; [exact Hk | exact Hids].
Qed.

(** A cap that is not negative is kept: at most [max_products] products
    come back. *)
Lemma extract_products_capped (E : externals) (self : scraper) (sels : dict)
    (cn nm pr rt av url : value) (pg : page) (els : list element)
    (max_products : Z) (w : world) :
  getitem "selectors" (target_config self) = Ok (VDict sels) ->
  getitem "product_container" sels = Ok cn ->
  getitem "name" sels = Ok nm ->
  getitem "price" sels = Ok pr ->
  getitem "rating" sels = Ok rt ->
  getitem "availability" sels = Ok av ->
  getitem "url" (target_config self) = Ok url ->
  pg cn = Ok els ->
  (0 <= max_products)%Z ->
  exists products w',
    _extract_products E self pg max_products w = (Ok products, w')
    /\ map (dict_get "id") products
       = map (product_id self)
             (seq 1 (Nat.min (Z.to_nat max_products) (List.length els))).
Proof.
  intros Hs Hc Hn Hp Hr Ha Hu Hpg Hmax.
  destruct (extract_products_sliced E self sels cn nm pr rt av url pg els
              max_products w Hs Hc Hn Hp Hr Ha Hu Hpg)
    as (products & w' & Hk & Hids).
  exists products, w'. split; [exact Hk|].
  rewrite Hids. unfold slice_to.
  destruct (0 <=? max_products)%Z eqn:H0; [|lia].
  now rewrite length_firstn.
Qed.

(** C5, at the input where the code departs from it, next to the case the
    specification tests.  With five matched elements and the cap 3 the
    orchestrator returns exactly the products numbered 1, 2, 3; with the
    cap -1 it returns four products, numbered 1 to 4, because the slice
    [product_elements[:-1]] drops only the last element. *)
Theorem extract_products_cap :
  forall (E : externals) (el1 el2 el3 el4 el5 : element) (w : world),
    let self := mkScraper "books_toscrape" ScrapingConfig.books_toscrape in
    let pg : page := fun _ => Ok [el1; el2; el3; el4; el5] in
    (exists products w',
        _extract_products E self pg 3 w = (Ok products, w')
        /\ map (dict_get "id") products
           = [Some (VStr "books_toscrape_1"); Some (VStr "books_toscrape_2");
              Some (VStr "books_toscrape_3")])
    /\ (exists products w',
          _extract_products E self pg (-1) w = (Ok products, w')
          /\ map (dict_get "id") products
             = [Some (VStr "books_toscrape_1"); Some (VStr "books_toscrape_2");
                Some (VStr "books_toscrape_3"); Some (VStr "books_toscrape_4")]).
Proof.
  intros E el1 el2 el3 el4 el5 w self pg.
  assert (H : forall m,
    exists products w',
      _extract_products E self pg m w = (Ok products, w')
      /\ map (dict_get "id") products
         = map (product_id self)
               (seq 1 (List.length (slice_to [el1; el2; el3; el4; el5] m)))).
  { intros m.
    eapply (extract_products_sliced E self _ _ _ _ _ _ _ pg); reflexivity. }
  split.
  - destruct (H 3%Z) as (products & w' & Hk & Hids).
    exists products, w'. split; [exact Hk | exact Hids].
  - destruct (H (-1)%Z) as (products & w' & Hk & Hids).
    exists products, w'. split; [exact Hk | exact Hids].
Qed.

End Orchestrator.

(* ================================================================== *)
(** ** Scrolling to the bottom *)

Section Scrolling.

Import HumanBehaviorSimulator.

Context {page : Type}.
Variable D : driver page.
Variable randint : random_source.
Variable pg : page.

Lemma settled_dec (n : nat) :
  {settled D randint pg n} + {~ settled D randint pg n}.
Proof. unfold settled. apply Z.eq_dec. Qed.

(** The loop, entered at pass [k] with the height of poll [k] in hand, ends
    at the first later pair of equal consecutive polls, if the fuel reaches
    that far. *)
Lemma scroll_loop_first_fixed_point (fuel : nat) :
  forall (k : nat) (r : page * nat),
    scroll_loop D randint fuel k (poll D randint pg k)
                (page_after D randint k pg)
    = Some r
    <->
    exists m, r = (page_after D randint (S m) pg, S m)
              /\ (k <= m < k + fuel)%nat
              /\ settled D randint pg m
              /\ forall j, (k <= j < m)%nat -> ~ settled D randint pg j.
Proof.
  induction fuel as [|fuel IH]; intros k r.
  - simpl. split; [discriminate|]. intros (m & _ & Hm & _). lia.
  - cbn [scroll_loop].
    change (scroll_once D randint k (page_after D randint k pg))
      with (page_after D randint (S k) pg).
    change (scroll_height D (page_after D randint (S k) pg))
      with (poll D randint pg (S k)).
    destruct (Z.eqb_spec (poll D randint pg (S k)) (poll D randint pg k))
      as [Heq|Hne].
    + split.
      * intros H. injection H as H. subst r. exists k.
        split; [reflexivity|]. split; [lia|]. split; [exact Heq|].
        intros j Hj. lia.
      * intros (m & -> & Hm & _ & Hfirst).
        destruct (Nat.eq_dec m k) as [->|Hmk]; [reflexivity|].
        exfalso. apply (Hfirst k); [lia | exact Heq].
    + rewrite IH. split.
      * intros (m & -> & Hm & Hfix & Hfirst). exists m.
        split; [reflexivity|]. split; [lia|]. split; [exact Hfix|].
        intros j Hj. destruct (Nat.eq_dec j k) as [->|Hjk]; [exact Hne|].
        apply Hfirst. lia.
      * intros (m & -> & Hm & Hfix & Hfirst). exists m.
        split; [reflexivity|].
        assert (m <> k) by (intros ->; contradiction).
        split; [lia|]. split; [exact Hfix|].
        intros j Hj. apply Hfirst. lia.
Qed.

(** Some pair of equal consecutive polls has a first one. *)
Lemma first_fixed_point (n : nat) :
  settled D randint pg n ->
  exists m, (m <= n)%nat /\ settled D randint pg m
            /\ forall j, (j < m)%nat -> ~ settled D randint pg j.
Proof.
  induction n as [n IH] using lt_wf_ind. intros Hn.
  assert (Hdec : (exists j, (j < n)%nat /\ settled D randint pg j)
                 \/ forall j, (j < n)%nat -> ~ settled D randint pg j).
  { clear IH Hn. induction n as [|n IHn].
    - right. intros j Hj. lia.
    - destruct IHn as [(j & Hj & Hfix)|Hnone].
      + left. exists j. split; [lia | exact Hfix].
      + destruct (settled_dec n) as [Heq|Hne].
        * left. exists n. split; [lia | exact Heq].
        * right. intros j Hj. destruct (Nat.eq_dec j n) as [->|Hjn];
            [exact Hne | apply Hnone; lia]. }
  destruct Hdec as [(j & Hj & Hfix)|Hnone].
  - destruct (IH j Hj Hfix) as (m & Hm & Hmfix & Hfirst).
    exists m. split; [lia|]. split; [exact Hmfix | exact Hfirst].
  - exists n. split; [lia|]. split; [exact Hn | exact Hnone].
Qed.

End Scrolling.

Section ScrollingClaim.

Import HumanBehaviorSimulator.

(** C8.  [scroll_to_bottom] ends exactly at the first pair of consecutive
    polls that report the same height: it ends within some number of
    passes if and only if such a pair exists, and then after the pass that
    produced the second poll of the first such pair.  Between two polls it
    scrolls once, by an amount drawn from 300..800.  Nothing else bounds
    the loop: on a page whose height differs at every poll from the poll
    before, no number of passes ends it. *)
Theorem scroll_to_bottom_fixed_point :
  forall (page : Type) (D : driver page) (randint : random_source) (pg : page),
    (forall fuel r,
        scroll_to_bottom D randint fuel pg = Some r
        <->
        exists m, r = (page_after D randint (S m) pg, S m)
                  /\ (m < fuel)%nat
                  /\ settled D randint pg m
                  /\ forall j, (j < m)%nat -> ~ settled D randint pg j)
    /\ ((exists fuel r, scroll_to_bottom D randint fuel pg = Some r)
        <-> exists n, settled D randint pg n)
    /\ ((forall n, ~ settled D randint pg n) ->
        forall fuel, scroll_to_bottom D randint fuel pg = None)
    /\ (forall n,
          page_after D randint (S n) pg
          = sleep D (scroll_by D (nth n (increments randint (S n)) 0%Z)
                               (page_after D randint n pg)))
    /\ ((forall lo hi k, (lo <= hi)%Z -> (lo <= randint lo hi k <= hi)%Z) ->
        forall n, Forall (fun a => (300 <= a <= 800)%Z) (increments randint n)).
Proof.
  intros page D randint pg.
  assert (Hloop : forall fuel r,
    scroll_to_bottom D randint fuel pg = Some r
    <->
    exists m, r = (page_after D randint (S m) pg, S m)
              /\ (m < fuel)%nat
              /\ settled D randint pg m
              /\ forall j, (j < m)%nat -> ~ settled D randint pg j).
  { intros fuel r. unfold scroll_to_bottom.
    pose proof (scroll_loop_first_fixed_point D randint pg fuel 0 r) as H.
    cbn [HumanBehaviorSimulator.page_after] in H.
    change (HumanBehaviorSimulator.poll D randint pg 0)
      with (scroll_height D pg) in H.
    rewrite H. split.
    - intros (m & -> & Hm & Hfix & Hfirst). exists m.
      split; [reflexivity|]. split; [lia|]. split; [exact Hfix|].
      intros j Hj. apply Hfirst. lia.
    - intros (m & -> & Hm & Hfix & Hfirst). exists m.
      split; [reflexivity|]. split; [lia|]. split; [exact Hfix|].
      intros j Hj. apply Hfirst. lia. }
  split; [exact Hloop|]. split; [|split; [|split]].
  - split.
    + intros (fuel & r & H). apply Hloop in H as (m & _ & _ & Hfix & _).
      now exists m.
    + intros (n & Hn).
      destruct (first_fixed_point D randint pg n Hn) as (m & _ & Hfix & Hfirst).
      exists (S m), (page_after D randint (S m) pg, S m).
      apply Hloop. exists m.
      split; [reflexivity|]. split; [lia|]. split; [exact Hfix | exact Hfirst].
  - intros Hgrow fuel.
    destruct (scroll_to_bottom D randint fuel pg) as [r|] eqn:H; trivial.
    apply Hloop in H as (m & _ & _ & Hfix & _). now destruct (Hgrow m).
  - intros n. cbn [HumanBehaviorSimulator.page_after]. unfold scroll_once.
    do 2 f_equal. unfold increments.
    rewrite seq_S, map_app, app_nth2; rewrite length_map, length_seq; [|lia].
    now rewrite Nat.sub_diag.
  - intros Hrange n. unfold increments. apply Forall_forall.
    intros a Ha. apply in_map_iff in Ha as (k & <- & _).
    apply Hrange. lia.
Qed.

(** A page that stops growing: its height goes 1000, 2000, 3000, 3000. *)
Lemma scroll_to_bottom_fixed_point_witness :
  HumanBehaviorSimulator.scroll_to_bottom
    (HumanBehaviorSimulator.mkDriver nat
       (fun p => Z.of_nat (Nat.min p 2) * 1000 + 1000)%Z
       (fun _ p => p) S)
    (fun lo _ _ => lo) 5 0%nat
  = Some (3%nat, 3%nat).
Proof.
  apply (proj1 (scroll_to_bottom_fixed_point nat
                  (HumanBehaviorSimulator.mkDriver nat
                     (fun p => Z.of_nat (Nat.min p 2) * 1000 + 1000)%Z
                     (fun _ p => p) S)
                  (fun lo _ _ => lo) 0%nat) 5%nat (3%nat, 3%nat)).
  exists 2%nat. split; [reflexivity|]. split; [lia|]. split; [reflexivity|].
  intros j Hj.
  assert (Hc : j = 0%nat \/ j = 1%nat) by lia.
  destruct Hc as [-> | ->]; vm_compute; discriminate.
Defined.

End ScrollingClaim.

(* ================================================================== *)
(** ** The raw output file *)

Section RawOutput.

Import StealthScraper AIEnrichmentEngine RawFile.

Lemma loaded_products_raw (metadata : value) (products : list dict) :
  loaded_products
    (VDict [("metadata", metadata); ("products", VList (map VDict products))])
  = Ok products.
Proof.
  unfold loaded_products. cbn [dict_get String.eqb Ascii.eqb Bool.eqb].
  induction products as [|p ps IH]; simpl; trivial.
  now rewrite IH.
Qed.

Import Json.

Lemma write_list (l : list value) :
  write (VList l) = TOpenList :: write_items true l.
Proof.
  cbn [write]. apply f_equal. generalize true.
  induction l as [|x r IH]; intros first; [reflexivity|].
  cbn [write_items]. now rewrite (IH false).
Qed.

Lemma write_dict (d : list (string * value)) :
  write (VDict d) = TOpenDict :: write_members true d.
Proof.
  cbn [write]. apply f_equal. generalize true.
  induction d as [|[k x] r IH]; intros first; [reflexivity|].
  cbn [write_members]. now rewrite (IH false).
Qed.

Lemma write_length_pos (v : value) : (1 <= List.length (write v))%nat.
Proof.
  destruct v as [ |[]| | | |l|d]; simpl; lia.
Qed.

Lemma write_items_length_pos (first : bool) (l : list value) :
  (1 <= List.length (write_items first l))%nat.
Proof.
  revert first; induction l as [|x r IH]; intros first; simpl; [lia|].
  rewrite !length_app. pose proof (IH false). lia.
Qed.

Lemma write_members_length_pos (first : bool) (d : list (string * value)) :
  (1 <= List.length (write_members first d))%nat.
Proof.
  revert first; induction d as [|[k x] r IH]; intros first; simpl; [lia|].
  rewrite !length_app. simpl. rewrite length_app. pose proof (IH false). lia.
Qed.

(** With fuel for every token written, the reader gives back the value, the
    items and the members, and leaves what follows them. *)
Lemma read_write (fuel : nat) :
  (forall v rest,
      (List.length (write v) <= fuel)%nat ->
      read fuel (write v ++ rest)%list = Some (v, rest))
  /\ (forall l first rest,
        (List.length (write_items first l) <= fuel)%nat ->
        read_items fuel first (write_items first l ++ rest)%list
        = Some (l, rest))
  /\ (forall d first rest,
        (List.length (write_members first d) <= fuel)%nat ->
        read_members fuel first (write_members first d ++ rest)%list
        = Some (d, rest)).
Proof.
  induction fuel as [|n (IHv & IHl & IHd)].
  - split; [|split].
    + intros v rest H. pose proof (write_length_pos v). lia.
    + intros [|x r] first rest H; simpl in H; [lia|].
      rewrite !length_app in H. pose proof (write_length_pos x). lia.
    + intros [|[k x] r] first rest H; simpl in H; [lia|].
      rewrite !length_app in H. simpl in H. lia.
  - split; [|split].
    + intros v rest H.
      destruct v as [ |[]| | | |l|d]; try reflexivity.
      * rewrite write_list in *. cbn [app read List.length] in *.
        rewrite (IHl l true rest) by lia. reflexivity.
      * rewrite write_dict in *. cbn [app read List.length] in *.
        rewrite (IHd d true rest) by lia. reflexivity.
    + intros [|x r] first rest H; [reflexivity|].
      cbn [write_items] in *. rewrite !length_app in H.
      pose proof (write_length_pos x) as Hx.
      assert (Hread : read n (write x ++ write_items false r ++ rest)%list
                      = Some (x, (write_items false r ++ rest)%list)).
      { apply IHv. pose proof (write_items_length_pos false r) as Hr.
        clear - H Hr; lia. }
      assert (Hrest : read_items n false (write_items false r ++ rest)%list
                      = Some (r, rest)).
      { apply IHl. clear - H Hx; lia. }
      rewrite <- !app_assoc.
      destruct first; cbn [separator app read_items after_separator].
      * destruct (write x ++ write_items false r ++ rest)%list
          as [|t ts] eqn:Hts.
        { destruct n; discriminate. }
        assert (Ht : t <> TCloseList).
        { intros ->.
          destruct x as [ |[]| | | |l|d];
            rewrite ?write_list, ?write_dict in Hts; discriminate. }
        destruct t; try congruence; now rewrite Hread, Hrest.
      * now rewrite Hread, Hrest.
    + intros [|[k x] r] first rest H; [reflexivity|].
      cbn [write_members] in *. rewrite !length_app in H.
      cbn [List.length] in H. rewrite length_app in H.
      pose proof (write_length_pos x) as Hx.
      assert (Hread : read n (write x ++ write_members false r ++ rest)%list
                      = Some (x, (write_members false r ++ rest)%list)).
      { apply IHv. pose proof (write_members_length_pos false r) as Hr.
        clear - H Hr; lia. }
      assert (Hrest : read_members n false (write_members false r ++ rest)%list
                      = Some (r, rest)).
      { apply IHd. clear - H Hx; lia. }
      rewrite <- !app_assoc.
      destruct first; cbn [separator app read_members after_separator];
        rewrite <- app_assoc; now rewrite Hread, Hrest.
Qed.

(** The token library reads back the value it wrote. *)
Lemma token_codec_round_trip (v : value) :
  json_load token_codec (json_dump token_codec v) = Ok v.
Proof.
  cbn [json_load json_dump token_codec]. unfold load.
  pose proof (proj1 (read_write (List.length (write v))) v []
                (Nat.le_refl _)) as H.
  rewrite app_nil_r in H. now rewrite H.
Qed.

(** C9.  With a JSON library that reads back the value it wrote,
    [save_to_json] followed by the loading step of [enrich_from_file] gives
    back the product list it was given, field by field; the token library
    is such a library. *)
Theorem raw_output_round_trip :
  (forall (text : Type) (C : json_codec text),
      (forall v, json_load C (json_dump C v) = Ok v) ->
      forall (E : externals) (self : scraper) (products : list dict) (w : world),
        exists content w',
          save_to_json C E self products w = (Ok content, w')
          /\ load_products C content = Ok products)
  /\ (forall (E : externals) (self : scraper) (products : list dict) (w : world),
        exists content w',
          save_to_json token_codec E self products w = (Ok content, w')
          /\ load_products token_codec content = Ok products).
Proof.
  assert (Hgen : forall (text : Type) (C : json_codec text),
    (forall v, json_load C (json_dump C v) = Ok v) ->
    forall (E : externals) (self : scraper) (products : list dict) (w : world),
      exists content w',
        save_to_json C E self products w = (Ok content, w')
        /\ load_products C content = Ok products).
  { intros text C Hcodec E self products w.
    unfold save_to_json, raw_output, Py.bind, datetime_now, ret.
    eexists. eexists. split; [reflexivity|].
    unfold load_products. rewrite Hcodec.
    apply loaded_products_raw. }
  split; [exact Hgen|].
  apply Hgen. exact token_codec_round_trip.
Qed.

Lemma raw_output_round_trip_witness :
  exists content w',
    RawFile.save_to_json Json.token_codec
      (mkExternals Text.of_nat (fun _ _ => Raise ProviderError)
         (fun _ => Raise JSONDecodeError) (fun _ _ _ _ => "prompt")
         Unicode.sample)
      (StealthScraper.mkScraper "books_toscrape" ScrapingConfig.books_toscrape)
      [Spec.priced_product "books_toscrape_1" "A Light in the Attic" 51.77
         (VFloat 3)]
      (mkWorld 0 [])
    = (Ok content, w')
    /\ RawFile.load_products Json.token_codec content
       = Ok [Spec.priced_product "books_toscrape_1" "A Light in the Attic"
               51.77 (VFloat 3)].
Proof.
  apply (proj1 raw_output_round_trip (list Json.token) Json.token_codec).
  exact token_codec_round_trip.
Defined.

End RawOutput.

(* ================================================================== *)
(** * Further properties of the code *)

(** ** Dictionaries *)

Section Dictionaries.

Lemma dict_get_setitem_same (k : string) (v : value) (d : dict) :
  dict_get k (setitem k v d) = Some v.
Proof.
  induction d as [|[k0 v0] d IH]; simpl.
  - now rewrite String.eqb_refl.
  - destruct (String.eqb k k0) eqn:Hk; simpl.
    + now rewrite String.eqb_refl.
    + now rewrite Hk.
Qed.

Lemma dict_get_setitem_other (k k' : string) (v : value) (d : dict) :
  String.eqb k' k = false ->
  dict_get k' (setitem k v d) = dict_get k' d.
Proof.
  intros Hne. induction d as [|[k0 v0] d IH]; simpl.
  - now rewrite Hne.
  - destruct (String.eqb k k0) eqn:Hk; simpl.
    + apply String.eqb_eq in Hk. subst k0. now rewrite Hne.
    + now rewrite IH.
Qed.

End Dictionaries.

(** ** What enrichment keeps *)

Section EnrichmentKeeps.

Import AIEnrichmentEngine Spec Observed.

Lemma enrichment_of_copy (p e : dict) : enrichment_of p e -> enriched_copy p e.
Proof.
  intros (c & r & t & ->). split.
  - intros k Hk. unfold enrichment_key in Hk.
    apply orb_false_iff in Hk as [Hk Ht].
    apply orb_false_iff in Hk as [Hc Hr].
    now rewrite !dict_get_setitem_other.
  - exists c, r, t. split; [|split].
    + rewrite !dict_get_setitem_other by reflexivity.
      apply dict_get_setitem_same.
    + rewrite dict_get_setitem_other by reflexivity.
      apply dict_get_setitem_same.
    + apply dict_get_setitem_same.
Qed.

Lemma Forall2_weaken {A B} (R S : A -> B -> Prop) (l : list A) (l' : list B) :
  (forall a b, R a b -> S a b) -> Forall2 R l l' -> Forall2 S l l'.
Proof. intros H; induction 1; constructor; auto. Qed.

(** X1.  [categorize_products] neither drops nor doubles a product: when
    it returns, the output has as many products as the input, and the copy
    made of each priced product agrees with the original on every key but
    [ai_category], [ai_reasoning] and [enriched_at], which it carries. *)
Theorem categorize_products_keeps_every_field :
  forall (E : externals) (products out : list dict) (w w' : world),
    categorize_products E products w = (Ok out, w') ->
    List.length out = List.length products
    /\ exists enriched,
         out = (enriched ++ filter unpriced products)%list
         /\ Forall2 enriched_copy (filter is_priced products) enriched.
Proof.
  intros E products out w w' H.
  assert (Hex : exists enriched,
    out = (enriched ++ filter unpriced products)%list
    /\ Forall2 enrichment_of (filter is_priced products) enriched).
  { unfold categorize_products in H.
    destruct (filter is_priced products) as [|p valid] eqn:Hvalid.
    - apply ret_ok in H as [<- _]. exists []. simpl.
      split; [|constructor]. symmetry. now apply filter_none_unpriced.
    - apply bind_ok in H as (stats & w1 & _ & H).
      apply bind_ok in H as (enriched & w2 & He & H).
      apply ret_ok in H as [<- _].
      apply enrich_batches_enrichment in He as (enr & -> & Henr).
      rewrite concat_batches in Henr.
      exists enr. split; [reflexivity | exact Henr]. }
  destruct Hex as (enriched & -> & Henr). split.
  - rewrite length_app, <- (Forall2_length Henr).
    unfold unpriced. apply filter_length.
  - exists enriched. split; [reflexivity|].
    revert Henr. apply Forall2_weaken. exact enrichment_of_copy.
Qed.

Lemma categorize_products_keeps_every_field_witness :
  List.length
    [ [("id", VStr "a"); ("name", VStr "x"); ("price", VFloat 10);
       ("rating", VNone); ("ai_category", VStr "Mid Range");
       ("ai_reasoning", VStr "Rule-based categorization (AI unavailable)");
       ("enriched_at", VStr "0")];
      [("id", VStr "u"); ("price", VNone)] ]
  = List.length [ [("id", VStr "u"); ("price", VNone)];
                  Spec.priced_product "a" "x" 10 VNone ].
Proof.
  refine (proj1 (categorize_products_keeps_every_field
                   (Spec.failing_provider Text.of_nat ProviderError
                      (fun _ => Raise JSONDecodeError)
                      (fun _ _ _ _ => "prompt")
         Unicode.sample)
                   [ [("id", VStr "u"); ("price", VNone)];
                     Spec.priced_product "a" "x" 10 VNone ]
                   _ (mkWorld 0 []) (mkWorld 1 ["prompt"]) _)).
  vm_compute. reflexivity.
Defined.

End EnrichmentKeeps.

(** ** Provider calls *)

Section ProviderCalls.

Import AIEnrichmentEngine Spec Observed.

Lemma quiet_ret {A} (a : A) : quiet (ret a).
Proof. intros w r w' H. unfold ret in H. now injection H as _ <-. Qed.

Lemma quiet_raise {A} (e : exn) : quiet (@Py.raise A e).
Proof. intros w r w' H. unfold Py.raise in H. now injection H as _ <-. Qed.

Lemma quiet_lift {A} (x : result A) : quiet (lift x).
Proof. intros w r w' H. unfold lift in H. now injection H as _ <-. Qed.

Lemma quiet_bind {A B} (m : M A) (k : A -> M B) :
  quiet m -> (forall a, quiet (k a)) -> quiet (Py.bind m k).
Proof.
  intros Hm Hk w r w' H. unfold Py.bind in H.
  destruct (m w) as [[a|e] w1] eqn:Hmw.
  - rewrite (Hk a _ _ _ H). exact (Hm _ _ _ Hmw).
  - injection H as _ <-. exact (Hm _ _ _ Hmw).
Qed.

Lemma quiet_try {A} (body : M A) (handler : exn -> M A) :
  quiet body -> (forall e, quiet (handler e)) -> quiet (try_except body handler).
Proof.
  intros Hb Hh w r w' H. unfold try_except in H.
  destruct (body w) as [[a|e] w1] eqn:Hbw.
  - injection H as _ <-. exact (Hb _ _ _ Hbw).
  - rewrite (Hh e _ _ _ H). exact (Hb _ _ _ Hbw).
Qed.

Lemma quiet_mapM {A B} (f : A -> M B) (l : list A) :
  (forall x, quiet (f x)) -> quiet (mapM f l).
Proof.
  intros Hf. induction l as [|x l IH]; simpl.
  - apply quiet_ret.
  - apply quiet_bind; [apply Hf|]. intros y.
    apply quiet_bind; [exact IH|]. intros ys. apply quiet_ret.
Qed.

Lemma quiet_datetime_now (E : externals) : quiet (datetime_now E).
Proof. intros w r w' H. unfold datetime_now in H. now injection H as _ <-. Qed.

Lemma quiet_apply_fallback (E : externals) (stats : price_stats) (p : dict) :
  quiet (_apply_fallback E stats p).
Proof.
  unfold _apply_fallback.
  apply quiet_bind; [apply quiet_lift|]. intros c.
  apply quiet_bind; [apply quiet_datetime_now|]. intros t. apply quiet_ret.
Qed.

Lemma quiet_enrich_one (E : externals) (stats : price_stats)
    (cats : list (value * value)) (p : dict) :
  quiet (enrich_one E stats cats p).
Proof.
  unfold enrich_one.
  apply quiet_bind; [apply quiet_lift|]. intros id.
  apply quiet_bind; [apply quiet_lift|]. intros found.
  apply quiet_bind.
  - destruct found as [c|].
    + apply quiet_bind; [apply quiet_lift|]. intros cat.
      apply quiet_bind; [apply quiet_lift|]. intros r. apply quiet_ret.
    + apply quiet_bind; [apply quiet_lift|]. intros cat. apply quiet_ret.
  - intros copy.
    apply quiet_bind; [apply quiet_datetime_now|]. intros t. apply quiet_ret.
Qed.

Lemma quiet_compute_stats (valid : list dict) : quiet (compute_stats valid).
Proof.
  unfold compute_stats.
  apply quiet_bind; [apply quiet_lift|]. intros prices.
  apply quiet_bind; [apply quiet_lift|]. intros nums.
  destruct nums as [|x r]; [apply quiet_raise|].
  apply quiet_bind; [apply quiet_lift|]. intros total.
  apply quiet_bind; [apply quiet_lift|]. intros avg. apply quiet_ret.
Qed.

(** A batch whose products have the four summary fields costs one provider
    call, whatever comes of it; a batch that lacks one costs none. *)
Lemma enrich_batch_calls (E : externals) (stats : price_stats)
    (batch : list dict) (w w' : world) (r : result (list dict)) :
  _enrich_batch E batch stats w = (r, w') ->
  match mapR summary_of batch with
  | Ok summary =>
      llm_calls w'
      = (llm_calls w
           ++ [render_prompt E summary (stat_min stats) (stat_max stats)
                             (stat_avg stats)])%list
  | Raise e => r = Raise e /\ w' = w
  end.
Proof.
  unfold _enrich_batch. unfold Py.bind at 1. unfold lift at 1.
  destruct (mapR summary_of batch) as [summary|e].
  - set (prompt := render_prompt E summary (stat_min stats) (stat_max stats)
                                 (stat_avg stats)).
    unfold try_except. unfold Py.bind at 1. unfold _call_llm at 1.
    destruct (complete E (List.length (llm_calls w)) prompt) as [text|e].
    + match goal with
      | |- context [Py.bind ?m ?k] => set (rest := Py.bind m k)
      end.
      assert (Hq : quiet rest).
      { apply quiet_bind; [apply quiet_lift|]. intros json.
        apply quiet_bind; [apply quiet_lift|]. intros listed.
        apply quiet_bind; [apply quiet_lift|]. intros items.
        apply quiet_bind; [apply quiet_lift|]. intros cats.
        apply quiet_mapM. intros x. apply quiet_enrich_one. }
      destruct (rest (mkWorld (ticks w) (llm_calls w ++ [prompt])%list))
        as [[out|e] w1] eqn:Hrest; intros H.
      * injection H as _ <-. exact (Hq _ _ _ Hrest).
      * apply (quiet_mapM _ _ (quiet_apply_fallback E stats)) in H.
        rewrite H. exact (Hq _ _ _ Hrest).
    + intros H.
      apply (quiet_mapM _ _ (quiet_apply_fallback E stats)) in H.
      exact H.
  - intros H. injection H as <- <-. now split.
Qed.

Lemma enrich_batches_calls (E : externals) (stats : price_stats)
    (bs : list (list dict)) :
  forall (acc out : list dict) (w w' : world),
    enrich_batches E stats bs acc w = (Ok out, w') ->
    exists prompts,
      llm_calls w' = (llm_calls w ++ prompts)%list
      /\ List.length prompts = List.length bs.
Proof.
  induction bs as [|b bs IH]; simpl; intros acc out w w' H.
  - apply ret_ok in H as [_ ->]. exists []. now rewrite app_nil_r.
  - apply bind_ok in H as (eb & w1 & Hb & H).
    apply enrich_batch_calls in Hb.
    destruct (mapR summary_of b) as [summary|e];
      [|destruct Hb as [Hb _]; discriminate].
    destruct (IH _ _ _ _ H) as (prompts & Hcalls & Hlen).
    eexists (_ :: prompts). split.
    + rewrite Hcalls, Hb, <- app_assoc. reflexivity.
    + simpl. now rewrite Hlen.
Qed.

Lemma batches_count {A} (l : list A) :
  List.length (batches l) = ((List.length l + 19) / 20)%nat.
Proof.
  unfold batches, range_step, batch_size.
  rewrite !length_map, length_seq. f_equal. lia.
Qed.

(** X2.  [categorize_products] calls the provider once for every batch of
    twenty priced products and never a second time for the same batch:
    when it returns, the log of provider calls has grown by the batches'
    prompts, [(n + 19) / 20] of them for [n] priced products, whether the
    calls succeeded or not. *)
Theorem one_provider_call_per_batch :
  forall (E : externals) (products out : list dict) (w w' : world),
    categorize_products E products w = (Ok out, w') ->
    exists prompts,
      llm_calls w' = (llm_calls w ++ prompts)%list
      /\ List.length prompts
         = ((List.length (filter is_priced products) + 19) / 20)%nat.
Proof.
  intros E products out w w' H. unfold categorize_products in H.
  destruct (filter is_priced products) as [|p valid] eqn:Hvalid.
  - apply ret_ok in H as [_ ->]. exists []. now rewrite app_nil_r.
  - apply bind_ok in H as (stats & w1 & Hs & H).
    apply bind_ok in H as (enriched & w2 & He & H).
    apply ret_ok in H as [_ ->].
    apply quiet_compute_stats in Hs.
    apply enrich_batches_calls in He as (prompts & Hcalls & Hlen).
    exists prompts. rewrite Hcalls, Hs. split; [reflexivity|].
    now rewrite Hlen, batches_count.
Qed.

Lemma one_provider_call_per_batch_witness :
  exists prompts,
    ["prompt"] = ([] ++ prompts)%list
    /\ List.length prompts
       = ((List.length
             (filter AIEnrichmentEngine.is_priced
                [ [("id", VStr "u"); ("price", VNone)];
                  Spec.priced_product "a" "x" 10 VNone ]) + 19) / 20)%nat.
Proof.
  refine (one_provider_call_per_batch
            (Spec.failing_provider Text.of_nat ProviderError
               (fun _ => Raise JSONDecodeError) (fun _ _ _ _ => "prompt")
         Unicode.sample)
            [ [("id", VStr "u"); ("price", VNone)];
              Spec.priced_product "a" "x" 10 VNone ]
            _ (mkWorld 0 []) (mkWorld 1 ["prompt"]) _).
  vm_compute. reflexivity.
Defined.

End ProviderCalls.

(** ** What a batch is given: the rule or the provider's answer *)

Section BatchOutcome.

Import AIEnrichmentEngine Spec Observed.

Lemma numeric_price_value (p : dict) :
  numeric_price p -> exists price, Num.as_num (price_value p) = Ok price.
Proof.
  intros (v & n & Hv & Hn). exists n. unfold price_value. now rewrite Hv.
Qed.

Lemma fallback_categorization_label (p : dict) (stats : price_stats)
    (price : Num.num) :
  Num.as_num (price_value p) = Ok price ->
  _fallback_categorization p stats
  = Ok (category_label (tier price (stat_avg stats))).
Proof.
  intros Hp. unfold _fallback_categorization.
  change (match dict_get "price" p with
          | Some v => v
          | None => VInt 0
          end) with (price_value p).
  rewrite Hp, <- fallback_rule_tier.
  destruct (Num.num_ltb price (Num.NFloat (stat_avg stats * 0.7)));
    [reflexivity|].
  destruct (Num.num_ltb price (Num.NFloat (stat_avg stats * 1.3)));
    reflexivity.
Qed.

(** The fallback of one product: the rule's category, the fixed reasoning
    and the next reading of the clock. *)
Lemma apply_fallback_exact (E : externals) (stats : price_stats) (p : dict)
    (w : world) :
  numeric_price p ->
  exists e,
    _apply_fallback E stats p w
    = (Ok e, mkWorld (S (ticks w)) (llm_calls w))
    /\ rule_based (stat_avg stats) rule_based_reasoning p e
    /\ dict_get "enriched_at" e = Some (VStr (now_iso E (ticks w))).
Proof.
  intros Hp. destruct (numeric_price_value p Hp) as [price Hprice].
  unfold _apply_fallback, Py.bind, lift, datetime_now, ret.
  rewrite (fallback_categorization_label p stats price Hprice).
  eexists. split; [reflexivity|]. split.
  - exists price. split; [exact Hprice|]. split.
    + rewrite !dict_get_setitem_other by reflexivity.
      apply dict_get_setitem_same.
    + rewrite dict_get_setitem_other by reflexivity.
      apply dict_get_setitem_same.
  - apply dict_get_setitem_same.
Qed.

Lemma fallback_batch_exact (E : externals) (stats : price_stats)
    (batch : list dict) :
  Forall numeric_price batch ->
  forall w,
    exists out,
      mapM (_apply_fallback E stats) batch w
      = (Ok out, mkWorld (ticks w + List.length batch) (llm_calls w))
      /\ Forall2 (rule_based (stat_avg stats) rule_based_reasoning) batch out
      /\ map (dict_get "enriched_at") out
         = map (fun i => Some (VStr (now_iso E i)))
               (seq (ticks w) (List.length batch)).
Proof.
  induction 1 as [|p batch Hp _ IH]; intros w.
  - exists []. simpl. rewrite Nat.add_0_r. destruct w.
    split; [reflexivity|]. split; [constructor | reflexivity].
  - destruct (apply_fallback_exact E stats p w Hp) as (e & He & Hrule & Ht).
    destruct (IH (mkWorld (S (ticks w)) (llm_calls w)))
      as (out & Hout & Hrules & Hts).
    exists (e :: out). cbn [mapM]. unfold Py.bind, ret.
    rewrite He, Hout. cbn [ticks llm_calls List.length].
    replace (S (ticks w) + List.length batch)%nat
      with (ticks w + S (List.length batch))%nat by lia.
    split; [reflexivity|].
    split; [constructor; assumption|].
    cbn [map seq]. now rewrite Ht, Hts.
Qed.

(** When the body of the [try] raises, the batch is what the rule gives. *)
Lemma enrich_batch_handler (E : externals) (stats : price_stats)
    (batch : list dict) (summary : list dict) (w w1 : world) (e : exn)
    (body : M (list dict)) :
  mapR summary_of batch = Ok summary ->
  Forall numeric_price batch ->
  body w = (Raise e, w1) ->
  exists out,
    try_except body (fun _ => mapM (_apply_fallback E stats) batch) w
    = (Ok out, mkWorld (ticks w1 + List.length batch) (llm_calls w1))
    /\ Forall2 (rule_based (stat_avg stats) rule_based_reasoning) batch out
    /\ map (dict_get "enriched_at") out
       = map (fun i => Some (VStr (now_iso E i)))
             (seq (ticks w1) (List.length batch)).
Proof.
  intros _ Hnum Hbody. unfold try_except. rewrite Hbody.
  apply fallback_batch_exact. exact Hnum.
Qed.

(** X3.  When the provider call of a batch fails, or answers a text that
    is no JSON, every product of the batch is categorized by the price
    rule: its category is the rule's tier for its price, its reasoning is
    the fixed rule-based text, and the products are stamped with
    consecutive readings of the clock.  The failed call is not repeated. *)
Theorem failed_attempt_gives_rule_based_batch :
  forall (E : externals) (stats : price_stats) (batch : list dict) (w : world),
    Forall has_summary batch ->
    Forall numeric_price batch ->
    attempt_fails E (List.length (llm_calls w)) ->
    exists out w',
      _enrich_batch E batch stats w = (Ok out, w')
      /\ Forall2 (rule_based (stat_avg stats) rule_based_reasoning) batch out
      /\ map (dict_get "enriched_at") out
         = map (fun i => Some (VStr (now_iso E i)))
               (seq (ticks w) (List.length batch))
      /\ List.length (llm_calls w') = S (List.length (llm_calls w)).
Proof.
  intros E stats batch w Hsum Hnum Hfail.
  destruct (forall_mapR_ok _ _ Hsum) as [summary Hs].
  unfold _enrich_batch. unfold Py.bind at 1. unfold lift at 1. rewrite Hs.
  set (prompt := render_prompt E summary (stat_min stats) (stat_max stats)
                               (stat_avg stats)).
  match goal with
  | |- context [try_except ?b _] => set (body := b)
  end.
  assert (Hbody : exists e,
    body w = (Raise e, mkWorld (ticks w) (llm_calls w ++ [prompt])%list)).
  { subst body. unfold Py.bind at 1. unfold _call_llm at 1.
    specialize (Hfail prompt).
    destruct (complete E (List.length (llm_calls w)) prompt) as [text|e].
    - destruct Hfail as [e He]. exists e.
      unfold Py.bind at 1. unfold lift at 1. now rewrite He.
    - now exists e. }
  destruct Hbody as [e Hbody].
  destruct (enrich_batch_handler E stats batch summary w _ e body Hs Hnum Hbody)
    as (out & Hout & Hrules & Hts).
  exists out. eexists. split; [exact Hout|].
  split; [exact Hrules|]. split; [exact Hts|].
  cbn [llm_calls]. rewrite length_app. simpl. lia.
Qed.

Lemma failed_attempt_gives_rule_based_batch_witness :
  exists out w',
    AIEnrichmentEngine._enrich_batch
      (Spec.failing_provider Text.of_nat ProviderError
         (fun _ => Raise JSONDecodeError) (fun _ _ _ _ => "prompt")
         Unicode.sample)
      [Spec.priced_product "a" "x" 10 VNone;
       Spec.priced_product "b" "y" 30 VNone]
      (AIEnrichmentEngine.mkStats (Num.NFloat 10) (Num.NFloat 30) 20)
      (mkWorld 0 [])
    = (Ok out, w')
    /\ Forall2 (Observed.rule_based 20 Observed.rule_based_reasoning)
         [Spec.priced_product "a" "x" 10 VNone;
          Spec.priced_product "b" "y" 30 VNone] out
    /\ map (dict_get "enriched_at") out
       = map (fun i => Some (VStr (Text.of_nat i))) (seq 0 2)
    /\ List.length (llm_calls w') = 1%nat.
Proof.
  apply (failed_attempt_gives_rule_based_batch
           (Spec.failing_provider Text.of_nat ProviderError
              (fun _ => Raise JSONDecodeError) (fun _ _ _ _ => "prompt")
         Unicode.sample)
           (AIEnrichmentEngine.mkStats (Num.NFloat 10) (Num.NFloat 30) 20)
           [Spec.priced_product "a" "x" 10 VNone;
            Spec.priced_product "b" "y" 30 VNone]
           (mkWorld 0 [])).
  - repeat constructor; eexists; reflexivity.
  - repeat constructor; eexists; eexists; split; reflexivity.
  - intros prompt. exact I.
Defined.

End BatchOutcome.

(** ** The provider's answer, applied *)

Section AnsweredBatch.

Import AIEnrichmentEngine Spec Observed.

Lemma enrich_one_exact (E : externals) (stats : price_stats)
    (cats : list (value * value)) (p : dict) (w : world) :
  reconcilable cats p ->
  exists e,
    enrich_one E stats cats p w = (Ok e, mkWorld (S (ticks w)) (llm_calls w))
    /\ reconciled (stat_avg stats) cats p e
    /\ dict_get "enriched_at" e = Some (VStr (now_iso E (ticks w))).
Proof.
  intros (id & Hid & Hhash & Hentry).
  assert (Hget : getitem "id" p = Ok id)
    by (unfold getitem; now rewrite Hid).
  assert (Hcg : categorization_get id cats = Ok (lookup_last id cats))
    by (unfold categorization_get; now rewrite Hhash).
  unfold reconciled, entry_for. rewrite Hid.
  unfold enrich_one, Py.bind, lift, datetime_now, ret.
  rewrite Hget. cbv beta iota. rewrite Hcg. cbv beta iota.
  destruct (lookup_last id cats) as [c|].
  - destruct Hentry as (cat & r & Hcat & Hr).
    rewrite Hcat, Hr.
    eexists. split; [reflexivity|]. split.
    + exists cat, r. split; [reflexivity|]. split; [reflexivity|]. split.
      * rewrite !dict_get_setitem_other by reflexivity.
        apply dict_get_setitem_same.
      * rewrite dict_get_setitem_other by reflexivity.
        apply dict_get_setitem_same.
    + apply dict_get_setitem_same.
  - destruct (numeric_price_value p Hentry) as [price Hprice].
    rewrite (fallback_categorization_label p stats price Hprice).
    eexists. split; [reflexivity|]. split.
    + exists price. split; [exact Hprice|]. split.
      * rewrite !dict_get_setitem_other by reflexivity.
        apply dict_get_setitem_same.
      * rewrite dict_get_setitem_other by reflexivity.
        apply dict_get_setitem_same.
    + apply dict_get_setitem_same.
Qed.

Lemma enrich_all_exact (E : externals) (stats : price_stats)
    (cats : list (value * value)) (batch : list dict) :
  Forall (reconcilable cats) batch ->
  forall w,
    exists out,
      mapM (enrich_one E stats cats) batch w
      = (Ok out, mkWorld (ticks w + List.length batch) (llm_calls w))
      /\ Forall2 (reconciled (stat_avg stats) cats) batch out
      /\ map (dict_get "enriched_at") out
         = map (fun i => Some (VStr (now_iso E i)))
               (seq (ticks w) (List.length batch)).
Proof.
  induction 1 as [|p batch Hp _ IH]; intros w.
  - exists []. simpl. rewrite Nat.add_0_r. destruct w.
    split; [reflexivity|]. split; [constructor | reflexivity].
  - destruct (enrich_one_exact E stats cats p w Hp) as (e & He & Hrec & Ht).
    destruct (IH (mkWorld (S (ticks w)) (llm_calls w)))
      as (out & Hout & Hrecs & Hts).
    exists (e :: out). cbn [mapM]. unfold Py.bind, ret.
    rewrite He, Hout. cbn [ticks llm_calls List.length].
    replace (S (ticks w) + List.length batch)%nat
      with (ticks w + S (List.length batch))%nat by lia.
    split; [reflexivity|].
    split; [constructor; assumption|].
    cbn [map seq]. now rewrite Ht, Hts.
Qed.

(** The body of the [try] once the answer is parsed. *)
Lemma answered_body (E : externals) (stats : price_stats)
    (batch summary : list dict) (cats : list (value * value)) (w : world) :
  mapR summary_of batch = Ok summary ->
  answered E (List.length (llm_calls w)) cats ->
  exists prompt,
    _enrich_batch E batch stats w
    = try_except
        (mapM (enrich_one E stats cats) batch)
        (fun _ => mapM (_apply_fallback E stats) batch)
        (mkWorld (ticks w) (llm_calls w ++ [prompt])%list).
Proof.
  intros Hs (text & response & listed & items & Hc & Hj & Hl & Hi & Hm).
  unfold _enrich_batch. unfold Py.bind at 1. unfold lift at 1. rewrite Hs.
  eexists. unfold try_except, Py.bind, _call_llm, lift.
  rewrite Hc, Hj, Hl, Hi, Hm. reflexivity.
Qed.

(** X4.  When the provider's answer parses and can be applied to every
    product of the batch, each product gets the category and reasoning of
    the last entry that carries its id, copied as they are, and a product
    the answer does not mention gets the price rule's tier with the
    reasoning "Fallback categorization based on price"; the products are
    stamped with consecutive readings of the clock. *)
Theorem answered_batch_is_reconciled :
  forall (E : externals) (stats : price_stats) (batch : list dict)
         (cats : list (value * value)) (w : world),
    Forall has_summary batch ->
    answered E (List.length (llm_calls w)) cats ->
    Forall (reconcilable cats) batch ->
    exists out w',
      _enrich_batch E batch stats w = (Ok out, w')
      /\ Forall2 (reconciled (stat_avg stats) cats) batch out
      /\ map (dict_get "enriched_at") out
         = map (fun i => Some (VStr (now_iso E i)))
               (seq (ticks w) (List.length batch)).
Proof.
  intros E stats batch cats w Hsum Hans Hrec.
  destruct (forall_mapR_ok _ _ Hsum) as [summary Hs].
  destruct (answered_body E stats batch summary cats w Hs Hans)
    as [prompt ->].
  destruct (enrich_all_exact E stats cats batch Hrec
              (mkWorld (ticks w) (llm_calls w ++ [prompt])%list))
    as (out & Hout & Hrecs & Hts).
  exists out. eexists. unfold try_except. rewrite Hout.
  split; [reflexivity|]. split; [exact Hrecs | exact Hts].
Qed.

Lemma answered_batch_is_reconciled_witness :
  exists out w',
    AIEnrichmentEngine._enrich_batch
      (mkExternals Text.of_nat (fun _ _ => Ok "answer")
         (fun _ =>
            Ok (VDict
                  [("categorizations",
                    VList [VDict [("id", VStr "a");
                                  ("category", VStr "High End");
                                  ("reasoning", VStr "premium")]])]))
         (fun _ _ _ _ => "prompt")
         Unicode.sample)
      [Spec.priced_product "a" "x" 10 VNone;
       Spec.priced_product "b" "y" 30 VNone]
      (AIEnrichmentEngine.mkStats (Num.NFloat 10) (Num.NFloat 30) 20)
      (mkWorld 0 [])
    = (Ok out, w')
    /\ Forall2
         (Observed.reconciled 20
            [(VStr "a", VDict [("id", VStr "a");
                               ("category", VStr "High End");
                               ("reasoning", VStr "premium")])])
         [Spec.priced_product "a" "x" 10 VNone;
          Spec.priced_product "b" "y" 30 VNone] out
    /\ map (dict_get "enriched_at") out
       = map (fun i => Some (VStr (Text.of_nat i))) (seq 0 2).
Proof.
  apply (answered_batch_is_reconciled
           (mkExternals Text.of_nat (fun _ _ => Ok "answer")
              (fun _ =>
                 Ok (VDict
                       [("categorizations",
                         VList [VDict [("id", VStr "a");
                                       ("category", VStr "High End");
                                       ("reasoning", VStr "premium")]])]))
              (fun _ _ _ _ => "prompt")
         Unicode.sample)
           (AIEnrichmentEngine.mkStats (Num.NFloat 10) (Num.NFloat 30) 20)
           [Spec.priced_product "a" "x" 10 VNone;
            Spec.priced_product "b" "y" 30 VNone]
           [(VStr "a", VDict [("id", VStr "a");
                              ("category", VStr "High End");
                              ("reasoning", VStr "premium")])]
           (mkWorld 0 [])).
  - repeat constructor; eexists; reflexivity.
  - exists "answer". eexists. eexists. eexists.
    split; [reflexivity|]. split; [reflexivity|]. split; [reflexivity|].
    split; reflexivity.
  - constructor; [|constructor; [|constructor]].
    + exists (VStr "a"). split; [reflexivity|]. split; [reflexivity|].
      exists (VStr "High End"), (VStr "premium"). split; reflexivity.
    + exists (VStr "b"). split; [reflexivity|]. split; [reflexivity|].
      exists (VFloat 30), (Num.NFloat 30). split; reflexivity.
Defined.

Lemma mapM_raises {A B} (f : A -> M B) (l : list A) :
  Exists (fun x => forall w, exists e w', f x w = (Raise e, w')) l ->
  forall w, exists e w', mapM f l w = (Raise e, w').
Proof.
  induction 1 as [x l Hx|x l _ IH]; intros w; cbn [mapM]; unfold Py.bind.
  - destruct (Hx w) as (e & w' & ->). now exists e, w'.
  - destruct (f x w) as [[y|e] w1].
    + destruct (IH w1) as (e & w' & ->). now exists e, w'.
    + now exists e, w1.
Qed.

Lemma broken_entry_raises (E : externals) (stats : price_stats)
    (cats : list (value * value)) (p : dict) :
  broken_entry cats p ->
  forall w, exists e w', enrich_one E stats cats p w = (Raise e, w').
Proof.
  intros (id & c & e & Hid & Hhash & Hc & Hbroken) w.
  assert (Hget : getitem "id" p = Ok id)
    by (unfold getitem; now rewrite Hid).
  assert (Hcg : categorization_get id cats = Ok (Some c))
    by (unfold categorization_get; now rewrite Hhash, Hc).
  unfold enrich_one, Py.bind, lift.
  rewrite Hget. cbv beta iota. rewrite Hcg. cbv beta iota.
  destruct Hbroken as [Hcat|Hr].
  - rewrite Hcat. now exists e, w.
  - destruct (StealthScraper.subscript c "category") as [cat|e'].
    + rewrite Hr. now exists e, w.
    + now exists e', w.
Qed.

(** X5.  An incomplete entry that is applied to a product spoils the
    batch.  Take a batch whose products all carry the fields shown to the
    provider and a numeric price, and an answer of the provider that
    parses.  If for some product of the batch the entry the answer gives
    for it, which is the last entry that carries the id of the product,
    lacks the category or the reasoning, then every product of the batch,
    also those with a complete entry, is categorized by the price rule
    with the rule-based reasoning.  An incomplete entry that no product of
    the batch takes up, because no product has its id or because a later
    entry carries the same id, is not such an entry, and is not said to
    spoil anything. *)
Theorem incomplete_entry_spoils_batch :
  forall (E : externals) (stats : price_stats) (batch : list dict)
         (cats : list (value * value)) (w : world),
    Forall has_summary batch ->
    Forall numeric_price batch ->
    answered E (List.length (llm_calls w)) cats ->
    Exists (broken_entry cats) batch ->
    exists out w',
      _enrich_batch E batch stats w = (Ok out, w')
      /\ Forall2 (rule_based (stat_avg stats) rule_based_reasoning) batch out.
Proof.
  intros E stats batch cats w Hsum Hnum Hans Hbroken.
  destruct (forall_mapR_ok _ _ Hsum) as [summary Hs].
  destruct (answered_body E stats batch summary cats w Hs Hans)
    as [prompt ->].
  assert (Hraise : Exists (fun x => forall w, exists e w',
                     enrich_one E stats cats x w = (Raise e, w')) batch).
  { revert Hbroken. apply Exists_impl. intros p Hp.
    now apply broken_entry_raises. }
  destruct (mapM_raises _ _ Hraise
              (mkWorld (ticks w) (llm_calls w ++ [prompt])%list))
    as (e & w1 & Hbody).
  destruct (enrich_batch_handler E stats batch summary _ w1 e _ Hs Hnum Hbody)
    as (out & Hout & Hrules & _).
  exists out. eexists. split; [exact Hout | exact Hrules].
Qed.

Lemma incomplete_entry_spoils_batch_witness :
  exists out w',
    AIEnrichmentEngine._enrich_batch
      (mkExternals Text.of_nat (fun _ _ => Ok "answer")
         (fun _ =>
            Ok (VDict
                  [("categorizations",
                    VList [VDict [("id", VStr "a");
                                  ("category", VStr "High End");
                                  ("reasoning", VStr "premium")];
                           VDict [("id", VStr "b");
                                  ("category", VStr "Budget")]])]))
         (fun _ _ _ _ => "prompt")
         Unicode.sample)
      [Spec.priced_product "a" "x" 10 VNone;
       Spec.priced_product "b" "y" 30 VNone]
      (AIEnrichmentEngine.mkStats (Num.NFloat 10) (Num.NFloat 30) 20)
      (mkWorld 0 [])
    = (Ok out, w')
    /\ Forall2 (Observed.rule_based 20 Observed.rule_based_reasoning)
         [Spec.priced_product "a" "x" 10 VNone;
          Spec.priced_product "b" "y" 30 VNone] out.
Proof.
  apply (incomplete_entry_spoils_batch
           (mkExternals Text.of_nat (fun _ _ => Ok "answer")
              (fun _ =>
                 Ok (VDict
                       [("categorizations",
                         VList [VDict [("id", VStr "a");
                                       ("category", VStr "High End");
                                       ("reasoning", VStr "premium")];
                                VDict [("id", VStr "b");
                                       ("category", VStr "Budget")]])]))
              (fun _ _ _ _ => "prompt")
         Unicode.sample)
           (AIEnrichmentEngine.mkStats (Num.NFloat 10) (Num.NFloat 30) 20)
           [Spec.priced_product "a" "x" 10 VNone;
            Spec.priced_product "b" "y" 30 VNone]
           [(VStr "a", VDict [("id", VStr "a");
                              ("category", VStr "High End");
                              ("reasoning", VStr "premium")]);
            (VStr "b", VDict [("id", VStr "b");
                              ("category", VStr "Budget")])]
           (mkWorld 0 [])).
  - repeat constructor; eexists; reflexivity.
  - repeat constructor; eexists; eexists; split; reflexivity.
  - exists "answer". eexists. eexists. eexists.
    split; [reflexivity|]. split; [reflexivity|]. split; [reflexivity|].
    split; reflexivity.
  - apply Exists_cons_tl. apply Exists_cons_hd.
    exists (VStr "b"). eexists. exists KeyError.
    split; [reflexivity|]. split; [reflexivity|]. split; [reflexivity|].
    right. reflexivity.
Defined.

End AnsweredBatch.

(** ** The price rule keeps the order of prices *)

Section TierOrder.

Import AIEnrichmentEngine Spec Observed.

Ltac order_cases ex ey ez mx my mz :=
  change (Pos.compare_cont Eq mx my) with (Pos.compare mx my) in *;
  change (Pos.compare_cont Eq my mz) with (Pos.compare my mz) in *;
  change (Pos.compare_cont Eq mx mz) with (Pos.compare mx mz) in *;
  destruct (Z.compare_spec ex ey), (Z.compare_spec ey ez),
           (Z.compare_spec ex ez);
  try lia; try discriminate; try reflexivity;
  destruct (Pos.compare_spec mx my), (Pos.compare_spec my mz),
           (Pos.compare_spec mx mz);
  simpl in *; try lia; try discriminate; try reflexivity.

Lemma SFleb_ltb_trans (x y z : spec_float) :
  SFleb x y = true -> SFltb y z = true -> SFltb x z = true.
Proof.
  unfold SFleb, SFltb.
  destruct x as [sx|sx| |sx mx ex], y as [sy|sy| |sy my ey],
           z as [sz|sz| |sz mz ez]; simpl;
    try discriminate; try reflexivity;
    repeat match goal with s : bool |- _ => destruct s end;
    simpl; try discriminate; try reflexivity; intros H1 H2;
    order_cases ex ey ez mx my mz.
Qed.

Lemma float_leb_ltb_trans (p q a : float) :
  (p <=? q)%float = true ->
  Num.num_ltb (Num.NFloat q) (Num.NFloat a) = true ->
  Num.num_ltb (Num.NFloat p) (Num.NFloat a) = true.
Proof.
  rewrite leb_spec. unfold Num.num_ltb, Num.num_compare.
  apply SFleb_ltb_trans.
Qed.

Lemma category_label_rank (c : category) (b m : bool) :
  (if b then "Budget" else if m then "Mid Range" else "High End")
  = category_label c ->
  tier_rank c = if b then 0%nat else if m then 1%nat else 2%nat.
Proof. destruct c, b, m; simpl; intros H; congruence. Qed.

(** X6.  The price rule never gives a cheaper product a dearer tier: for
    two products with float prices [p <= q], judged against the same
    average, the tier of the first is at most the tier of the second, in
    the order Budget, Mid Range, High End. *)
Theorem fallback_tier_is_monotone :
  forall (stats : price_stats) (product1 product2 : dict) (p q : float),
    dict_get "price" product1 = Some (VFloat p) ->
    dict_get "price" product2 = Some (VFloat q) ->
    (p <=? q)%float = true ->
    exists c1 c2,
      _fallback_categorization product1 stats = Ok (category_label c1)
      /\ _fallback_categorization product2 stats = Ok (category_label c2)
      /\ (tier_rank c1 <= tier_rank c2)%nat.
Proof.
  intros stats product1 product2 p q H1 H2 Hle.
  exists (tier (Num.NFloat p) (stat_avg stats)),
         (tier (Num.NFloat q) (stat_avg stats)).
  split; [|split].
  - apply fallback_categorization_label. unfold price_value. now rewrite H1.
  - apply fallback_categorization_label. unfold price_value. now rewrite H2.
  - rewrite (category_label_rank _ _ _
               (fallback_rule_tier (Num.NFloat p) (stat_avg stats))).
    rewrite (category_label_rank _ _ _
               (fallback_rule_tier (Num.NFloat q) (stat_avg stats))).
    pose proof (float_leb_ltb_trans p q (stat_avg stats * 0.7) Hle) as Hb.
    pose proof (float_leb_ltb_trans p q (stat_avg stats * 1.3) Hle) as Hm.
    destruct (Num.num_ltb (Num.NFloat q) (Num.NFloat (stat_avg stats * 0.7))).
    + rewrite (Hb eq_refl). lia.
    + destruct (Num.num_ltb (Num.NFloat q) (Num.NFloat (stat_avg stats * 1.3))).
      * rewrite (Hm eq_refl).
        destruct (Num.num_ltb (Num.NFloat p)
                    (Num.NFloat (stat_avg stats * 0.7))); lia.
      * destruct (Num.num_ltb (Num.NFloat p)
                    (Num.NFloat (stat_avg stats * 0.7))); [lia|].
        destruct (Num.num_ltb (Num.NFloat p)
                    (Num.NFloat (stat_avg stats * 1.3))); lia.
Qed.

Lemma fallback_tier_is_monotone_witness :
  exists c1 c2,
    AIEnrichmentEngine._fallback_categorization
      (Spec.priced_product "a" "x" 13.5 VNone)
      (AIEnrichmentEngine.mkStats (Num.NFloat 10) (Num.NFloat 30) 20)
    = Ok (Spec.category_label c1)
    /\ AIEnrichmentEngine._fallback_categorization
         (Spec.priced_product "b" "y" 26 VNone)
         (AIEnrichmentEngine.mkStats (Num.NFloat 10) (Num.NFloat 30) 20)
       = Ok (Spec.category_label c2)
    /\ (Observed.tier_rank c1 <= Observed.tier_rank c2)%nat.
Proof.
  apply (fallback_tier_is_monotone
           (AIEnrichmentEngine.mkStats (Num.NFloat 10) (Num.NFloat 30) 20)
           (Spec.priced_product "a" "x" 13.5 VNone)
           (Spec.priced_product "b" "y" 26 VNone) 13.5 26);
    reflexivity.
Defined.

End TierOrder.

(** ** The category distribution *)

Section Distribution.

Import AIEnrichmentEngine EnrichedOutput Observed.

Lemma count_set_sum (cat : value) (n : Z) (categories : list (value * Z)) :
  total_count (count_set cat n categories)
  = (total_count categories - count_get cat categories + n)%Z.
Proof.
  unfold total_count.
  induction categories as [|[k m] r IH]; cbn [count_set count_get].
  - simpl. lia.
  - destruct (key_eqb cat k); cbn [fold_right snd]; [lia|].
    rewrite IH. lia.
Qed.

Lemma count_set_total (cat : value) (categories : list (value * Z)) :
  total_count (count_set cat (count_get cat categories + 1) categories)
  = (total_count categories + 1)%Z.
Proof. rewrite count_set_sum. lia. Qed.

Lemma key_eqb_string_right (a : value) (s : string) :
  key_eqb a (VStr s) = true -> a = VStr s.
Proof.
  destruct a as [ |b|z|f|x|l|d]; simpl; try discriminate.
  intros H. apply String.eqb_eq in H. now subst.
Qed.

Lemma key_eqb_string_left (s : string) (b : value) :
  key_eqb (VStr s) b = true -> b = VStr s.
Proof.
  destruct b as [ |b|z|f|x|l|d]; simpl; try discriminate.
  intros H. apply String.eqb_eq in H. now subst.
Qed.

Lemma count_get_set_string (s : string) (cat : value) (n : Z)
    (categories : list (value * Z)) :
  count_get (VStr s) (count_set cat n categories)
  = if key_eqb (VStr s) cat then n else count_get (VStr s) categories.
Proof.
  induction categories as [|[k m] r IH]; cbn [count_get count_set].
  - destruct (key_eqb (VStr s) cat); reflexivity.
  - destruct (key_eqb cat k) eqn:Hck; cbn [count_get count_set].
    + destruct (key_eqb (VStr s) k) eqn:Hsk.
      * apply key_eqb_string_left in Hsk. subst k.
        apply key_eqb_string_right in Hck. subst cat.
        simpl. now rewrite String.eqb_refl.
      * destruct (key_eqb (VStr s) cat) eqn:Hsc; trivial.
        apply key_eqb_string_left in Hsc. subst cat. congruence.
    + destruct (key_eqb (VStr s) k) eqn:Hsk; [|exact IH].
      destruct (key_eqb (VStr s) cat) eqn:Hsc; trivial.
      apply key_eqb_string_left in Hsc. subst cat. congruence.
Qed.

Lemma count_categories_spec (products : list dict) :
  forall categories,
    match count_categories categories products with
    | Ok dist =>
        total_count dist
        = (total_count categories + Z.of_nat (List.length products))%Z
        /\ (forall s,
              count_get (VStr s) dist
              = (count_get (VStr s) categories
                 + Z.of_nat
                     (List.length
                        (filter (fun p => key_eqb (VStr s) (category_of p))
                                products)))%Z)
        /\ Forall (fun p => hashable (category_of p) = true) products
    | Raise e =>
        e = TypeError
        /\ Exists (fun p => hashable (category_of p) = false) products
    end.
Proof.
  induction products as [|p rest IH]; intros categories.
  - simpl. split; [lia|]. split; [intros s; lia | constructor].
  - cbn [count_categories].
    destruct (hashable (category_of p)) eqn:Hh.
    + specialize (IH (count_set (category_of p)
                        (count_get (category_of p) categories + 1)
                        categories)).
      destruct (count_categories _ rest) as [dist|e].
      * destruct IH as (Htotal & Hcount & Hall). split; [|split].
        -- rewrite Htotal, count_set_total. cbn [List.length]. lia.
        -- intros s. rewrite Hcount, count_get_set_string. cbn [filter].
           destruct (key_eqb (VStr s) (category_of p)) eqn:Hs.
           ++ apply key_eqb_string_left in Hs. rewrite Hs.
              cbn [List.length]. lia.
           ++ lia.
        -- constructor; assumption.
      * destruct IH as [-> Hex]. split; [reflexivity|].
        now apply Exists_cons_tl.
    + split; [reflexivity|]. now apply Exists_cons_hd.
Qed.

(** X7.  The category distribution written beside the enriched products
    accounts for every product exactly once: the counts add up to the
    number of products, the count under a string is the number of products
    with that category ("Unknown" for a product without one), and the only
    way the counting fails is a category that cannot be a dictionary key,
    which raises TypeError. *)
Theorem category_distribution_counts_every_product :
  forall (products : list dict),
    match category_distribution products with
    | Ok dist =>
        total_count dist = Z.of_nat (List.length products)
        /\ (forall s,
              count_get (VStr s) dist
              = Z.of_nat
                  (List.length
                     (filter (fun p => key_eqb (VStr s) (category_of p))
                             products)))
        /\ Forall (fun p => hashable (category_of p) = true) products
    | Raise e =>
        e = TypeError
        /\ Exists (fun p => hashable (category_of p) = false) products
    end.
Proof.
  intros products. unfold category_distribution.
  pose proof (count_categories_spec products []) as H.
  destruct (count_categories [] products) as [dist|e]; [|exact H].
  destruct H as (Htotal & Hcount & Hall). split; [|split].
  - rewrite Htotal. simpl. lia.
  - intros s. rewrite Hcount. simpl. lia.
  - exact Hall.
Qed.

End Distribution.

(** ** Stripped text *)

Section Stripping.

Import Unicode DataExtractor Spec Scraped.

Local Open Scope text_scope.

Variable U : database.

Lemma all_space_append (a b : text) :
  Text.all_space U (a ++ b) = Text.all_space U a && Text.all_space U b.
Proof.
  induction a as [|c a IH]; simpl; trivial.
  rewrite IH. now rewrite andb_assoc.
Qed.

Lemma lstrip_spec (s : text) :
  exists a, s = a ++ Text.lstrip U s /\ Text.all_space U a = true
            /\ stops (Text.is_space U) (Text.lstrip U s).
Proof.
  induction s as [|c r IH].
  - exists Empty. simpl. auto.
  - simpl. destruct (Text.is_space U c) eqn:Hc.
    + destruct IH as (a & Ha & Hsp & Hst).
      exists (Char c a). simpl. rewrite Hc, Hsp. rewrite <- Ha. auto.
    + exists Empty. simpl. auto.
Qed.

Lemma rstrip_empty (s : text) :
  Text.rstrip U s = Empty <-> Text.all_space U s = true.
Proof.
  destruct s as [|c r]; simpl; [tauto|].
  destruct (Text.is_space U c && Text.all_space U r); split; congruence.
Qed.

Lemma rstrip_spec (s : text) :
  exists b, s = Text.rstrip U s ++ b /\ Text.all_space U b = true.
Proof.
  induction s as [|c r IH].
  - exists Empty. simpl. auto.
  - cbn [Text.rstrip].
    destruct (Text.all_space U (Char c r)) eqn:Hall.
    + exists (Char c r). auto.
    + destruct IH as (b & Hb & Hsp). exists b. simpl.
      rewrite <- Hb. auto.
Qed.

Lemma rstrip_last (s : text) :
  forall pre c,
    Text.rstrip U s = pre ++ Char c Empty -> Text.is_space U c = false.
Proof.
  induction s as [|c0 r IH]; intros pre c.
  - simpl. destruct pre; discriminate.
  - cbn [Text.rstrip].
    destruct (Text.all_space U (Char c0 r)) eqn:Hall.
    + destruct pre; discriminate.
    + destruct pre as [|c1 pre]; simpl; intros H; injection H as Hc Hr.
      * subst c0. apply rstrip_empty in Hr.
        simpl in Hall. rewrite Hr, andb_true_r in Hall. exact Hall.
      * exact (IH pre c Hr).
Qed.

Lemma rstrip_stops (s : text) :
  stops (Text.is_space U) s -> stops (Text.is_space U) (Text.rstrip U s).
Proof.
  destruct s as [|c r]; cbn [Text.rstrip]; trivial.
  destruct (Text.all_space U (Char c r)); simpl; trivial.
Qed.

(** [strip] keeps the core of a text: what is cut off on either side is
    white space, what is left neither begins nor ends with any, and nothing
    is left exactly of a text that is all white space. *)
Lemma strip_spec (t : text) :
  core_of U t (Text.strip U t) /\ trimmed U (Text.strip U t)
  /\ (Text.strip U t = Empty <-> Text.all_space U t = true).
Proof.
  unfold Text.strip.
  destruct (lstrip_spec t) as (a & Ha & Hsa & Hst).
  destruct (rstrip_spec (Text.lstrip U t)) as (b & Hb & Hsb).
  split; [|split].
  - exists a, b. split; [|auto]. rewrite <- Hb. exact Ha.
  - split; [now apply rstrip_stops | apply rstrip_last].
  - rewrite rstrip_empty.
    rewrite Ha at 2. rewrite all_space_append, Hsa. simpl. tauto.
Qed.

Lemma is_empty_spec (s : text) : is_empty s = true <-> s = Empty.
Proof. destruct s; simpl; split; congruence. Qed.

Lemma extract_text_filled (e : element) (selector : value) (default : text) :
  default <> Empty -> extract_text U e selector default <> Empty.
Proof.
  intros Hd. unfold extract_text.
  destruct selector as [ |b|z|f|sel|l|d]; trivial.
  destruct (e sel) as [ | |[t|]]; trivial.
  destruct (is_empty (Text.strip U t)) eqn:He; trivial.
  intros H. apply is_empty_spec in H. congruence.
Qed.

End Stripping.

Section StrippingClaim.

Import Unicode DataExtractor Spec Scraped.

(** X8.  Whatever the character database, [extract_text] answers either
    the core of the selected element's text (the text without the white
    space around it, which is then not empty and neither begins nor ends
    with white space), or the default; and it answers the default only
    when the selector is no string, the query or the reading raised,
    nothing matched, or the text was all white space.  White space is that
    of Unicode: an element that holds a no-break space and nothing else
    gives the default, and a word between two no-break spaces gives the
    word. *)
Theorem extract_text_core_or_default :
  (forall (U : database) (e : element) (selector : value) (default : text),
      (exists sel t,
          selector = VStr sel /\ e sel = Match (InnerText t)
          /\ Text.all_space U t = false
          /\ core_of U t (extract_text U e selector default)
          /\ trimmed U (extract_text U e selector default)
          /\ extract_text U e selector default <> Empty)
      \/ (extract_text U e selector default = default
          /\ forall sel t,
               selector = VStr sel -> e sel = Match (InnerText t) ->
               Text.all_space U t = true))
  /\ extract_text Unicode.sample (fun _ => Match (InnerText no_break_space))
                  (VStr "h3 a") NA
     = NA
  /\ extract_text Unicode.sample (fun _ => Match (InnerText padded_word))
                  (VStr "h3 a") NA
     = "Book"%text.
Proof.
  split; [|split; reflexivity].
  intros U e selector default.
  destruct selector as [ |b|z|f|sel|l|d];
    try (right; split; [reflexivity | intros ? ? H; discriminate H]).
  unfold extract_text.
  destruct (e sel) as [ | |[t|]] eqn:Hq;
    try (right; split; [reflexivity | intros ? ? H1 H2; injection H1 as <-;
                        rewrite Hq in H2; discriminate H2]).
  destruct (strip_spec U t) as (Hcore & Htrim & Hempty).
  destruct (is_empty (Text.strip U t)) eqn:He.
  - right. split; [reflexivity|].
    intros sel' t' H1 H2. injection H1 as <-. rewrite Hq in H2.
    injection H2 as <-. apply Hempty. now apply is_empty_spec.
  - left. exists sel, t.
    assert (Hne : Text.strip U t <> Empty).
    { intros H. apply is_empty_spec in H. congruence. }
    repeat split; trivial; try apply Htrim.
    destruct (Text.all_space U t); trivial.
    exfalso. apply Hne. now apply Hempty.
Qed.

End StrippingClaim.

(** ** What the scraper hands on *)

Section ScrapedProducts.

Import Unicode DataExtractor StealthScraper AIEnrichmentEngine Spec Scraped.

Lemma no_digit_remove (U : database) (t : text) :
  no_digit U (Text.remove_char Text.comma t) <-> no_digit U t.
Proof.
  unfold no_digit. induction t as [|c r IH]; simpl; [tauto|].
  destruct (N.eqb c Text.comma) eqn:Hc.
  - apply N.eqb_eq in Hc. subst c. simpl. exact IH.
  - simpl. destruct (negb (Text.is_digit U c)); simpl; [exact IH | tauto].
Qed.

(** The price is missing exactly when the text holds no digit. *)
Lemma extract_price_cases (U : database) (t : text) :
  (no_digit U t /\ extract_price U t = None)
  \/ (~ no_digit U t /\ exists f, extract_price U t = Some f).
Proof.
  unfold extract_price. destruct (absent t) eqn:Ha.
  - left. apply absent_cases in Ha. destruct Ha as [-> | ->];
      split; reflexivity.
  - rewrite search_number_comma_free by apply comma_free_remove.
    destruct (Text.search_number U (Text.is_digit U) (Text.remove_char Text.comma t))
      as [tok|] eqn:Hs.
    + right. split.
      * intros Hnd. apply no_digit_remove in Hnd.
        apply search_number_none in Hnd. congruence.
      * apply search_number_first in Hs.
        destruct Hs as (pre & ip & frac & post & _ & Htok & _ & Hshape).
        destruct (py_float_token _ _ _ _ Hshape) as [f Hf].
        rewrite Htok, Hf. now exists f.
    + left. split; [|reflexivity].
      apply no_digit_remove. now apply search_number_none.
Qed.

(** A rating is never above five. *)
Lemma extract_rating_at_most_five (U : database) (t : text) :
  extract_rating U t = None
  \/ exists r, extract_rating U t = Some r /\ (5 <? r)%float = false.
Proof.
  assert (Hw : forall s,
    first_word word_ratings s = None
    \/ exists r, first_word word_ratings s = Some r /\ (5 <? r)%float = false).
  { intros s. destruct (first_word word_ratings s) as [r|] eqn:Hf; [|now left].
    right. exists r. split; [reflexivity|].
    apply first_word_some in Hf. destruct Hf as (w & Hin & _).
    simpl in Hin.
    destruct Hin as [H|[H|[H|[H|[H|[]]]]]]; injection H as _ <-;
      vm_compute; reflexivity. }
  unfold extract_rating. destruct (absent t); [now left|].
  destruct (Text.search_number U (Text.is_digit U) t) as [tok|]; [|apply Hw].
  destruct (Num.py_float U tok) as [rating|e]; [|apply Hw].
  right. exists (Num.py_min2 rating 5). split; [reflexivity|].
  unfold Num.py_min2. destruct (5 <? rating)%float eqn:H5; [|exact H5].
  vm_compute. reflexivity.
Qed.

(** What comes out of the body of the loop is a record of non-empty
    texts. *)
Lemma extract_product_recorded (E : externals) (self : scraper)
    (selectors : value) (idx : nat) (el : element) (w w' : world) (p : dict) :
  extract_product E self selectors idx el w = (Ok p, w') ->
  recorded (unicode E) self idx p.
Proof.
  unfold extract_product. intros H.
  apply bind_ok in H. destruct H as (nm & w1 & _ & H).
  apply bind_ok in H. destruct H as (pr & w2 & _ & H).
  apply bind_ok in H. destruct H as (rt & w3 & _ & H).
  apply bind_ok in H. destruct H as (av & w4 & _ & H).
  apply bind_ok in H. destruct H as (url & w5 & _ & H).
  apply bind_ok in H. destruct H as (ts & w6 & _ & H).
  apply ret_ok in H. destruct H as [<- _].
  exists (extract_text (unicode E) el nm NA),
         (extract_text (unicode E) el pr NA),
         (extract_text (unicode E) el rt NA),
         (extract_text (unicode E) el av NA), url, ts.
  split; [reflexivity|].
  repeat split; apply extract_text_filled; discriminate.
Qed.

Lemma extract_loop_Forall (P : dict -> Prop)
    (body : nat -> element -> M dict) :
  (forall idx el w p w', body idx el w = (Ok p, w') -> P p) ->
  forall (els : list element) (idx : nat) (acc : list dict) (w w' : world)
         (out : list dict),
    Forall P acc ->
    extract_loop body idx els acc w = (Ok out, w') -> Forall P out.
Proof.
  intros Hbody. induction els as [|el rest IH]; intros idx acc w w' out Hacc H.
  - simpl in H. apply ret_ok in H. destruct H as [<- _]. exact Hacc.
  - destruct (body idx el w) as [[p|e] w1] eqn:Hb.
    + rewrite (extract_loop_keeps _ _ _ _ _ _ _ _ Hb) in H.
      apply IH in H; trivial. apply Forall_app. split; trivial.
      constructor; [|constructor]. exact (Hbody _ _ _ _ _ Hb).
    + rewrite (extract_loop_skips _ _ _ _ _ _ _ _ Hb) in H.
      now apply IH in H.
Qed.

(** Every product the orchestrator returns is a record of non-empty
    texts. *)
Lemma extract_products_recorded (E : externals) (self : scraper) (pg : page)
    (max_products : Z) (w w' : world) (products : list dict) :
  _extract_products E self pg max_products w = (Ok products, w') ->
  Forall (fun p => exists idx, recorded (unicode E) self idx p) products.
Proof.
  unfold _extract_products. intros H.
  apply bind_ok in H. destruct H as (selectors & w1 & _ & H).
  apply bind_ok in H. destruct H as (cn & w2 & _ & H).
  apply bind_ok in H. destruct H as (els & w3 & _ & H).
  apply (extract_loop_Forall
           (fun p => exists idx, recorded (unicode E) self idx p)
           (extract_product E self selectors)) in H; trivial.
  intros idx el w0 p w0' Hp. exists idx.
  exact (extract_product_recorded _ _ _ _ _ _ _ _ Hp).
Qed.

Lemma append_filled (a b : string) (c : ascii) :
  (a ++ String c b)%string <> EmptyString.
Proof. destruct a; discriminate. Qed.

(** A text that is not empty is not empty in UTF-8 either. *)
Lemma encode_filled (t : text) : t <> Empty -> encode t <> EmptyString.
Proof.
  destruct t as [|c r]; [congruence|]. intros _. simpl. unfold utf8.
  destruct (c <? 128)%N; [discriminate|].
  destruct (c <? 2048)%N; [discriminate|].
  destruct (c <? 65536)%N; discriminate.
Qed.

(** X9.  Every product the scraper returns is complete in the same way:
    its id, name, raw price and raw rating are non-empty texts (a field
    that could not be read holds "N/A", never the empty text); its price is
    missing exactly when the raw price holds no decimal digit, of whatever
    script, and a float otherwise; its rating is missing or a float not
    above five; and its source is the name of the target. *)
Theorem scraped_products_are_complete :
  forall (E : externals) (self : scraper) (pg : page) (max_products : Z)
         (w w' : world) (products : list dict),
    _extract_products E self pg max_products w = (Ok products, w') ->
    Forall (fun p =>
              filled "id" p /\ filled "name" p
              /\ filled "price_raw" p /\ filled "rating_raw" p
              /\ price_follows_raw (unicode E) p /\ rating_capped p
              /\ dict_get "source" p = Some (VStr (target_name self)))
           products.
Proof.
  intros E self pg max_products w w' products H.
  apply extract_products_recorded in H.
  eapply Forall_impl; [|exact H].
  intros p (idx & name & price_text & rating_text & availability_text & url
            & ts & -> & Hn & Hp & Hr & _).
  split; [|split; [|split; [|split; [|split; [|split]]]]].
  - eexists. split; [reflexivity|]. apply append_filled.
  - exists (encode name). split; [reflexivity | now apply encode_filled].
  - exists (encode price_text). split; [reflexivity | now apply encode_filled].
  - exists (encode rating_text).
    split; [reflexivity | now apply encode_filled].
  - exists price_text. split; [reflexivity|].
    change (dict_get "price"
              (record (unicode E) self idx name price_text rating_text
                      availability_text url ts))
      with (Some (opt_float (extract_price (unicode E) price_text))).
    destruct (extract_price_cases (unicode E) price_text)
      as [[Hnd ->]|[Hnd [f ->]]].
    + left. now split.
    + right. split; [exact Hnd|]. now exists f.
  - unfold rating_capped.
    change (dict_get "rating"
              (record (unicode E) self idx name price_text rating_text
                      availability_text url ts))
      with (Some (opt_float (extract_rating (unicode E) rating_text))).
    destruct (extract_rating_at_most_five (unicode E) rating_text)
      as [->|[r [-> H5]]].
    + now left.
    + right. now exists r.
  - reflexivity.
Qed.

Lemma scraped_products_are_complete_witness :
  Forall (fun p =>
            Scraped.filled "id" p /\ Scraped.filled "name" p
            /\ Scraped.filled "price_raw" p /\ Scraped.filled "rating_raw" p
            /\ Scraped.price_follows_raw Unicode.sample p
            /\ Scraped.rating_capped p
            /\ dict_get "source" p = Some (VStr "books_toscrape"))
         [Scraped.record Unicode.sample
            (StealthScraper.mkScraper "books_toscrape"
                                      ScrapingConfig.books_toscrape)
            0 "A Light in the Attic" "$51.77" "N/A" "In stock (only 3 left)"
            (VStr "https://books.toscrape.com/catalogue/category/books_1/index.html")
            "0"].
Proof.
  refine (scraped_products_are_complete Scraped.offline
            (StealthScraper.mkScraper "books_toscrape"
                                      ScrapingConfig.books_toscrape)
            (fun _ => Ok [Scraped.book_element]) 50
            (mkWorld 0 []) (mkWorld 1 []) _ _).
  vm_compute. reflexivity.
Defined.

End ScrapedProducts.

(** ** Which elements the scraper keeps *)

Section KeptElements.

Import DataExtractor StealthScraper AIEnrichmentEngine Spec Scraped.

Lemma append_cancel_l (a x y : string) : a ++ x = a ++ y -> x = y.
Proof.
  induction a as [|c a IH]; simpl; intros H; [exact H|].
  injection H as H. exact (IH H).
Qed.

Lemma of_nat_injective (a b : nat) : Text.of_nat a = Text.of_nat b -> a = b.
Proof.
  unfold Text.of_nat. intros H.
  apply (f_equal NilEmpty.uint_of_string) in H.
  rewrite !NilEmpty.usu in H. injection H as H.
  apply (f_equal Nat.of_uint) in H.
  now rewrite !DecimalNat.Unsigned.of_to in H.
Qed.

Lemma product_id_injective (self : scraper) (a b : nat) :
  product_id self a = product_id self b -> a = b.
Proof.
  unfold product_id. intros H. injection H as H.
  apply append_cancel_l in H. apply (append_cancel_l "_") in H.
  now apply of_nat_injective.
Qed.

Lemma product_ids_distinct (self : scraper) (start len : nat) :
  NoDup (map (product_id self) (seq start len)).
Proof.
  apply NoDup_map_NoDup_ForallPairs; [|apply seq_NoDup].
  intros a b _ _. apply product_id_injective.
Qed.

(** The body of the loop raises only for want of a selector or of the url,
    and then it raises at every element. *)
Lemma extract_product_config (E : externals) (self : scraper)
    (selectors : value) :
  (exists sels nm pr rt av url,
      selectors = VDict sels
      /\ getitem "name" sels = Ok nm /\ getitem "price" sels = Ok pr
      /\ getitem "rating" sels = Ok rt /\ getitem "availability" sels = Ok av
      /\ getitem "url" (target_config self) = Ok url)
  \/ (forall idx el w,
        exists e, extract_product E self selectors idx el w = (Raise e, w)).
Proof.
  destruct (subscript selectors "name") as [nm|e] eqn:Hn;
    [|right; intros; exists e;
      unfold extract_product, Py.bind, lift; now rewrite Hn].
  destruct (subscript selectors "price") as [pr|e] eqn:Hp;
    [|right; intros; exists e;
      unfold extract_product, Py.bind, lift; now rewrite Hn, Hp].
  destruct (subscript selectors "rating") as [rt|e] eqn:Hr;
    [|right; intros; exists e;
      unfold extract_product, Py.bind, lift; now rewrite Hn, Hp, Hr].
  destruct (subscript selectors "availability") as [av|e] eqn:Ha;
    [|right; intros; exists e;
      unfold extract_product, Py.bind, lift; now rewrite Hn, Hp, Hr, Ha].
  destruct (getitem "url" (target_config self)) as [url|e] eqn:Hu;
    [|right; intros; exists e;
      unfold extract_product, Py.bind, lift; now rewrite Hn, Hp, Hr, Ha, Hu].
  left. destruct selectors as [ |b|z|f|s|l|sels]; try discriminate.
  exists sels, nm, pr, rt, av, url. simpl in *. auto 10.
Qed.

Lemma extract_loop_all_raise (body : nat -> element -> M dict) :
  (forall idx el w, exists e, body idx el w = (Raise e, w)) ->
  forall (els : list element) (idx : nat) (acc : list dict) (w : world),
    extract_loop body idx els acc w = (Ok acc, w).
Proof.
  intros Hbody. induction els as [|el rest IH]; intros idx acc w.
  - reflexivity.
  - destruct (Hbody idx el w) as [e He].
    rewrite (extract_loop_skips _ _ _ _ _ _ _ _ He). apply IH.
Qed.

(** X10.  Once the page has answered the container query, the scraper
    returns, and it never leaves out a single element: it returns either
    one product for every element of the slice, numbered 1, 2, 3, ... in
    page order, or no product at all (when the target lacks a selector or
    its url, so that every element fails alike).  Either way no two
    products share an id. *)
Theorem scraper_keeps_all_or_nothing :
  forall (E : externals) (self : scraper) (selectors cn : value) (pg : page)
         (els : list element) (max_products : Z) (w : world),
    getitem "selectors" (target_config self) = Ok selectors ->
    subscript selectors "product_container" = Ok cn ->
    pg cn = Ok els ->
    exists products w',
      _extract_products E self pg max_products w = (Ok products, w')
      /\ (products = []
          \/ map (dict_get "id") products
             = map (product_id self)
                   (seq 1 (List.length (slice_to els max_products))))
      /\ NoDup (map (dict_get "id") products).
Proof.
  intros E self selectors cn pg els max_products w Hs Hc Hpg.
  destruct (extract_product_config E self selectors)
    as [(sels & nm & pr & rt & av & url & -> & Hn & Hp & Hr & Ha & Hu)|Hraise].
  - destruct (extract_products_sliced E self sels cn nm pr rt av url pg els
                max_products w Hs Hc Hn Hp Hr Ha Hu Hpg)
      as (products & w' & Hk & Hids).
    exists products, w'. split; [exact Hk|]. split; [now right|].
    rewrite Hids. apply product_ids_distinct.
  - exists [], w. split; [|split; [now left | constructor]].
    unfold _extract_products, Py.bind, lift. rewrite Hs, Hc, Hpg.
    now apply extract_loop_all_raise.
Qed.

Lemma scraper_keeps_all_or_nothing_witness :
  exists products w',
    StealthScraper._extract_products Scraped.offline
      (StealthScraper.mkScraper "books_toscrape" ScrapingConfig.books_toscrape)
      (fun _ => Ok [Scraped.book_element; Scraped.book_element]) 50
      (mkWorld 0 [])
    = (Ok products, w')
    /\ (products = []
        \/ map (dict_get "id") products
           = map (Spec.product_id
                    (StealthScraper.mkScraper "books_toscrape"
                                              ScrapingConfig.books_toscrape))
                 (seq 1 (List.length
                           (StealthScraper.slice_to
                              [Scraped.book_element; Scraped.book_element]
                              50))))
    /\ NoDup (map (dict_get "id") products).
Proof.
  apply (scraper_keeps_all_or_nothing Scraped.offline
           (StealthScraper.mkScraper "books_toscrape"
                                     ScrapingConfig.books_toscrape)
           (VDict [("product_container", VStr "article.product_pod");
                   ("name", VStr "h3 a");
                   ("price", VStr "p.price_color");
                   ("rating", VStr "p.star-rating");
                   ("availability", VStr "p.availability")])
           (VStr "article.product_pod")
           (fun _ => Ok [Scraped.book_element; Scraped.book_element])
           [Scraped.book_element; Scraped.book_element] 50 (mkWorld 0 []));
    reflexivity.
Defined.

End KeptElements.

(** ** The configured targets *)

Section ConfiguredTargets.

Import DataExtractor StealthScraper AIEnrichmentEngine Spec Targets.

Lemma get_target_config_known (name : string) :
  In name get_all_targets ->
  name = "books_toscrape" \/ name = "amazon_headphones"
  \/ name = "ebay_laptops".
Proof. simpl. intuition. Qed.

Lemma get_target_config_unknown (name : string) :
  ~ In name get_all_targets -> get_target_config name = [].
Proof.
  intros Hnot. unfold get_target_config. simpl.
  destruct (String.eqb name "books_toscrape") eqn:H1.
  { apply String.eqb_eq in H1. exfalso. apply Hnot. simpl. auto. }
  destruct (String.eqb name "amazon_headphones") eqn:H2.
  { apply String.eqb_eq in H2. exfalso. apply Hnot. simpl. auto. }
  destruct (String.eqb name "ebay_laptops") eqn:H3.
  { apply String.eqb_eq in H3. exfalso. apply Hnot. simpl. auto. }
  reflexivity.
Qed.

(** X11.  The scraper can be constructed for exactly the targets the
    configuration lists: any other name raises ValueError.  And for every
    listed target the configuration is complete, so that with a cap that is
    not negative the scraper returns one product for each of the first
    [max_products] elements the page matched for the target's container
    selector, numbered from 1 in page order, whatever the elements hold. *)
Theorem listed_targets_scrape_every_element :
  forall (name : string),
    (In name get_all_targets ->
     exists self cn,
       __init__ name = Ok self /\ target_name self = name
       /\ target_config self = get_target_config name
       /\ (exists sels,
             dict_get "selectors" (target_config self) = Some (VDict sels)
             /\ dict_get "product_container" sels = Some cn)
       /\ forall (E : externals) (pg : page) (els : list element)
                 (max_products : Z) (w : world),
            pg cn = Ok els -> (0 <= max_products)%Z ->
            exists products w',
              _extract_products E self pg max_products w = (Ok products, w')
              /\ map (dict_get "id") products
                 = map (product_id self)
                       (seq 1 (Nat.min (Z.to_nat max_products)
                                       (List.length els))))
    /\ (~ In name get_all_targets -> __init__ name = Raise ValueError).
Proof.
  intros name. split.
  - intros Hin. apply get_target_config_known in Hin.
    destruct Hin as [-> | [-> | ->]].
    + eexists. eexists. split; [reflexivity|].
      split; [reflexivity|]. split; [reflexivity|].
      split; [eexists; split; reflexivity|].
      intros E pg els max_products w Hpg Hmax.
      eapply (extract_products_capped E _ _ _ _ _ _ _ _ pg els);
        try reflexivity; trivial.
    + eexists. eexists. split; [reflexivity|].
      split; [reflexivity|]. split; [reflexivity|].
      split; [eexists; split; reflexivity|].
      intros E pg els max_products w Hpg Hmax.
      eapply (extract_products_capped E _ _ _ _ _ _ _ _ pg els);
        try reflexivity; trivial.
    + eexists. eexists. split; [reflexivity|].
      split; [reflexivity|]. split; [reflexivity|].
      split; [eexists; split; reflexivity|].
      intros E pg els max_products w Hpg Hmax.
      eapply (extract_products_capped E _ _ _ _ _ _ _ _ pg els);
        try reflexivity; trivial.
  - intros Hnot. unfold __init__.
    now rewrite (get_target_config_unknown name Hnot).
Qed.

Lemma listed_targets_scrape_every_element_witness :
  (exists self cn,
      Targets.__init__ "ebay_laptops" = Ok self
      /\ StealthScraper.target_name self = "ebay_laptops"
      /\ StealthScraper.target_config self
         = Targets.get_target_config "ebay_laptops"
      /\ (exists sels,
            dict_get "selectors" (StealthScraper.target_config self)
            = Some (VDict sels)
            /\ dict_get "product_container" sels = Some cn)
      /\ forall (E : externals) (pg : StealthScraper.page)
                (els : list DataExtractor.element)
                (max_products : Z) (w : world),
           pg cn = Ok els -> (0 <= max_products)%Z ->
           exists products w',
             StealthScraper._extract_products E self pg max_products w
             = (Ok products, w')
             /\ map (dict_get "id") products
                = map (Spec.product_id self)
                      (seq 1 (Nat.min (Z.to_nat max_products)
                                      (List.length els))))
  /\ Targets.__init__ "walmart" = Raise ValueError.
Proof.
  split.
  - apply (proj1 (listed_targets_scrape_every_element "ebay_laptops")).
    simpl. auto.
  - apply (proj2 (listed_targets_scrape_every_element "walmart")).
    simpl. intros [H|[H|[H|[]]]]; discriminate H.
Defined.

End ConfiguredTargets.

(** ** From the scraper to enrichment *)

Section ScraperToEnrichment.

Import DataExtractor StealthScraper AIEnrichmentEngine Spec Scraped.

Lemma recorded_has_summary (U : Unicode.database) (self : scraper)
    (idx : nat) (p : dict) :
  recorded U self idx p -> has_summary p.
Proof.
  intros (name & price_text & rating_text & availability_text & url & ts
          & -> & _).
  eexists. reflexivity.
Qed.

Lemma recorded_price (U : Unicode.database) (self : scraper) (idx : nat)
    (p : dict) :
  recorded U self idx p ->
  dict_get "price" p = Some VNone
  \/ exists f, dict_get "price" p = Some (VFloat f).
Proof.
  intros (name & price_text & rating_text & availability_text & url & ts
          & -> & _).
  change (dict_get "price"
            (record U self idx name price_text rating_text availability_text
                    url ts))
    with (Some (opt_float (extract_price U price_text))).
  destruct (extract_price U price_text) as [f|]; simpl; eauto.
Qed.

Lemma float_prices (valid : list dict) :
  Forall (fun p => exists f, dict_get "price" p = Some (VFloat f)) valid ->
  exists fs,
    mapR (getitem "price") valid = Ok (map VFloat fs)
    /\ List.length fs = List.length valid.
Proof.
  induction 1 as [|p rest [f Hf] _ (fs & Hfs & Hlen)].
  - exists []. split; reflexivity.
  - exists (f :: fs). simpl. unfold getitem at 1. rewrite Hf, Hfs.
    split; [reflexivity | simpl; congruence].
Qed.

Lemma float_nums (fs : list float) :
  mapR Num.as_num (map VFloat fs) = Ok (map Num.NFloat fs).
Proof. induction fs as [|f fs IH]; simpl; [|rewrite IH]; reflexivity. Qed.

Lemma sum_from_floats (fs : list float) :
  forall a, exists g,
    Num.sum_from (Num.NFloat a) (map Num.NFloat fs) = Ok (Num.NFloat g).
Proof.
  induction fs as [|f fs IH]; intros a; simpl; [now exists a|]. apply IH.
Qed.

Lemma py_sum_floats (f : float) (fs : list float) :
  exists g, Num.py_sum (map Num.NFloat (f :: fs)) = Ok (Num.NFloat g).
Proof.
  unfold Num.py_sum. cbn [map Num.sum_from Num.num_add].
  change (Num.int_to_float 0) with (Ok 0%float : result float).
  apply sum_from_floats.
Qed.

Lemma int_to_float_cases (z : Z) :
  (exists g, Num.int_to_float z = Ok g)
  \/ Num.int_to_float z = Raise OverflowError.
Proof.
  unfold Num.int_to_float.
  destruct (is_infinity _); [now right | left; eauto].
Qed.

(** Over float prices the statistics are computed, unless the number of
    prices is beyond the range of a float. *)
Lemma compute_stats_floats (valid : list dict) (w : world) :
  valid <> [] ->
  Forall (fun p => exists f, dict_get "price" p = Some (VFloat f)) valid ->
  (exists stats, compute_stats valid w = (Ok stats, w))
  \/ compute_stats valid w = (Raise OverflowError, w).
Proof.
  intros Hne Hall.
  destruct (float_prices valid Hall) as (fs & Hfs & Hlen).
  unfold compute_stats, Py.bind, lift. rewrite Hfs, float_nums.
  destruct fs as [|f fs].
  { destruct valid; [congruence | discriminate]. }
  cbn [map]. destruct (py_sum_floats f fs) as [g Hg].
  cbn [map] in Hg. rewrite Hg. unfold Num.div_by_len.
  destruct (int_to_float_cases
              (Z.of_nat (List.length (Num.NFloat f :: map Num.NFloat fs))))
    as [[n ->] | ->].
  - left. eexists. reflexivity.
  - now right.
Qed.

Lemma filter_priced_floats (products : list dict) :
  Forall (fun p => dict_get "price" p = Some VNone
                   \/ exists f, dict_get "price" p = Some (VFloat f))
         products ->
  Forall (fun p => exists f, dict_get "price" p = Some (VFloat f))
         (filter is_priced products).
Proof.
  induction 1 as [|p rest Hp _ IH]; simpl; [constructor|].
  unfold is_priced at 1.
  destruct Hp as [-> | [f Hf]]; [exact IH|].
  rewrite Hf. constructor; [now exists f | exact IH].
Qed.

Lemma float_price_numeric (p : dict) :
  (exists f, dict_get "price" p = Some (VFloat f)) -> numeric_price p.
Proof. intros [f Hf]. exists (VFloat f), (Num.NFloat f). now split. Qed.

(** X12.  Whatever the scraper returns can be enriched: on the products of
    any scraping run, and with any provider, [categorize_products] returns
    a list.  No product of the scraper makes it raise KeyError or
    TypeError; the one exception the model leaves possible is the
    OverflowError of turning the number of priced products into a float,
    which leaves the world as it was. *)
Theorem scraped_products_can_be_enriched :
  forall (E : externals) (self : scraper) (pg : page) (max_products : Z)
         (w w1 : world) (products : list dict),
    _extract_products E self pg max_products w = (Ok products, w1) ->
    forall (E' : externals) (w2 : world),
      (exists out w3, categorize_products E' products w2 = (Ok out, w3))
      \/ categorize_products E' products w2 = (Raise OverflowError, w2).
Proof.
  intros E self pg max_products w w1 products H E' w2.
  apply extract_products_recorded in H.
  assert (Hsum : Forall has_summary (filter is_priced products)).
  { apply incl_Forall with (l1 := products); [apply incl_filter|].
    eapply Forall_impl; [|exact H].
    intros p [idx Hp]. exact (recorded_has_summary _ _ _ _ Hp). }
  assert (Hfl : Forall (fun p => exists f, dict_get "price" p = Some (VFloat f))
                       (filter is_priced products)).
  { apply filter_priced_floats. eapply Forall_impl; [|exact H].
    intros p [idx Hp]. exact (recorded_price _ _ _ _ Hp). }
  unfold categorize_products.
  destruct (filter is_priced products) as [|p0 valid] eqn:Hvalid.
  - left. now exists products, w2.
  - assert (Hne : p0 :: valid <> []) by discriminate.
    destruct (compute_stats_floats (p0 :: valid) w2 Hne Hfl)
      as [[stats Hstats] | Hover].
    + left. unfold Py.bind. rewrite Hstats.
      destruct (enrich_batches_returns E' stats (batches (p0 :: valid))
                  (forall_batches _ _ Hsum)
                  (forall_batches _ _
                     (Forall_impl _ float_price_numeric Hfl))
                  [] w2) as (out & w3 & Hout).
      rewrite Hout. eexists. eexists. reflexivity.
    + right. unfold Py.bind. now rewrite Hover.
Qed.

Lemma scraped_products_can_be_enriched_witness :
  (exists out w3,
      AIEnrichmentEngine.categorize_products Scraped.offline
        [Scraped.record Unicode.sample
           (StealthScraper.mkScraper "books_toscrape"
                                     ScrapingConfig.books_toscrape)
           0 "A Light in the Attic" "$51.77" "N/A" "In stock (only 3 left)"
           (VStr "https://books.toscrape.com/catalogue/category/books_1/index.html")
           "0"]
        (mkWorld 1 [])
      = (Ok out, w3))
  \/ AIEnrichmentEngine.categorize_products Scraped.offline
       [Scraped.record Unicode.sample
          (StealthScraper.mkScraper "books_toscrape"
                                    ScrapingConfig.books_toscrape)
          0 "A Light in the Attic" "$51.77" "N/A" "In stock (only 3 left)"
          (VStr "https://books.toscrape.com/catalogue/category/books_1/index.html")
          "0"]
       (mkWorld 1 [])
     = (Raise OverflowError, mkWorld 1 []).
Proof.
  refine (scraped_products_can_be_enriched Scraped.offline
            (StealthScraper.mkScraper "books_toscrape"
                                      ScrapingConfig.books_toscrape)
            (fun _ => Ok [Scraped.book_element]) 50
            (mkWorld 0 []) (mkWorld 1 []) _ _ Scraped.offline (mkWorld 1 [])).
  vm_compute. reflexivity.
Defined.

(** A product either has the four fields shown to the provider, or lacks
    one of them. *)
Lemma summary_of_cases (p : dict) :
  (exists s, summary_of p = Ok s) \/ summary_of p = Raise KeyError.
Proof.
  unfold summary_of.
  destruct (getitem "id" p), (getitem "name" p), (getitem "price" p),
           (getitem "rating" p); eauto.
Qed.

Lemma summaries_raise (batch : list dict) :
  Exists (fun p => ~ has_summary p) batch ->
  mapR summary_of batch = Raise KeyError.
Proof.
  induction 1 as [p rest Hp | p rest _ IH]; simpl.
  - destruct (summary_of_cases p) as [[s Hs] | ->]; [|reflexivity].
    exfalso. apply Hp. now exists s.
  - destruct (summary_of_cases p) as [[s ->] | ->]; [|reflexivity].
    now rewrite IH.
Qed.

Lemma enrich_batch_incomplete (E : externals) (stats : price_stats)
    (batch : list dict) (w : world) :
  Exists (fun p => ~ has_summary p) batch ->
  _enrich_batch E batch stats w = (Raise KeyError, w).
Proof.
  intros H. unfold _enrich_batch, Py.bind, lift.
  now rewrite (summaries_raise batch H).
Qed.

Lemma has_summary_dec (batch : list dict) :
  Forall has_summary batch \/ Exists (fun p => ~ has_summary p) batch.
Proof.
  induction batch as [|p rest [IH|IH]].
  - left. constructor.
  - destruct (summary_of_cases p) as [[s Hs] | Hs].
    + left. constructor; [now exists s | exact IH].
    + right. apply Exists_cons_hd. intros [s Hs']. congruence.
  - right. now apply Exists_cons_tl.
Qed.

Lemma enrich_batches_incomplete (E : externals) (stats : price_stats)
    (bs : list (list dict)) :
  Forall (Forall numeric_price) bs ->
  Exists (fun p => ~ has_summary p) (List.concat bs) ->
  forall (acc : list dict) (w : world),
    exists w', enrich_batches E stats bs acc w = (Raise KeyError, w').
Proof.
  induction bs as [|batch rest IH]; intros Hnum Hex acc w.
  - simpl in Hex. inversion Hex.
  - inversion Hnum as [|b r Hb Hr]; subst.
    cbn [enrich_batches]. unfold Py.bind.
    destruct (has_summary_dec batch) as [Hall | Hbad].
    + destruct (enrich_batch_returns E stats batch w Hall Hb)
        as (out & w1 & ->).
      apply IH; trivial.
      simpl in Hex. apply Exists_app in Hex. destruct Hex as [Hex|Hex]; trivial.
      exfalso. apply Exists_exists in Hex. destruct Hex as (p & Hin & Hp).
      rewrite Forall_forall in Hall. exact (Hp (Hall p Hin)).
    + rewrite (enrich_batch_incomplete E stats batch w Hbad). now exists w.
Qed.

(** X13.  One priced product that lacks its id, name or rating makes the
    whole enrichment fail: when the statistics can be computed,
    [categorize_products] raises KeyError whatever the provider answers,
    because the summary shown to the provider is put together before the
    [try], and the rule-based fallback is never reached for that batch. *)
Theorem incomplete_product_fails_enrichment :
  forall (E : externals) (products : list dict) (stats : price_stats)
         (w w1 : world),
    compute_stats (filter is_priced products) w = (Ok stats, w1) ->
    Exists (fun p => is_priced p = true /\ ~ has_summary p) products ->
    exists w', categorize_products E products w = (Raise KeyError, w').
Proof.
  intros E products stats w w1 Hstats Hex.
  assert (Hbad : Exists (fun p => ~ has_summary p) (filter is_priced products)).
  { apply Exists_exists in Hex. destruct Hex as (p & Hin & Hpr & Hp).
    apply Exists_exists. exists p. split; [|exact Hp].
    apply filter_In. now split. }
  pose proof (compute_stats_numeric _ _ _ _ Hstats) as Hnum.
  unfold categorize_products.
  destruct (filter is_priced products) as [|p0 valid] eqn:Hvalid.
  { inversion Hbad. }
  unfold Py.bind. rewrite Hstats.
  destruct (enrich_batches_incomplete E stats (batches (p0 :: valid))
              (forall_batches _ _ Hnum)) with (acc := @nil dict) (w := w1)
    as [w' Hw'].
  { now rewrite concat_batches. }
  rewrite Hw'. now exists w'.
Qed.

Lemma incomplete_product_fails_enrichment_witness :
  exists w',
    AIEnrichmentEngine.categorize_products Scraped.offline
      [Spec.priced_product "a" "x" 10 VNone;
       [("id", VStr "b"); ("price", VFloat 30); ("rating", VNone)]]
      (mkWorld 0 [])
    = (Raise KeyError, w').
Proof.
  refine (incomplete_product_fails_enrichment Scraped.offline
            [Spec.priced_product "a" "x" 10 VNone;
             [("id", VStr "b"); ("price", VFloat 30); ("rating", VNone)]]
            _ (mkWorld 0 []) _ _ _).
  - vm_compute. reflexivity.
  - apply Exists_cons_tl. apply Exists_cons_hd.
    split; [reflexivity|]. intros [s Hs]. discriminate Hs.
Defined.

End ScraperToEnrichment.

(** ** The browser is entered and left *)

Section Lifecycle.

Import BrowserManager Protocol.

Ltac case_raise :=
  match goal with
  | |- context [raises ?N ?h ?c] =>
      let H := fresh "Hr" in destruct (raises N h c) eqn:H; cbn
  end.

(** Making and entering the manager makes the entering calls up to the
    first that raises. *)
Lemma enter_run (N : environment) (s0 : session) :
  exists s1,
    andthen (__init__ N) (__enter__ N) s0
    = (answer (Returned tt) (first_raise N (calls s0) entering), s1)
    /\ calls s1 = (calls s0 ++ attempted N (calls s0) entering)%list
    /\ clock s1 = clock s0
    /\ (first_raise N (calls s0) entering = None -> holding s1)
    /\ (forall c, first_raise N (calls s0) entering = Some c ->
                  c <> NewUserAgent -> c <> Start -> playwright s1 = true).
Proof.
  unfold __init__, __enter__, initialize, _create_stealth_context,
    _get_realistic_user_agent, _inject_stealth_scripts, user_agent_rotation,
    andthen, bind, perform, set_playwright, set_browser, set_context,
    set_page, entering, holding.
  cbn.
  repeat case_raise;
    (eexists; split; [reflexivity|]; cbn;
     split; [rewrite <- ?app_assoc; reflexivity|];
     split; [reflexivity|];
     split; [intros H; try discriminate H; auto|];
     intros c H;
     first [discriminate H
           | injection H as <-; intros; try congruence; auto]).
Qed.

(** Closing a manager that holds its four objects makes the closing calls
    up to the first that raises. *)
Lemma close_run (N : environment) (s : session) :
  holding s ->
  exists s',
    close N s = (answer (Returned tt) (first_raise N (calls s) closing), s')
    /\ calls s' = (calls s ++ attempted N (calls s) closing)%list
    /\ clock s' = clock s.
Proof.
  intros (Hp & Hb & Hc & Hg).
  unfold close, andthen, bind, when, perform, closing. cbn.
  rewrite Hg, Hc, Hb, Hp. cbn.
  repeat case_raise;
    try rewrite Hc; try rewrite Hb; try rewrite Hp; cbn;
    repeat case_raise;
    try rewrite Hb; try rewrite Hp; cbn;
    repeat case_raise;
    try rewrite Hp; cbn;
    repeat case_raise;
    (eexists; split; [reflexivity|]; cbn;
     split; [rewrite <- ?app_assoc; reflexivity | reflexivity]).
Qed.

End Lifecycle.

Section Release.

Import BrowserManager Protocol.

Lemma attempted_incl (N : environment) (cs : list call) :
  forall made c, In c (attempted N made cs) -> In c cs.
Proof.
  induction cs as [|c0 r IH]; intros made c; cbn; [tauto|].
  destruct (raises N made c0); cbn.
  - intros [H|[]]. now left.
  - intros [H|H]; [now left | right; exact (IH _ _ H)].
Qed.

Lemma attempted_all (N : environment) (cs : list call) :
  forall made, first_raise N made cs = None -> attempted N made cs = cs.
Proof.
  induction cs as [|c0 r IH]; intros made; cbn; trivial.
  destruct (raises N made c0); [discriminate|].
  intros H. now rewrite (IH _ H).
Qed.

Lemma first_raise_app (N : environment) (a b : list call) :
  forall made,
    first_raise N made (a ++ b)
    = match first_raise N made a with
      | Some c => Some c
      | None => first_raise N (made ++ a) b
      end.
Proof.
  induction a as [|c0 r IH]; intros made; cbn.
  - now rewrite app_nil_r.
  - destruct (raises N made c0); trivial.
    rewrite IH, <- app_assoc. reflexivity.
Qed.

(** X14.  Once the manager has been made and entered, the browser is
    released however the block ends: after the block has returned or
    raised, [__exit__] closes the page, the context and the browser and
    stops the driver, in this order, and the block's own result or
    exception goes on unchanged.  The release stops at the first closing
    call that raises, whose exception then replaces the block's: if
    [page.close()] raises, context, browser and driver are left as they
    are. *)
Theorem browser_is_released_however_the_block_ends :
  forall (N : environment) (A : Type) (body : B A) (s0 s1 s2 : session)
         (rb : outcome A),
    andthen (__init__ N) (__enter__ N) s0 = (Returned tt, s1) ->
    body s1 = (rb, s2) ->
    holding s2 ->
    exists s,
      with_manager N body s0
      = (answer rb (first_raise N (calls s2) closing), s)
      /\ calls s = (calls s2 ++ attempted N (calls s2) closing)%list
      /\ clock s = clock s2
      /\ (first_raise N (calls s2) closing = None ->
          calls s = (calls s2 ++ closing)%list)
      /\ (raises N (calls s2) ClosePage = true ->
          calls s = (calls s2 ++ [ClosePage])%list).
Proof.
  intros N A body s0 s1 s2 rb Henter Hbody Hheld.
  destruct (close_run N s2 Hheld) as (s & Hclose & Hcalls & Hclock).
  exists s. unfold with_manager, __exit__. rewrite Henter, Hbody, Hclose.
  split; [|split; [exact Hcalls | split; [exact Hclock | split]]].
  - destruct rb as [a|e], (first_raise N (calls s2) closing); reflexivity.
  - intros Hnone. now rewrite Hcalls, (attempted_all _ _ _ Hnone).
  - intros Hpage. rewrite Hcalls. cbn. now rewrite Hpage.
Qed.

Lemma browser_is_released_however_the_block_ends_witness :
  exists s,
    BrowserManager.with_manager
      (Protocol.failing_at (fun _ => false))
      (fun s => (Raised (Python KeyError) : BrowserManager.outcome unit, s))
      Protocol.start
    = (Raised (Python KeyError), s)
    /\ BrowserManager.calls s
       = (Protocol.entering ++ Protocol.closing)%list.
Proof.
  destruct (browser_is_released_however_the_block_ends
              (Protocol.failing_at (fun _ => false)) unit
              (fun s => (Raised (Python KeyError), s))
              Protocol.start
              (mkSession true true true true Protocol.entering (mkWorld 0 []))
              (mkSession true true true true Protocol.entering (mkWorld 0 []))
              (Raised (Python KeyError))
              eq_refl eq_refl (conj eq_refl (conj eq_refl (conj eq_refl eq_refl))))
    as (s & Hrun & _ & _ & Hcalls & _).
  exists s. split; [exact Hrun | exact (Hcalls eq_refl)].
Defined.

(** X15.  If making or entering the manager raises, nothing is released:
    the block is not run, [__exit__] is not called, and none of the four
    closing calls is ever made, although every object made before the
    failing call is still open.  In particular, when a call after
    [start()] fails, the Playwright driver that was started is never
    stopped. *)
Theorem failed_start_releases_nothing :
  forall (N : environment) (A : Type) (body : B A) (s0 : session) (c : call),
    first_raise N (calls s0) entering = Some c ->
    exists s,
      with_manager N body s0 = (Raised (CallFailed c), s)
      /\ calls s = (calls s0 ++ attempted N (calls s0) entering)%list
      /\ (forall c', In c' closing ->
                     ~ In c' (attempted N (calls s0) entering))
      /\ (c <> NewUserAgent -> c <> Start -> playwright s = true).
Proof.
  intros N A body s0 c Hfail.
  destruct (enter_run N s0) as (s1 & Henter & Hcalls & _ & _ & Hleft).
  exists s1. unfold with_manager. rewrite Henter, Hfail. cbn [answer].
  split; [reflexivity|]. split; [exact Hcalls|]. split.
  - intros c' Hc' Hin. apply attempted_incl in Hin.
    cbn in Hc', Hin. intuition congruence.
  - intros H1 H2. exact (Hleft c Hfail H1 H2).
Qed.

Lemma failed_start_releases_nothing_witness :
  exists s,
    BrowserManager.with_manager
      (Protocol.failing_at
         (fun c => match c with NewContext => true | _ => false end))
      (BrowserManager.ret tt) Protocol.start
    = (Raised (CallFailed NewContext), s)
    /\ BrowserManager.calls s
       = [NewUserAgent; Start; Launch; RandomUserAgent; NewContext]
    /\ BrowserManager.playwright s = true.
Proof.
  destruct (failed_start_releases_nothing
              (Protocol.failing_at
                 (fun c => match c with NewContext => true | _ => false end))
              unit (BrowserManager.ret tt) Protocol.start NewContext eq_refl)
    as (s & Hrun & Hcalls & _ & Hleft).
  exists s. split; [exact Hrun|]. split; [exact Hcalls|].
  apply Hleft; discriminate.
Defined.

End Release.

(** ** A scraping run *)

Section ScrapingRun.

Import BrowserManager Protocol Scrape.

Ltac case_extract extract :=
  match goal with
  | |- context [extract ?pg ?m ?w0] =>
      let Hx := fresh "Hx" in
      destruct (extract pg m w0) as [[?ps|?e] ?w] eqn:Hx
  end.

(** The block of [scrape] leaves the manager's attributes alone. *)
Lemma scrape_body_keeps (N : environment) (self : StealthScraper.scraper)
    (max_products : Z) (s1 s2 : session) (r : outcome (list dict)) :
  scrape_body N self max_products s1 = (r, s2) ->
  holding s1 -> holding s2.
Proof.
  unfold scrape_body.
  generalize (StealthScraper._extract_products (ext N) self). intros extract.
  unfold navigate_to, andthen, when, bind, python, lift, perform, ret, holding.
  cbn.
  destruct (getitem "url" (StealthScraper.target_config self)) as [url|e];
    cbn; [|intros H; injection H as _ <-; cbn; trivial].
  destruct (raises N (calls s1) (Goto url));
    cbn; [intros H; injection H as _ <-; cbn; trivial|].
  destruct (raises N _ (SimulateBrowsing 2));
    cbn; [intros H; injection H as _ <-; cbn; trivial|].
  destruct (getitem "type" (StealthScraper.target_config self)) as [type|e];
    cbn; [|intros H; injection H as _ <-; cbn; trivial].
  destruct (is_dynamic type); cbn.
  - destruct (raises N _ ScrollToBottom);
      cbn; [intros H; injection H as _ <-; cbn; trivial|].
    case_extract extract; intros H; injection H as _ <-; cbn; trivial.
  - case_extract extract; intros H; injection H as _ <-; cbn; trivial.
Qed.

(** A block that returns has made every one of its calls, none of which
    raised, and returns what [_extract_products] found in the page as it
    stood then. *)
Lemma scrape_body_returned (N : environment) (self : StealthScraper.scraper)
    (max_products : Z) (s1 s2 : session) (products : list dict) :
  scrape_body N self max_products s1 = (Returned products, s2) ->
  exists url type,
    getitem "url" (StealthScraper.target_config self) = Ok url
    /\ getitem "type" (StealthScraper.target_config self) = Ok type
    /\ calls s2 = (calls s1 ++ browsing url type)%list
    /\ first_raise N (calls s1) (browsing url type) = None
    /\ StealthScraper._extract_products (ext N) self (dom N (calls s2))
                                        max_products (clock s1)
       = (Ok products, clock s2).
Proof.
  unfold scrape_body.
  generalize (StealthScraper._extract_products (ext N) self). intros extract.
  unfold navigate_to, andthen, when, bind, python, lift, perform, ret, browsing.
  cbn.
  destruct (getitem "url" (StealthScraper.target_config self)) as [url|e];
    cbn; [|discriminate].
  destruct (raises N (calls s1) (Goto url)) eqn:Hgoto; cbn; [discriminate|].
  destruct (raises N _ (SimulateBrowsing 2)) eqn:Hsim; cbn; [discriminate|].
  destruct (getitem "type" (StealthScraper.target_config self)) as [type|e];
    cbn; [|discriminate].
  destruct (is_dynamic type) eqn:Hdyn; cbn.
  - destruct (raises N _ ScrollToBottom) eqn:Hscroll; cbn; [discriminate|].
    case_extract extract; intros H; [|discriminate H].
    injection H as <- <-. exists url, type. rewrite Hdyn. cbn.
    rewrite Hgoto, Hsim, Hscroll, <- !app_assoc. cbn.
    rewrite <- !app_assoc in Hx. cbn in Hx. auto.
  - case_extract extract; intros H; [|discriminate H].
    injection H as <- <-. exists url, type. rewrite Hdyn. cbn.
    rewrite Hgoto, Hsim, <- !app_assoc. cbn.
    rewrite <- !app_assoc in Hx. cbn in Hx. auto.
Qed.

(** [scrape] looks the url up, then runs its block inside the manager. *)
Lemma scrape_unfold (N : environment) (self : StealthScraper.scraper)
    (max_products : Z) (s0 : session) :
  scrape N self max_products s0
  = match getitem "url" (StealthScraper.target_config self) with
    | Ok _ => with_manager N (scrape_body N self max_products) s0
    | Raise e => (Raised (Python e), s0)
    end.
Proof.
  destruct s0 as [pw br cx pg cs w].
  unfold scrape, andthen, bind, python, lift, ret. cbn.
  destruct (getitem "url" (StealthScraper.target_config self)); reflexivity.
Qed.

(** A scrape that returns has gone through the whole protocol. *)
Lemma scrape_returned (N : environment) (self : StealthScraper.scraper)
    (max_products : Z) (s0 s : session) (products : list dict) :
  scrape N self max_products s0 = (Returned products, s) ->
  exists url type,
    getitem "url" (StealthScraper.target_config self) = Ok url
    /\ getitem "type" (StealthScraper.target_config self) = Ok type
    /\ calls s
       = (calls s0 ++ entering ++ browsing url type ++ closing)%list
    /\ first_raise N (calls s0) (entering ++ browsing url type ++ closing)
       = None
    /\ StealthScraper._extract_products
         (ext N) self (dom N (calls s0 ++ entering ++ browsing url type))
         max_products (clock s0)
       = (Ok products, clock s).
Proof.
  rewrite scrape_unfold.
  destruct (getitem "url" (StealthScraper.target_config self)) as [url0|e0]
    eqn:Hurl0; [|discriminate].
  unfold with_manager.
  destruct (enter_run N s0) as (s1 & Henter & Hcalls1 & Hclock1 & Hheld & _).
  rewrite Henter.
  destruct (first_raise N (calls s0) entering) as [c|] eqn:Hfirst;
    cbn [answer]; [discriminate|].
  specialize (Hheld eq_refl).
  destruct (scrape_body N self max_products s1) as [[ps|e] s2] eqn:Hbody.
  - destruct (close_run N s2 (scrape_body_keeps _ _ _ _ _ _ Hbody Hheld))
      as (s3 & Hclose & Hcalls3 & Hclock3).
    unfold __exit__. rewrite Hclose.
    destruct (first_raise N (calls s2) closing) as [c|] eqn:Hlast;
      cbn [answer]; [discriminate|].
    intros H. injection H as <- <-.
    destruct (scrape_body_returned _ _ _ _ _ _ Hbody)
      as (url & type & Hurl & Htype & Hcalls2 & Hmid & Hx).
    exists url, type.
    rewrite (attempted_all _ _ _ Hfirst) in Hcalls1.
    rewrite (attempted_all _ _ _ Hlast) in Hcalls3.
    split; [now rewrite <- Hurl0, Hurl|]. split; [exact Htype|].
    split; [|split].
    + rewrite Hcalls3, Hcalls2, Hcalls1, <- !app_assoc. reflexivity.
    + rewrite first_raise_app, Hfirst, first_raise_app.
      rewrite <- Hcalls1, Hmid, <- Hcalls2. exact Hlast.
    + rewrite app_assoc, <- Hcalls1, <- Hcalls2, Hclock3.
      rewrite Hclock1 in Hx. exact Hx.
  - unfold __exit__.
    destruct (close N s2) as [[u|e'] s3]; discriminate.
Qed.

(** X16.  A scrape that returns products has gone through the whole
    protocol, and nothing in it raised: the manager was made and entered
    (so the stealth script was injected before the page was opened), the
    target's url was opened once, the browsing was simulated, the page was
    scrolled to its bottom exactly when the target's type is 'dynamic',
    the products are those [_extract_products] found in the page as it
    stood after these calls, and page, context, browser and driver were
    released, in this order, as the last calls of the run. *)
Theorem returned_scrape_ran_the_whole_protocol :
  forall (N : environment) (self : StealthScraper.scraper) (max_products : Z)
         (s0 s : session) (products : list dict),
    scrape N self max_products s0 = (Returned products, s) ->
    exists url type,
      getitem "url" (StealthScraper.target_config self) = Ok url
      /\ getitem "type" (StealthScraper.target_config self) = Ok type
      /\ calls s
         = (calls s0 ++ entering
            ++ [Goto url; SimulateBrowsing 2]
            ++ (if is_dynamic type then [ScrollToBottom] else [])
            ++ closing)%list
      /\ first_raise N (calls s0) (entering ++ browsing url type ++ closing)
         = None
      /\ StealthScraper._extract_products
           (ext N) self (dom N (calls s0 ++ entering ++ browsing url type))
           max_products (clock s0)
         = (Ok products, clock s)
      /\ (In ScrollToBottom (calls s) -> ~ In ScrollToBottom (calls s0) ->
          type = VStr "dynamic").
Proof.
  intros N self max_products s0 s products H.
  destruct (scrape_returned _ _ _ _ _ _ H)
    as (url & type & Hurl & Htype & Hcalls & Hnone & Hx).
  exists url, type.
  split; [exact Hurl|]. split; [exact Htype|]. split; [|split; [|split]].
  - rewrite Hcalls. unfold browsing. now rewrite <- !app_assoc.
  - exact Hnone.
  - exact Hx.
  - rewrite Hcalls. unfold browsing, is_dynamic. intros Hin Hnot.
    apply in_app_or in Hin. destruct Hin as [Hin|Hin]; [contradiction|].
    destruct type as [ |b|z|f|t|l|d];
      try (cbn in Hin; intuition discriminate).
    destruct (String.eqb t "dynamic") eqn:Ht.
    + apply String.eqb_eq in Ht. now subst.
    + cbn in Hin. intuition discriminate.
Qed.

Lemma returned_scrape_ran_the_whole_protocol_witness :
  exists url type,
    getitem "url" ScrapingConfig.books_toscrape = Ok url
    /\ getitem "type" ScrapingConfig.books_toscrape = Ok type
    /\ BrowserManager.calls
         (snd (Scrape.scrape (Protocol.failing_at (fun _ => false))
                 (StealthScraper.mkScraper "books_toscrape"
                                           ScrapingConfig.books_toscrape)
                 1 Protocol.start))
       = (BrowserManager.calls Protocol.start ++ Protocol.entering
          ++ [Goto url; SimulateBrowsing 2]
          ++ (if Scrape.is_dynamic type then [ScrollToBottom] else [])
          ++ Protocol.closing)%list.
Proof.
  destruct (returned_scrape_ran_the_whole_protocol
              (Protocol.failing_at (fun _ => false))
              (StealthScraper.mkScraper "books_toscrape"
                                        ScrapingConfig.books_toscrape)
              1 Protocol.start
              (snd (Scrape.scrape (Protocol.failing_at (fun _ => false))
                      (StealthScraper.mkScraper "books_toscrape"
                                                ScrapingConfig.books_toscrape)
                      1 Protocol.start))
              [Scraped.record Unicode.sample
                 (StealthScraper.mkScraper "books_toscrape"
                                           ScrapingConfig.books_toscrape)
                 0 "A Light in the Attic" "$51.77" "N/A"
                 "In stock (only 3 left)"
                 (VStr "https://books.toscrape.com/catalogue/category/books_1/index.html")
                 "0"])
    as (url & type & Hurl & Htype & Hcalls & _).
  - vm_compute. reflexivity.
  - exists url, type. split; [exact Hurl|]. split; [exact Htype|].
    exact Hcalls.
Defined.

End ScrapingRun.

(** ** The scraping phase of the pipeline *)

Section ScrapingPhase.

Import BrowserManager Protocol Scrape Main.

Lemma extract_products_within_cap (E : externals)
    (self : StealthScraper.scraper) (pg : StealthScraper.page)
    (max_products : Z) (w w' : world) (products : list dict) :
  StealthScraper._extract_products E self pg max_products w
  = (Ok products, w') ->
  (0 <= max_products)%Z ->
  (List.length products <= Z.to_nat max_products)%nat.
Proof.
  unfold StealthScraper._extract_products. intros H Hcap.
  apply bind_ok in H. destruct H as (selectors & w1 & _ & H).
  apply bind_ok in H. destruct H as (cn & w2 & _ & H).
  apply bind_ok in H. destruct H as (els & w3 & _ & H).
  destruct (extract_loop_total
              (StealthScraper.extract_product E self selectors)
              (StealthScraper.slice_to els max_products) 0%nat [] w3)
    as (kept & w4 & Hk & Hlen).
  rewrite Hk in H. injection H as <- _. cbn [app].
  unfold StealthScraper.slice_to in Hlen.
  destruct (0 <=? max_products)%Z eqn:H0; [|lia].
  rewrite length_firstn in Hlen. lia.
Qed.

Lemma save_to_json_content {text} (C : RawFile.json_codec text)
    (E : externals) (self : StealthScraper.scraper) (products : list dict)
    (w : world) :
  exists content w',
    RawFile.save_to_json C E self products w = (Ok content, w')
    /\ ((forall v, RawFile.json_load C (RawFile.json_dump C v) = Ok v) ->
        RawFile.json_load C content
        = Ok (VDict
                [("metadata",
                  VDict [("target", VStr (StealthScraper.target_name self));
                         ("total_products",
                          VInt (Z.of_nat (List.length products)));
                         ("scraped_at", VStr (now_iso E (ticks w)))]);
                 ("products", VList (map VDict products))])).
Proof.
  unfold RawFile.save_to_json, StealthScraper.raw_output, Py.bind,
    datetime_now, ret.
  eexists. eexists. split; [reflexivity|]. intros Hcodec. apply Hcodec.
Qed.

Lemma init_listed (target : string) (self : StealthScraper.scraper) :
  Targets.__init__ target = Ok self -> In target Targets.get_all_targets.
Proof.
  intros H.
  destruct (in_dec string_dec target Targets.get_all_targets) as [Hin|Hnot];
    trivial.
  unfold Targets.__init__ in H.
  rewrite (get_target_config_unknown target Hnot) in H. discriminate.
Qed.

(** X17.  The scraping phase of the pipeline finishes only with products
    in hand: whenever [_run_scraping] does not end the process, the target
    is a listed one, the scrape returned a list that is not empty (and, for
    a cap that is not negative, no longer than the cap), the browser was
    released by the last four calls of the run, and the raw file holds a
    text from which exactly these products are read back.  In every other
    case the process exits with status 1.  The raw file is then untouched
    when the target is unknown, the scrape raised or returned no product,
    or the file could not be opened; but when the file was opened and the
    writing failed, the file has been emptied and holds only what was
    written of the text before the failure, so that an earlier raw file is
    lost.  A cap of 0 always ends the process with status 1 and the file
    untouched; and a disk that fails after five tokens leaves a file of
    five tokens behind. *)
Theorem run_scraping_finishes_only_with_products :
  (forall (N : environment) (D : disk) (target : string)
          (max_products : Z) (s0 : session),
      match _run_scraping N D target max_products s0 with
      | (Finished, s, file) =>
          exists self products content url type,
            In target Targets.get_all_targets
            /\ Targets.__init__ target = Ok self
            /\ fst (scrape N self max_products s0) = Returned products
            /\ products <> []
            /\ ((0 <= max_products)%Z ->
                (List.length products <= Z.to_nat max_products)%nat)
            /\ calls s
               = (calls s0 ++ entering ++ browsing url type ++ closing)%list
            /\ D = Holds
            /\ file = Saved content
            /\ RawFile.load_products Json.token_codec content = Ok products
      | (Exited code, s, file) =>
          code = 1%Z
          /\ (file = Untouched
              \/ exists self products content written,
                   D = DumpRaises written
                   /\ Targets.__init__ target = Ok self
                   /\ fst (scrape N self max_products s0) = Returned products
                   /\ products <> []
                   /\ RawFile.load_products Json.token_codec content
                      = Ok products
                   /\ file = Truncated (firstn written content))
      end
      /\ (max_products = 0%Z ->
          fst (fst (_run_scraping N D target max_products s0)) = Exited 1
          /\ snd (_run_scraping N D target max_products s0) = Untouched))
  /\ (exists part,
        _run_scraping (failing_at (fun _ => false)) (DumpRaises 5)
                      "books_toscrape" 50 start
        = (Exited 1,
           snd (fst (_run_scraping (failing_at (fun _ => false)) Holds
                                   "books_toscrape" 50 start)),
           Truncated part)
        /\ List.length part = 5%nat).
Proof.
  split; [|eexists; split; vm_compute; reflexivity].
  intros N D target max_products s0.
  assert (Hscrape : forall self products s1,
    scrape N self max_products s0 = (Returned products, s1) ->
    products <> [] ->
    exists content w' url type,
      RawFile.save_to_json Json.token_codec (ext N) self products (clock s1)
      = (Ok content, w')
      /\ RawFile.load_products Json.token_codec content = Ok products
      /\ ((0 <= max_products)%Z ->
          (List.length products <= Z.to_nat max_products)%nat)
      /\ calls s1
         = (calls s0 ++ entering ++ browsing url type ++ closing)%list).
  { intros self products s1 Hrun Hne.
    destruct (save_to_json_content Json.token_codec (ext N) self products
                (clock s1)) as (content & w' & Hsave & Hload).
    destruct (scrape_returned _ _ _ _ _ _ Hrun)
      as (url & type & _ & _ & Hcalls & _ & Hx).
    exists content, w', url, type.
    split; [exact Hsave|]. split.
    - unfold RawFile.load_products.
      rewrite (Hload token_codec_round_trip).
      apply loaded_products_raw.
    - split; [exact (extract_products_within_cap _ _ _ _ _ _ _ Hx)|].
      exact Hcalls. }
  assert (Hmain :
    match _run_scraping N D target max_products s0 with
    | (Finished, s, file) =>
        exists self products content url type,
          In target Targets.get_all_targets
          /\ Targets.__init__ target = Ok self
          /\ fst (scrape N self max_products s0) = Returned products
          /\ products <> []
          /\ ((0 <= max_products)%Z ->
              (List.length products <= Z.to_nat max_products)%nat)
          /\ calls s
             = (calls s0 ++ entering ++ browsing url type ++ closing)%list
          /\ D = Holds
          /\ file = Saved content
          /\ RawFile.load_products Json.token_codec content = Ok products
    | (Exited code, s, file) =>
        code = 1%Z
        /\ (file = Untouched
            \/ exists self products content written,
                 D = DumpRaises written
                 /\ Targets.__init__ target = Ok self
                 /\ fst (scrape N self max_products s0) = Returned products
                 /\ products <> []
                 /\ RawFile.load_products Json.token_codec content
                    = Ok products
                 /\ file = Truncated (firstn written content))
    end).
  { unfold _run_scraping.
    destruct (Targets.__init__ target) as [self|e] eqn:Hinit;
      [|split; [reflexivity | now left]].
    destruct (scrape N self max_products s0) as [[products|e] s1] eqn:Hrun;
      [|split; [reflexivity | now left]].
    destruct products as [|p rest]; cbn [is_empty_list];
      [split; [reflexivity | now left]|].
    destruct (Hscrape self (p :: rest) s1 Hrun)
      as (content & w' & url & type & Hsave & Hload & Hcap & Hcalls);
      [discriminate|].
    destruct D as [|written|]; [split; [reflexivity | now left]| |];
      unfold python; rewrite Hsave.
    - split; [reflexivity|]. right.
      exists self, (p :: rest), content, written.
      split; [reflexivity|]. split; [reflexivity|].
      split; [now rewrite Hrun|]. split; [discriminate|].
      split; [exact Hload | reflexivity].
    - exists self, (p :: rest), content, url, type.
      split; [exact (init_listed _ _ Hinit)|]. split; [reflexivity|].
      split; [now rewrite Hrun|]. split; [discriminate|].
      split; [exact Hcap|].
      split; [exact Hcalls|]. split; [reflexivity|].
      split; [reflexivity | exact Hload]. }
  split; [exact Hmain|].
  intros ->. clear Hmain. unfold _run_scraping.
  destruct (Targets.__init__ target) as [self|e] eqn:Hinit;
    [|split; reflexivity].
  destruct (scrape N self 0 s0) as [[products|e] s1] eqn:Hrun;
    [|split; reflexivity].
  destruct products as [|p rest]; cbn [is_empty_list]; [split; reflexivity|].
  exfalso.
  destruct (Hscrape self (p :: rest) s1 Hrun)
    as (_ & _ & _ & _ & _ & _ & Hcap & _); [discriminate|].
  specialize (Hcap (Z.le_refl 0)). cbn in Hcap. lia.
Qed.

Lemma run_scraping_finishes_only_with_products_witness :
  fst (fst (Main._run_scraping (Protocol.failing_at (fun _ => false))
              Main.Holds "books_toscrape" 0 Protocol.start))
  = Main.Exited 1
  /\ snd (Main._run_scraping (Protocol.failing_at (fun _ => false))
            Main.Holds "books_toscrape" 0 Protocol.start)
     = Main.Untouched.
Proof.
  pose proof (proj1 run_scraping_finishes_only_with_products
                (Protocol.failing_at (fun _ => false)) Main.Holds
                "books_toscrape" 0%Z Protocol.start) as H.
  destruct H as [_ H]. apply H. reflexivity.
Defined.

End ScrapingPhase.

(** ** The sample of the raw data *)

Section RawSample.

Import DataExtractor StealthScraper AIEnrichmentEngine Spec Scraped ShowOutput.

(** The stock information says what it was read from, unless nothing
    could be read. *)
Lemma recorded_stock (U : Unicode.database) (self : scraper) (idx : nat)
    (p : dict) :
  recorded U self idx p ->
  (exists line, sample_line (VDict p) = Ok line /\ stock_read p)
  \/ (sample_line (VDict p) = Raise KeyError /\ stock_unread p).
Proof.
  intros (name & price_text & rating_text & availability_text & url & ts
          & -> & _).
  unfold sample_line, stock_read, stock_unread, subscript, getitem.
  change (dict_get "name" (record U self idx name price_text rating_text
                                  availability_text url ts))
    with (Some (str name)).
  change (dict_get "price" (record U self idx name price_text rating_text
                                   availability_text url ts))
    with (Some (opt_float (extract_price U price_text))).
  change (dict_get "stock_info" (record U self idx name price_text
                                        rating_text availability_text url ts))
    with (Some (VDict (extract_stock_info U availability_text))).
  change (dict_get "source" (record U self idx name price_text rating_text
                                    availability_text url ts))
    with (Some (VStr (target_name self))).
  unfold extract_stock_info.
  destruct (absent availability_text).
  - right. split; reflexivity.
  - left. eexists. split; [reflexivity|].
    eexists. eexists. split; reflexivity.
Qed.

Lemma sample_lines (products : list dict) :
  Forall (fun p =>
            (exists line, sample_line (VDict p) = Ok line /\ stock_read p)
            \/ (sample_line (VDict p) = Raise KeyError /\ stock_unread p))
         products ->
  match mapR sample_line (map VDict products) with
  | Ok lines =>
      List.length lines = List.length products /\ Forall stock_read products
  | Raise e => e = KeyError /\ Exists stock_unread products
  end.
Proof.
  induction 1 as [|p rest Hp _ IH]; cbn [map mapR].
  - split; [reflexivity | constructor].
  - destruct Hp as [(line & -> & Hread) | [-> Hun]].
    + destruct (mapR sample_line (map VDict rest)) as [lines|e].
      * destruct IH as [Hlen Hall]. split; [cbn; congruence|].
        now constructor.
      * destruct IH as [-> Hex]. split; [reflexivity|].
        now apply Exists_cons_tl.
    + split; [reflexivity|]. now apply Exists_cons_hd.
Qed.

Lemma Forall_firstn {A} (P : A -> Prop) (l : list A) :
  Forall P l -> forall n, Forall P (firstn n l).
Proof.
  induction 1 as [|x r Hx _ IH]; intros [|n]; cbn; constructor; auto.
Qed.

(** X18.  The raw-data section of [show_output] depends on the first three
    products having been scraped with a readable availability text.  On
    the raw file the scraper wrote, it prints the two lines of metadata and
    one line for each of the first three products if each of them carries
    the text its stock information was read from; and it raises KeyError,
    which nothing there catches, as soon as one of the first three products
    was scraped without such a text (its stock information then has no
    [raw_text]). *)
Theorem show_raw_data_needs_availability_text :
  forall (E : externals) (self : scraper) (pg : page) (max_products : Z)
         (w w1 : world) (products : list dict),
    _extract_products E self pg max_products w = (Ok products, w1) ->
    forall (E' : externals) (w2 w3 : world) (content : list Json.token),
      RawFile.save_to_json Json.token_codec E' self products w2
      = (Ok content, w3) ->
      match show_raw_data Json.token_codec content with
      | Ok lines =>
          List.length lines = S (Nat.min 3 (List.length products))
          /\ Forall stock_read (firstn 3 products)
      | Raise e =>
          e = KeyError /\ Exists stock_unread (firstn 3 products)
      end.
Proof.
  intros E self pg max_products w w1 products Hx E' w2 w3 content Hsave.
  apply extract_products_recorded in Hx.
  destruct (save_to_json_content Json.token_codec E' self products w2)
    as (content' & w' & Hsave' & Hload).
  rewrite Hsave in Hsave'. injection Hsave' as <- _.
  unfold show_raw_data. rewrite (Hload token_codec_round_trip).
  cbn [subscript getitem dict_get String.eqb Ascii.eqb Bool.eqb first_three].
  rewrite firstn_map.
  pose proof (Forall_firstn _ _ Hx 3) as Hthree.
  assert (Hcases :
    Forall (fun p =>
              (exists line, sample_line (VDict p) = Ok line /\ stock_read p)
              \/ (sample_line (VDict p) = Raise KeyError /\ stock_unread p))
           (firstn 3 products)).
  { eapply Forall_impl; [|exact Hthree].
    intros p [idx Hr]. exact (recorded_stock _ self idx p Hr). }
  pose proof (sample_lines _ Hcases) as Hlines. revert Hlines.
  unfold dict in *.
  destruct (mapR sample_line (map VDict (firstn 3 products))) as [lines|e];
    [|trivial].
  intros [Hlen Hall]. split; [|exact Hall].
  cbn [List.length]. rewrite Hlen, length_firstn. reflexivity.
Qed.

Lemma show_raw_data_needs_availability_text_witness :
  match
    ShowOutput.show_raw_data Json.token_codec
      (Json.write
         (VDict
            [("metadata",
              VDict [("target", VStr "ebay_laptops");
                     ("total_products", VInt 1);
                     ("scraped_at", VStr "1")]);
             ("products",
              VList
                [VDict
                   (Scraped.record Unicode.sample
                      (StealthScraper.mkScraper "ebay_laptops"
                                                Targets.ebay_laptops)
                      0 "N/A" "N/A" "N/A" "N/A"
                      (VStr "https://www.ebay.com/b/Laptops-Netbooks/175672/bn_1648276")
                      "0")])]))
  with
  | Ok lines =>
      List.length lines
      = S (Nat.min 3
             (List.length
                [Scraped.record Unicode.sample
                   (StealthScraper.mkScraper "ebay_laptops"
                                             Targets.ebay_laptops)
                   0 "N/A" "N/A" "N/A" "N/A"
                   (VStr "https://www.ebay.com/b/Laptops-Netbooks/175672/bn_1648276")
                   "0"]))
      /\ Forall Scraped.stock_read
                (firstn 3
                   [Scraped.record Unicode.sample
                      (StealthScraper.mkScraper "ebay_laptops"
                                                Targets.ebay_laptops)
                      0 "N/A" "N/A" "N/A" "N/A"
                      (VStr "https://www.ebay.com/b/Laptops-Netbooks/175672/bn_1648276")
                      "0"])
  | Raise e =>
      e = KeyError
      /\ Exists Scraped.stock_unread
                (firstn 3
                   [Scraped.record Unicode.sample
                      (StealthScraper.mkScraper "ebay_laptops"
                                                Targets.ebay_laptops)
                      0 "N/A" "N/A" "N/A" "N/A"
                      (VStr "https://www.ebay.com/b/Laptops-Netbooks/175672/bn_1648276")
                      "0"])
  end.
Proof.
  apply (show_raw_data_needs_availability_text Scraped.offline
           (StealthScraper.mkScraper "ebay_laptops" Targets.ebay_laptops)
           (fun _ => Ok [fun _ => NoMatch]) 50
           (mkWorld 0 []) (mkWorld 1 [])
           [Scraped.record Unicode.sample
              (StealthScraper.mkScraper "ebay_laptops" Targets.ebay_laptops)
              0 "N/A" "N/A" "N/A" "N/A"
              (VStr "https://www.ebay.com/b/Laptops-Netbooks/175672/bn_1648276")
              "0"])
    with (E' := Scraped.offline) (w2 := mkWorld 1 []) (w3 := mkWorld 2 []).
  - vm_compute. reflexivity.
  - vm_compute. reflexivity.
Defined.

End RawSample.

(** ** The price statistics *)

Section PriceStatistics.

Import AIEnrichmentEngine Spec.

Ltac order_cases3 ex ey ez mx my mz :=
  change (Pos.compare_cont Eq mx my) with (Pos.compare mx my) in *;
  change (Pos.compare_cont Eq my mz) with (Pos.compare my mz) in *;
  change (Pos.compare_cont Eq mx mz) with (Pos.compare mx mz) in *;
  destruct (Z.compare_spec ex ey), (Z.compare_spec ey ez),
           (Z.compare_spec ex ez);
  try lia; try discriminate; try reflexivity;
  destruct (Pos.compare_spec mx my), (Pos.compare_spec my mz),
           (Pos.compare_spec mx mz);
  simpl in *; try lia; try discriminate; try reflexivity.

Lemma SFltb_trans (x y z : spec_float) :
  SFltb x y = true -> SFltb y z = true -> SFltb x z = true.
Proof.
  unfold SFltb.
  destruct x as [sx|sx| |sx mx ex], y as [sy|sy| |sy my ey],
           z as [sz|sz| |sz mz ez]; simpl;
    try discriminate; try reflexivity;
    repeat match goal with s : bool |- _ => destruct s end;
    simpl; try discriminate; try reflexivity; intros H1 H2;
    order_cases3 ex ey ez mx my mz.
Qed.

Lemma float_ltb_trans (x y z : float) :
  (x <? y)%float = true -> (y <? z)%float = true -> (x <? z)%float = true.
Proof. rewrite !ltb_spec. apply SFltb_trans. Qed.

Lemma float_ltb_irrefl (x : float) : (x <? x)%float = false.
Proof.
  rewrite ltb_spec. unfold SFltb.
  pose proof (SFcompare_antisym (Prim2SF x) (Prim2SF x)) as Ha.
  destruct (SFcompare (Prim2SF x) (Prim2SF x)) as [[ | | ]|];
    trivial; discriminate.
Qed.

Lemma num_ltb_floats (a b : float) :
  Num.num_ltb (Num.NFloat a) (Num.NFloat b) = (a <? b)%float.
Proof. rewrite ltb_spec. reflexivity. Qed.

(** [min] keeps one of the items, below which no item lies. *)
Lemma py_min_floats (rest : list float) :
  forall (cur : float) (seen : list float),
    In cur seen ->
    (forall y, In y seen -> (y <? cur)%float = false) ->
    exists lo,
      fold_left (fun cur item => if Num.num_ltb item cur then item else cur)
                (map Num.NFloat rest) (Num.NFloat cur)
      = Num.NFloat lo
      /\ In lo (seen ++ rest)%list
      /\ forall y, In y (seen ++ rest)%list -> (y <? lo)%float = false.
Proof.
  induction rest as [|item rest IH]; intros cur seen Hin Hlow.
  - exists cur. rewrite app_nil_r. auto.
  - cbn [map fold_left]. rewrite num_ltb_floats.
    destruct (item <? cur)%float eqn:Hlt.
    + destruct (IH item (seen ++ [item])%list) as (lo & Hlo & Hmem & Hall).
      * apply in_or_app. right. now left.
      * intros y Hy. apply in_app_or in Hy. destruct Hy as [Hy|[<-|[]]].
        -- destruct (y <? item)%float eqn:Hyi; trivial.
           pose proof (Hlow y Hy) as Hyc.
           rewrite (float_ltb_trans _ _ _ Hyi Hlt) in Hyc. discriminate.
        -- apply float_ltb_irrefl.
      * exists lo. rewrite <- app_assoc in Hmem, Hall. auto.
    + destruct (IH cur (seen ++ [item])%list) as (lo & Hlo & Hmem & Hall).
      * apply in_or_app. now left.
      * intros y Hy. apply in_app_or in Hy. destruct Hy as [Hy|[<-|[]]];
          auto.
      * exists lo. rewrite <- app_assoc in Hmem, Hall. auto.
Qed.

(** [max] keeps one of the items, above which no item lies. *)
Lemma py_max_floats (rest : list float) :
  forall (cur : float) (seen : list float),
    In cur seen ->
    (forall y, In y seen -> (cur <? y)%float = false) ->
    exists hi,
      fold_left (fun cur item => if Num.num_ltb cur item then item else cur)
                (map Num.NFloat rest) (Num.NFloat cur)
      = Num.NFloat hi
      /\ In hi (seen ++ rest)%list
      /\ forall y, In y (seen ++ rest)%list -> (hi <? y)%float = false.
Proof.
  induction rest as [|item rest IH]; intros cur seen Hin Hhigh.
  - exists cur. rewrite app_nil_r. auto.
  - cbn [map fold_left]. rewrite num_ltb_floats.
    destruct (cur <? item)%float eqn:Hlt.
    + destruct (IH item (seen ++ [item])%list) as (hi & Hhi & Hmem & Hall).
      * apply in_or_app. right. now left.
      * intros y Hy. apply in_app_or in Hy. destruct Hy as [Hy|[<-|[]]].
        -- destruct (item <? y)%float eqn:Hiy; trivial.
           pose proof (Hhigh y Hy) as Hyc.
           rewrite (float_ltb_trans _ _ _ Hlt Hiy) in Hyc. discriminate.
        -- apply float_ltb_irrefl.
      * exists hi. rewrite <- app_assoc in Hmem, Hall. auto.
    + destruct (IH cur (seen ++ [item])%list) as (hi & Hhi & Hmem & Hall).
      * apply in_or_app. now left.
      * intros y Hy. apply in_app_or in Hy. destruct Hy as [Hy|[<-|[]]];
          auto.
      * exists hi. rewrite <- app_assoc in Hmem, Hall. auto.
Qed.

Lemma float_prices_listed (valid : list dict) (fs : list float) :
  mapR (getitem "price") valid = Ok (map VFloat fs) ->
  forall f, In f fs ->
            Exists (fun p => dict_get "price" p = Some (VFloat f)) valid.
Proof.
  revert fs. induction valid as [|p rest IH]; intros fs H f Hin.
  - cbn in H. destruct fs; [destruct Hin | discriminate].
  - cbn [mapR] in H. unfold getitem at 1 in H.
    destruct (dict_get "price" p) as [v|] eqn:Hv; [|discriminate].
    destruct (mapR (getitem "price") rest) as [vs|] eqn:Hrest; [|discriminate].
    destruct fs as [|f0 fs]; [destruct Hin|].
    injection H as -> ->. destruct Hin as [<-|Hin].
    + now apply Exists_cons_hd.
    + apply Exists_cons_tl. exact (IH fs eq_refl f Hin).
Qed.

Lemma float_prices_all (valid : list dict) (fs : list float) :
  mapR (getitem "price") valid = Ok (map VFloat fs) ->
  Forall (fun p => exists f, dict_get "price" p = Some (VFloat f) /\ In f fs)
         valid.
Proof.
  revert fs. induction valid as [|p rest IH]; intros fs H; [constructor|].
  cbn [mapR] in H. unfold getitem at 1 in H.
  destruct (dict_get "price" p) as [v|] eqn:Hv; [|discriminate].
  destruct (mapR (getitem "price") rest) as [vs|] eqn:Hrest; [|discriminate].
  destruct fs as [|f0 fs]; [discriminate|].
  injection H as -> ->. constructor.
  - exists f0. split; [exact Hv | now left].
  - eapply Forall_impl; [|exact (IH fs eq_refl)].
    intros q (f & Hf & Hin). exists f. split; [exact Hf | now right].
Qed.

(** X19.  Over float prices the statistics bound the prices: the minimum
    and the maximum handed to the prompt are each the price of one of the
    products, no product is priced below the minimum and none above the
    maximum. *)
Theorem price_statistics_bound_the_prices :
  forall (valid : list dict) (w w' : world) (stats : price_stats),
    Forall (fun p => exists f, dict_get "price" p = Some (VFloat f)) valid ->
    compute_stats valid w = (Ok stats, w') ->
    exists lo hi,
      stat_min stats = Num.NFloat lo /\ stat_max stats = Num.NFloat hi
      /\ Exists (fun p => dict_get "price" p = Some (VFloat lo)) valid
      /\ Exists (fun p => dict_get "price" p = Some (VFloat hi)) valid
      /\ Forall (fun p => exists f,
                   dict_get "price" p = Some (VFloat f)
                   /\ (f <? lo)%float = false /\ (hi <? f)%float = false)
                valid.
Proof.
  intros valid w w' stats Hall Hstats.
  destruct (float_prices valid Hall) as (fs & Hfs & Hlen).
  unfold compute_stats, Py.bind, lift in Hstats.
  rewrite Hfs, float_nums in Hstats.
  destruct fs as [|f0 fs]; [discriminate|]. cbn [map] in Hstats.
  destruct (Num.py_sum (Num.NFloat f0 :: map Num.NFloat fs)) as [total|e];
    [|discriminate].
  destruct (Num.div_by_len total _) as [avg|e]; [|discriminate].
  unfold ret in Hstats. injection Hstats as <- _.
  destruct (py_min_floats fs f0 [f0]) as (lo & Hlo & Hlomem & Hlow).
  { now left. }
  { intros y [<-|[]]. apply float_ltb_irrefl. }
  destruct (py_max_floats fs f0 [f0]) as (hi & Hhi & Hhimem & Hhigh).
  { now left. }
  { intros y [<-|[]]. apply float_ltb_irrefl. }
  exists lo, hi. cbn [stat_min stat_max]. unfold Num.py_min, Num.py_max.
  split; [exact Hlo|]. split; [exact Hhi|].
  split; [exact (float_prices_listed _ _ Hfs lo Hlomem)|].
  split; [exact (float_prices_listed _ _ Hfs hi Hhimem)|].
  eapply Forall_impl; [|exact (float_prices_all _ _ Hfs)].
  intros p (f & Hf & Hin). exists f.
  split; [exact Hf|]. split; [exact (Hlow f Hin) | exact (Hhigh f Hin)].
Qed.

Lemma price_statistics_bound_the_prices_witness :
  exists lo hi,
    Num.NFloat 10 = Num.NFloat lo /\ Num.NFloat 30 = Num.NFloat hi
    /\ Exists (fun p => dict_get "price" p = Some (VFloat lo))
              [Spec.priced_product "a" "x" 20 VNone;
               Spec.priced_product "b" "y" 10 VNone;
               Spec.priced_product "c" "z" 30 VNone]
    /\ Exists (fun p => dict_get "price" p = Some (VFloat hi))
              [Spec.priced_product "a" "x" 20 VNone;
               Spec.priced_product "b" "y" 10 VNone;
               Spec.priced_product "c" "z" 30 VNone]
    /\ Forall (fun p => exists f,
                 dict_get "price" p = Some (VFloat f)
                 /\ (f <? lo)%float = false /\ (hi <? f)%float = false)
              [Spec.priced_product "a" "x" 20 VNone;
               Spec.priced_product "b" "y" 10 VNone;
               Spec.priced_product "c" "z" 30 VNone].
Proof.
  apply (price_statistics_bound_the_prices
           [Spec.priced_product "a" "x" 20 VNone;
            Spec.priced_product "b" "y" 10 VNone;
            Spec.priced_product "c" "z" 30 VNone]
           (mkWorld 0 []) (mkWorld 0 [])
           (AIEnrichmentEngine.mkStats (Num.NFloat 10) (Num.NFloat 30) 20)).
  - repeat constructor; eexists; reflexivity.
  - vm_compute. reflexivity.
Defined.

End PriceStatistics.

(** ** Scrolling and moving the pointer *)

Section HumanLike.

Import HumanActions.

Lemma scroll_amounts_app (a b : list action) :
  scroll_amounts (a ++ b) = (scroll_amounts a ++ scroll_amounts b)%list.
Proof.
  induction a as [|[amount|x y|d] a IH]; cbn; trivial. now rewrite IH.
Qed.

Lemma total_app (a b : list Z) : total (a ++ b) = (total a + total b)%Z.
Proof.
  unfold total. induction a as [|x a IH]; cbn; [reflexivity|].
  rewrite IH. lia.
Qed.

(** One pass scrolls once, by an amount within the configured bounds, and
    sleeps once. *)
Lemma scroll_step_run (L : library) (config : dict) (lo hi : Z)
    (dlo dhi : value) (s : state) :
  randint_in_range L ->
  getitem "scroll_amount_min" config = Ok (VInt lo) ->
  getitem "scroll_amount_max" config = Ok (VInt hi) ->
  getitem "scroll_delay_min" config = Ok dlo ->
  getitem "scroll_delay_max" config = Ok dhi ->
  pause_sleeps L dlo dhi ->
  (lo <= hi)%Z ->
  exists z d,
    scroll_step L config s
    = (Ok tt, mkState (S (S (draws s)))
                      (actions s ++ [ScrollBy z; Sleep d])%list)
    /\ (lo <= z <= hi)%Z.
Proof.
  intros Hrand Hlo Hhi Hdlo Hdhi Hpause Hle.
  destruct (Hrand lo hi (draws s) Hle) as (z & Hz & Hrange).
  destruct (Hpause (S (draws s))) as (d & Hd & Hsleep).
  exists z, d. split; [|exact Hrange].
  unfold scroll_step, bind, lift, py_randint, py_uniform, py_sleep, act.
  rewrite Hlo, Hhi. cbn. rewrite Hz, Hdlo, Hdhi. cbn.
  rewrite Hd, Hsleep. cbn. now rewrite <- app_assoc.
Qed.

Lemma times_do_scroll (L : library) (config : dict) (lo hi : Z)
    (dlo dhi : value) :
  randint_in_range L ->
  getitem "scroll_amount_min" config = Ok (VInt lo) ->
  getitem "scroll_amount_max" config = Ok (VInt hi) ->
  getitem "scroll_delay_min" config = Ok dlo ->
  getitem "scroll_delay_max" config = Ok dhi ->
  pause_sleeps L dlo dhi ->
  (lo <= hi)%Z ->
  forall (n : nat) (s : state),
    exists new,
      times_do n (scroll_step L config) s
      = (Ok tt, mkState (draws s + 2 * n) (actions s ++ new)%list)
      /\ List.length new = (2 * n)%nat
      /\ List.length (scroll_amounts new) = n
      /\ Forall (fun a => (lo <= a <= hi)%Z) (scroll_amounts new)
      /\ (Z.of_nat n * lo <= total (scroll_amounts new) <= Z.of_nat n * hi)%Z.
Proof.
  intros Hrand Hlo Hhi Hdlo Hdhi Hpause Hle.
  induction n as [|n IH]; intros s.
  - exists []. cbn. rewrite app_nil_r, Nat.add_0_r.
    destruct s as [k acts]. cbn. repeat split; trivial; lia.
  - destruct (scroll_step_run L config lo hi dlo dhi s
                Hrand Hlo Hhi Hdlo Hdhi Hpause Hle) as (z & d & Hstep & Hz).
    cbn [times_do]. unfold bind at 1. rewrite Hstep.
    destruct (IH (mkState (S (S (draws s)))
                          (actions s ++ [ScrollBy z; Sleep d])%list))
      as (new & Hrun & Hlen & Hcount & Hall & Hsum).
    exists (ScrollBy z :: Sleep d :: new). cbn [draws actions] in Hrun.
    rewrite Hrun.
    split; [|split; [|split; [|split]]].
    + f_equal. f_equal; [lia|]. now rewrite <- app_assoc.
    + cbn [List.length]. lia.
    + cbn [scroll_amounts List.length]. now rewrite Hcount.
    + cbn [scroll_amounts]. now constructor.
    + cbn [scroll_amounts]. unfold total in *. cbn [fold_right]. lia.
Qed.

(** X20.  [human_scroll] scrolls as often as it is told and as far as it
    is configured.  With a library whose [randint] keeps to its bounds,
    and a configuration whose amount bounds are integers [lo <= hi] and
    whose pauses can be slept, [human_scroll(times)] returns after exactly
    [max(times, 0)] scrolls, each followed by one pause; every scroll is by
    at least [lo] and at most [hi], so that the page has been scrolled by
    between [n * lo] and [n * hi] in all.  With bounds [hi < lo] and
    [0 < times] it raises the ValueError of [randint] before anything was
    done to the page. *)
Theorem human_scroll_keeps_to_the_configured_amounts :
  forall (L : library) (config : dict) (lo hi : Z) (dlo dhi : value)
         (times : Z) (s : state),
    getitem "scroll_amount_min" config = Ok (VInt lo) ->
    getitem "scroll_amount_max" config = Ok (VInt hi) ->
    getitem "scroll_delay_min" config = Ok dlo ->
    getitem "scroll_delay_max" config = Ok dhi ->
    (randint_in_range L -> pause_sleeps L dlo dhi -> (lo <= hi)%Z ->
     exists new,
       human_scroll L config times s
       = (Ok tt, mkState (draws s + 2 * Z.to_nat times)
                         (actions s ++ new)%list)
       /\ List.length new = (2 * Z.to_nat times)%nat
       /\ List.length (scroll_amounts new) = Z.to_nat times
       /\ Forall (fun a => (lo <= a <= hi)%Z) (scroll_amounts new)
       /\ (Z.max times 0 * lo <= total (scroll_amounts new)
           <= Z.max times 0 * hi)%Z)
    /\ (randint_empty_range L -> (hi < lo)%Z -> (0 < times)%Z ->
        human_scroll L config times s
        = (Raise ValueError, mkState (S (draws s)) (actions s))).
Proof.
  intros L config lo hi dlo dhi times s Hlo Hhi Hdlo Hdhi. split.
  - intros Hrand Hpause Hle.
    destruct (times_do_scroll L config lo hi dlo dhi
                Hrand Hlo Hhi Hdlo Hdhi Hpause Hle (Z.to_nat times) s)
      as (new & Hrun & Hlen & Hcount & Hall & Hsum).
    exists new. unfold human_scroll.
    split; [exact Hrun|]. split; [exact Hlen|]. split; [exact Hcount|].
    split; [exact Hall|].
    replace (Z.max times 0) with (Z.of_nat (Z.to_nat times)) by lia.
    exact Hsum.
  - intros Hempty Hlt Hpos. unfold human_scroll.
    destruct (Z.to_nat times) as [|n] eqn:Hn; [lia|].
    cbn [times_do]. unfold bind at 1, scroll_step, bind, lift, py_randint.
    rewrite Hlo, Hhi. cbn. now rewrite (Hempty lo hi (draws s) Hlt).
Qed.

Lemma human_scroll_keeps_to_the_configured_amounts_witness :
  exists new,
    HumanActions.human_scroll HumanActions.lowest
      HumanActions.BEHAVIOR_CONFIG 3 (HumanActions.mkState 0 [])
    = (Ok tt, HumanActions.mkState (0 + 2 * Z.to_nat 3) ([] ++ new)%list)
    /\ List.length new = (2 * Z.to_nat 3)%nat
    /\ List.length (HumanActions.scroll_amounts new) = Z.to_nat 3
    /\ Forall (fun a => (200 <= a <= 600)%Z)
              (HumanActions.scroll_amounts new)
    /\ (Z.max 3 0 * 200 <= HumanActions.total (HumanActions.scroll_amounts new)
        <= Z.max 3 0 * 600)%Z.
Proof.
  apply (proj1 (human_scroll_keeps_to_the_configured_amounts
                  HumanActions.lowest HumanActions.BEHAVIOR_CONFIG
                  200 600 (VFloat 0.8) (VFloat 2.5) 3
                  (HumanActions.mkState 0 [])
                  eq_refl eq_refl eq_refl eq_refl)).
  - intros lo hi k Hle. exists lo. cbn.
    destruct (hi <? lo)%Z eqn:Hlt; [lia|]. split; [reflexivity | lia].
  - intros k. exists 0.8%float. split; reflexivity.
  - lia.
Defined.

(** X21.  [random_mouse_movement] keeps the pointer inside the viewport,
    a hundred pixels from every edge, and needs a viewport of at least 200
    by 200 for that.  With a library whose [randint] keeps to its bounds
    and raises ValueError on an empty range: when movement is enabled and
    the viewport is [w] by [h] with [200 <= w] and [200 <= h], the pointer
    is moved once, to a point with [100 <= x <= w - 100] and
    [100 <= y <= h - 100], and one pause follows; when [w < 200] or
    [h < 200] the call raises ValueError and the pointer is not moved.
    When movement is disabled nothing happens at all. *)
Theorem mouse_stays_inside_the_viewport :
  forall (L : library) (config : dict) (w h : Z) (s : state),
    randint_in_range L ->
    randint_empty_range L ->
    pause_sleeps L (VFloat 0.1) (VFloat 0.3) ->
    let viewport := VDict [("width", VInt w); ("height", VInt h)] in
    let enabled := match dict_get "mouse_movement_enabled" config with
                   | Some v => truthy v
                   | None => true
                   end in
    (enabled = true -> (200 <= w)%Z -> (200 <= h)%Z ->
     exists x y d,
       random_mouse_movement L config viewport s
       = (Ok tt, mkState (draws s + 3)
                         (actions s ++ [MouseMove x y; Sleep d])%list)
       /\ (100 <= x <= w - 100)%Z /\ (100 <= y <= h - 100)%Z)
    /\ (enabled = true -> (w < 200 \/ h < 200)%Z ->
        exists s',
          random_mouse_movement L config viewport s = (Raise ValueError, s')
          /\ actions s' = actions s)
    /\ (enabled = false ->
        random_mouse_movement L config viewport s = (Ok tt, s)).
Proof.
  intros L config w h s Hrand Hempty Hpause viewport enabled.
  assert (Hen : truthy (match dict_get "mouse_movement_enabled" config with
                        | Some v => v
                        | None => VBool true
                        end) = enabled).
  { unfold enabled. destruct (dict_get "mouse_movement_enabled" config);
      reflexivity. }
  split; [|split].
  - intros Henabled Hw Hh.
    destruct (Hrand 100%Z (w - 100)%Z (draws s)) as (x & Hx & Hxr); [lia|].
    destruct (Hrand 100%Z (h - 100)%Z (S (draws s))) as (y & Hy & Hyr); [lia|].
    destruct (Hpause (S (S (draws s)))) as (d & Hd & Hsleep).
    exists x, y, d. split; [|split; [exact Hxr | exact Hyr]].
    unfold random_mouse_movement. rewrite Hen, Henabled.
    unfold viewport, bind, lift, py_randint, py_uniform, py_sleep, act. cbn.
    rewrite Hx. cbn. rewrite Hy. cbn. rewrite Hd, Hsleep. cbn.
    rewrite <- app_assoc. do 2 f_equal. lia.
  - intros Henabled Hsmall.
    unfold random_mouse_movement. rewrite Hen, Henabled.
    unfold viewport, bind, lift, py_randint, py_uniform, py_sleep, act. cbn.
    destruct (Z_lt_le_dec w 200) as [Hw|Hw].
    + rewrite (Hempty 100%Z (w - 100)%Z (draws s)) by lia.
      eexists. split; reflexivity.
    + destruct (Hrand 100%Z (w - 100)%Z (draws s)) as (x & Hx & _); [lia|].
      rewrite Hx. cbn.
      rewrite (Hempty 100%Z (h - 100)%Z (S (draws s))) by lia.
      eexists. split; reflexivity.
  - intros Hdisabled.
    unfold random_mouse_movement. now rewrite Hen, Hdisabled.
Qed.

Lemma mouse_stays_inside_the_viewport_witness :
  exists x y d,
    HumanActions.random_mouse_movement HumanActions.lowest
      HumanActions.BEHAVIOR_CONFIG
      (VDict [("width", VInt 1920); ("height", VInt 1080)])
      (HumanActions.mkState 0 [])
    = (Ok tt, HumanActions.mkState (0 + 3)
                ([] ++ [HumanActions.MouseMove x y; HumanActions.Sleep d])%list)
    /\ (100 <= x <= 1920 - 100)%Z /\ (100 <= y <= 1080 - 100)%Z.
Proof.
  assert (Hrand : HumanActions.randint_in_range HumanActions.lowest).
  { intros lo hi k Hle. exists lo. cbn.
    destruct (hi <? lo)%Z eqn:Hlt; [lia|]. split; [reflexivity | lia]. }
  assert (Hempty : HumanActions.randint_empty_range HumanActions.lowest).
  { intros lo hi k Hlt. cbn.
    destruct (hi <? lo)%Z eqn:Hc; [reflexivity | lia]. }
  assert (Hpause : HumanActions.pause_sleeps HumanActions.lowest
                     (VFloat 0.1) (VFloat 0.3)).
  { intros k. exists 0.1%float. split; reflexivity. }
  apply (proj1 (mouse_stays_inside_the_viewport HumanActions.lowest
                  HumanActions.BEHAVIOR_CONFIG 1920 1080
                  (HumanActions.mkState 0 []) Hrand Hempty Hpause));
    [reflexivity | lia | lia].
Defined.

End HumanLike.

(** ** The tally during an outage of the provider *)

Section Outage.

Import AIEnrichmentEngine EnrichedOutput Spec Observed Tally.

(** While the provider is down a batch is what the rule gives. *)
Lemma enrich_batch_outage (E : externals) (stats : price_stats)
    (batch : list dict) (w : world) :
  (forall n, attempt_fails E n) ->
  Forall has_summary batch ->
  Forall numeric_price batch ->
  exists out w',
    _enrich_batch E batch stats w = (Ok out, w')
    /\ Forall2 (rule_based (stat_avg stats) rule_based_reasoning) batch out.
Proof.
  intros Hfail Hsum Hnum.
  destruct (forall_mapR_ok _ _ Hsum) as [summary Hs].
  unfold _enrich_batch. unfold Py.bind at 1. unfold lift at 1. rewrite Hs.
  set (prompt := render_prompt E summary (stat_min stats) (stat_max stats)
                               (stat_avg stats)).
  match goal with
  | |- context [try_except ?b _] => set (body := b)
  end.
  assert (Hbody : exists e,
    body w = (Raise e, mkWorld (ticks w) (llm_calls w ++ [prompt])%list)).
  { subst body. unfold Py.bind at 1. unfold _call_llm at 1.
    specialize (Hfail (List.length (llm_calls w)) prompt).
    destruct (complete E (List.length (llm_calls w)) prompt) as [text|e].
    - destruct Hfail as [e He]. exists e.
      unfold Py.bind at 1. unfold lift at 1. now rewrite He.
    - now exists e. }
  destruct Hbody as [e Hbody].
  destruct (enrich_batch_handler E stats batch summary w _ e body Hs Hnum Hbody)
    as (out & Hout & Hrules & _).
  exists out. eexists. split; [exact Hout | exact Hrules].
Qed.

Lemma enrich_batches_outage (E : externals) (stats : price_stats)
    (bs : list (list dict)) :
  (forall n, attempt_fails E n) ->
  Forall (Forall has_summary) bs ->
  Forall (Forall numeric_price) bs ->
  forall (acc : list dict) (w : world),
    exists out w',
      enrich_batches E stats bs acc w = (Ok (acc ++ out)%list, w')
      /\ Forall2 (rule_based (stat_avg stats) rule_based_reasoning)
                 (List.concat bs) out.
Proof.
  intros Hfail. induction bs as [|batch rest IH]; intros Hsum Hnum acc w.
  - exists [], w. cbn. rewrite app_nil_r. split; [reflexivity | constructor].
  - inversion Hsum as [|b1 r1 Hs1 Hsr]; subst.
    inversion Hnum as [|b2 r2 Hn1 Hnr]; subst.
    destruct (enrich_batch_outage E stats batch w Hfail Hs1 Hn1)
      as (out1 & w1 & Hrun1 & Hrules1).
    destruct (IH Hsr Hnr (acc ++ out1)%list w1)
      as (out2 & w2 & Hrun2 & Hrules2).
    exists (out1 ++ out2)%list, w2. cbn [enrich_batches]. unfold Py.bind.
    rewrite Hrun1, Hrun2, <- app_assoc. split; [reflexivity|].
    cbn [List.concat]. now apply Forall2_app.
Qed.

Lemma Forall2_filter_length {A B} (R : A -> B -> Prop) (f : A -> bool)
    (g : B -> bool) (l : list A) (l' : list B) :
  (forall x y, R x y -> f x = g y) ->
  Forall2 R l l' ->
  List.length (filter g l') = List.length (filter f l).
Proof.
  intros Hfg. induction 1 as [|x y l l' Hxy _ IH]; cbn; trivial.
  rewrite (Hfg x y Hxy). destruct (g y); cbn; congruence.
Qed.

Lemma filter_none {A} (f : A -> bool) (l : list A) :
  Forall (fun x => f x = false) l -> filter f l = [].
Proof. induction 1 as [|x l Hx _ IH]; cbn; [|rewrite Hx]; trivial. Qed.

Lemma filter_every {A} (f : A -> bool) (l : list A) :
  Forall (fun x => f x = true) l -> filter f l = l.
Proof.
  induction 1 as [|x l Hx _ IH]; cbn; [|rewrite Hx, IH]; trivial.
Qed.

Lemma rule_based_category (avg : float) (reasoning : string) (p e : dict) :
  rule_based avg reasoning p e ->
  exists price,
    Num.as_num (price_value p) = Ok price
    /\ category_of e = VStr (category_label (tier price avg)).
Proof.
  intros (price & Hprice & Hcat & _). exists price.
  split; [exact Hprice|]. unfold category_of. now rewrite Hcat.
Qed.

Lemma rule_based_categories (avg : float) (reasoning : string)
    (l l' : list dict) :
  Forall2 (rule_based avg reasoning) l l' ->
  Forall (fun e => exists c, category_of e = VStr (category_label c)) l'.
Proof.
  induction 1 as [|p e l l' Hpe _ IH]; constructor; trivial.
  destruct (rule_based_category _ _ _ _ Hpe) as (price & _ & Hc).
  eexists. exact Hc.
Qed.

Lemma label_eqb (c t : category) :
  String.eqb (category_label c) (category_label t) = category_eqb t c.
Proof. destruct c, t; reflexivity. Qed.

(** X22.  While the provider is down, the category distribution is the
    price rule's own tally.  If every provider call of the run fails (or
    answers no JSON), the priced products have the four fields of the
    summary, the unpriced ones carry no category, and the statistics can
    be computed, then [categorize_products] returns, the distribution
    [save_enriched_data] computes from its result exists, and in it each of
    "Budget", "Mid Range" and "High End" counts exactly the priced products
    the rule puts into that tier, "Unknown" counts exactly the unpriced
    products, and the counts add up to the number of products. *)
Theorem outage_distribution_is_the_rules_tally :
  forall (E : externals) (products : list dict) (stats : price_stats)
         (w w1 : world),
    (forall n, attempt_fails E n) ->
    Forall has_summary (filter is_priced products) ->
    Forall (fun p => dict_get "ai_category" p = None)
           (filter unpriced products) ->
    compute_stats (filter is_priced products) w = (Ok stats, w1) ->
    exists out w' dist,
      categorize_products E products w = (Ok out, w')
      /\ category_distribution out = Ok dist
      /\ (forall c,
            count_get (VStr (category_label c)) dist
            = count (in_tier (stat_avg stats) c) (filter is_priced products))
      /\ count_get (VStr "Unknown") dist = count unpriced products
      /\ total_count dist = Z.of_nat (List.length products).
Proof.
  intros E products stats w w1 Hfail Hsum Hnocat Hstats.
  pose proof (compute_stats_numeric _ _ _ _ Hstats) as Hnum.
  destruct (enrich_batches_outage E stats (batches (filter is_priced products))
              Hfail (forall_batches _ _ Hsum) (forall_batches _ _ Hnum) [] w1)
    as (enriched & w' & Hrun & Hrules).
  rewrite concat_batches in Hrules. cbn [app] in Hrun.
  assert (Hout : categorize_products E products w
                 = (Ok (enriched ++ filter unpriced products)%list, w')).
  { unfold categorize_products.
    destruct (filter is_priced products) as [|p0 valid] eqn:Hvalid.
    - unfold compute_stats, Py.bind, lift in Hstats. cbn in Hstats.
      discriminate.
    - unfold Py.bind. rewrite Hstats, Hrun. reflexivity. }
  set (out := (enriched ++ filter unpriced products)%list) in *.
  assert (Hcats : Forall (fun p => exists s, category_of p = VStr s) out).
  { apply Forall_app. split.
    - eapply Forall_impl; [|exact (rule_based_categories _ _ _ _ Hrules)].
      intros e [c Hc]. eexists. exact Hc.
    - eapply Forall_impl; [|exact Hnocat].
      intros p Hp. exists "Unknown". unfold category_of. now rewrite Hp. }
  pose proof (count_categories_spec out []) as Hspec.
  unfold category_distribution.
  destruct (count_categories [] out) as [dist|e] eqn:Hdist.
  2:{ destruct Hspec as [_ Hex]. exfalso.
      apply Exists_exists in Hex. destruct Hex as (p & Hin & Hbad).
      rewrite Forall_forall in Hcats. destruct (Hcats p Hin) as [s Hs].
      rewrite Hs in Hbad. discriminate. }
  destruct Hspec as (Htotal & Hcount & _).
  exists out, w', dist. split; [exact Hout|]. split; [exact Hdist|].
  assert (Hunpriced : Forall (fun p => category_of p = VStr "Unknown")
                             (filter unpriced products)).
  { eapply Forall_impl; [|exact Hnocat].
    intros p Hp. unfold category_of. now rewrite Hp. }
  split; [|split].
  - intros c. rewrite Hcount. cbn [count_get]. unfold count, out.
    rewrite filter_app, length_app.
    rewrite (filter_none _ (filter unpriced products)).
    + cbn [List.length]. rewrite Nat.add_0_r, Z.add_0_l. f_equal.
      apply (Forall2_filter_length
               (rule_based (stat_avg stats) rule_based_reasoning)).
      * intros p e Hpe.
        destruct (rule_based_category _ _ _ _ Hpe) as (price & Hprice & Hc).
        unfold in_tier. rewrite Hprice, Hc. cbn [key_eqb].
        symmetry. apply label_eqb.
      * exact Hrules.
    + eapply Forall_impl; [|exact Hunpriced].
      intros p Hp. rewrite Hp. now destruct c.
  - rewrite Hcount. cbn [count_get]. unfold count, out.
    rewrite filter_app, length_app.
    rewrite (filter_none _ enriched), (filter_every _ (filter unpriced products)).
    + cbn [List.length]. rewrite Z.add_0_l. reflexivity.
    + eapply Forall_impl; [|exact Hunpriced].
      intros p Hp. now rewrite Hp.
    + eapply Forall_impl; [|exact (rule_based_categories _ _ _ _ Hrules)].
      intros e [c Hc]. rewrite Hc. now destruct c.
  - rewrite Htotal. cbn [total_count fold_right]. unfold out.
    rewrite length_app, <- (Forall2_length Hrules).
    unfold unpriced. rewrite (filter_length is_priced products). lia.
Qed.

Lemma outage_distribution_is_the_rules_tally_witness :
  exists out w' dist,
    AIEnrichmentEngine.categorize_products Tally.babbling
      [Spec.priced_product "a" "x" 10 VNone;
       [("id", VStr "u"); ("price", VNone)];
       Spec.priced_product "b" "y" 30 VNone]
      (mkWorld 0 [])
    = (Ok out, w')
    /\ EnrichedOutput.category_distribution out = Ok dist
    /\ (forall c,
          EnrichedOutput.count_get (VStr (Spec.category_label c)) dist
          = Tally.count
              (Tally.in_tier
                 (AIEnrichmentEngine.stat_avg
                    (AIEnrichmentEngine.mkStats (Num.NFloat 10)
                                                (Num.NFloat 30) 20)) c)
              (filter AIEnrichmentEngine.is_priced
                 [Spec.priced_product "a" "x" 10 VNone;
                  [("id", VStr "u"); ("price", VNone)];
                  Spec.priced_product "b" "y" 30 VNone]))
    /\ EnrichedOutput.count_get (VStr "Unknown") dist
       = Tally.count Spec.unpriced
           [Spec.priced_product "a" "x" 10 VNone;
            [("id", VStr "u"); ("price", VNone)];
            Spec.priced_product "b" "y" 30 VNone]
    /\ Observed.total_count dist
       = Z.of_nat
           (List.length
              [Spec.priced_product "a" "x" 10 VNone;
               [("id", VStr "u"); ("price", VNone)];
               Spec.priced_product "b" "y" 30 VNone]).
Proof.
  apply (outage_distribution_is_the_rules_tally Tally.babbling
           [Spec.priced_product "a" "x" 10 VNone;
            [("id", VStr "u"); ("price", VNone)];
            Spec.priced_product "b" "y" 30 VNone]
           (AIEnrichmentEngine.mkStats (Num.NFloat 10) (Num.NFloat 30) 20)
           (mkWorld 0 []) (mkWorld 0 [])).
  - intros n prompt. cbn. exists JSONDecodeError. reflexivity.
  - repeat constructor; eexists; reflexivity.
  - repeat constructor.
  - vm_compute. reflexivity.
Defined.

End Outage.
